(** * Dark matter spectra: a shallow embedding of
      [gammapy/astro/darkmatter/spectra.py]

    The module holds three classes: [PrimaryFlux] (a table-driven
    interpolant of the photon yield per annihilation channel) and the two
    flux models built on it, [DarkMatterAnnihilationSpectralModel] and
    [DarkMatterDecaySpectralModel].

    Conventions of the embedding.
    - Python floats are idealised as real numbers.  A float operation whose
      result is [inf] or [nan] (division by zero, logarithm of a
      non-positive number) has no real value: it ends the computation with
      the outcome [NonFinite].  The one place where the module itself
      treats [nan] unlike a number is the bounds check of the [mDM] setter,
      whose comparisons are false at [nan]; that setter is embedded a second
      time on floats that may be [nan] ([mDM_setter_float]).
    - An astropy quantity is a value together with a unit; a unit is a scale
      factor and a vector of dimension exponents.
    - A Python exception is the outcome [Raise e].  A method that mutates
      [self] is a function from the object to the object afterwards and an
      outcome, so that what an exception leaves behind can be stated.
    - Dictionaries and lists handed to [from_dict] are objects of a store,
      addressed by reference, because [from_dict] mutates its argument.
    - Energies are scalars; numpy broadcasting applies the scalar code to
      every element of an array. *)

From Stdlib Require Import Reals Lra.
From stdpp Require Import gmap strings list fin_maps.

Open Scope R_scope.

(** ** Units and quantities (astropy.units) *)

Record Dim := mkDim { d_energy : Z; d_length : Z; d_time : Z }.

Definition dim_mul (a b : Dim) : Dim :=
  mkDim (d_energy a + d_energy b) (d_length a + d_length b) (d_time a + d_time b).

Definition dim_div (a b : Dim) : Dim :=
  mkDim (d_energy a - d_energy b) (d_length a - d_length b) (d_time a - d_time b).

Definition dim_eqb (a b : Dim) : bool :=
  (d_energy a =? d_energy b)%Z && (d_length a =? d_length b)%Z
  && (d_time a =? d_time b)%Z.

Record Unit := mkUnit { uscale : R; udim : Dim }.

Definition unit_mul (a b : Unit) : Unit :=
  mkUnit (uscale a * uscale b) (dim_mul (udim a) (udim b)).

Definition unit_div (a b : Unit) : Unit :=
  mkUnit (uscale a / uscale b) (dim_div (udim a) (udim b)).

Definition dimensionless_unscaled : Unit := mkUnit 1 (mkDim 0 0 0).
Definition GeV : Unit := mkUnit 1 (mkDim 1 0 0).
Definition TeV : Unit := mkUnit 1000 (mkDim 1 0 0).
Definition second : Unit := mkUnit 1 (mkDim 0 0 1).
Definition cm3_per_s : Unit := mkUnit 1 (mkDim 0 3 (-1)).

Record Quantity := mkQ { qvalue : R; qunit : Unit }.

(** ** Python values, exceptions and outcomes *)

Abbreviation loc := nat.

Inductive value :=
| VNone
| VBool (b : bool)
| VNum (r : R)
| VStr (s : string)
| VQuantity (q : Quantity)
| VRef (l : loc).

(** A piece of an f-string: literal text, or an interpolated object that
    the embedding does not render (a float has no exact decimal text
    here).  A quantity whose value is [nan] is [FQty None]. *)
Inductive frag :=
| Txt (s : string)
| FVal (v : value)
| FQty (q : option Quantity).

Inductive exn :=
| FileNotFoundError (msg : string)
| ValueError (msg : list frag)
| KeyError (key : string)
| IndexError
| TypeError
| AttributeError
| UnitConversionError (src dst : Unit)
| UnitTypeError.

Inductive result (A : Type) :=
| Ok (a : A)
| Raise (e : exn)
| NonFinite.

Arguments Ok {A} a.
Arguments Raise {A} e.
Arguments NonFinite {A}.

#[global] Instance result_ret : MRet result := fun A a => Ok a.

#[global] Instance result_bind : MBind result := fun A B f r =>
  match r with
  | Ok a => f a
  | Raise e => Raise e
  | NonFinite => NonFinite
  end.

(** ** Quantity arithmetic *)

(** [Quantity.to(unit)] *)
Definition q_to (q : Quantity) (u : Unit) : result Quantity :=
  if dim_eqb (udim (qunit q)) (udim u)
  then Ok (mkQ (qvalue q * (uscale (qunit q) / uscale u)) u)
  else Raise (UnitConversionError (qunit q) u).

(** [Quantity.to_value(unit)] *)
Definition to_value (q : Quantity) (u : Unit) : result R :=
  q' ← q_to q u; Ok (qvalue q').

(** [scalar * quantity] and [quantity * scalar] *)
Definition q_lscale (r : R) (q : Quantity) : Quantity :=
  mkQ (r * qvalue q) (qunit q).

Definition q_rscale (q : Quantity) (r : R) : Quantity :=
  mkQ (qvalue q * r) (qunit q).

(** [quantity * quantity] *)
Definition q_mul (a b : Quantity) : Quantity :=
  mkQ (qvalue a * qvalue b) (unit_mul (qunit a) (qunit b)).

(** [quantity / quantity]; a zero divisor gives [inf] or [nan] *)
Definition q_div (a b : Quantity) : result Quantity :=
  if Req_dec_T (qvalue b) 0 then NonFinite
  else Ok (mkQ (qvalue a / qvalue b) (unit_div (qunit a) (qunit b))).

(** [quantity / scalar] *)
Definition q_divr (a : Quantity) (r : R) : result Quantity :=
  if Req_dec_T r 0 then NonFinite
  else Ok (mkQ (qvalue a / r) (qunit a)).

(** [np.log10(quantity)]: astropy accepts dimensionless quantities only and
    converts them to the unscaled dimensionless unit first. *)
Definition np_log10 (q : Quantity) : result R :=
  if dim_eqb (udim (qunit q)) (udim dimensionless_unscaled)
  then
    let x := qvalue q * (uscale (qunit q) / uscale dimensionless_unscaled) in
    if Rlt_dec 0 x then Ok (ln x / ln 10) else NonFinite
  else Raise UnitTypeError.

(** Arithmetic on one of the plain attributes [z] and [k], documented as a
    float and an int: a number enters the arithmetic as it is (a Python
    bool is the integer 0 or 1), a string, [None] or a container raises
    [TypeError].  Quantity-valued [z] or [k] are not part of the embedding
    and are rejected in the same way. *)
Definition as_float (v : value) : result R :=
  match v with
  | VNum r => Ok r
  | VBool b => Ok (if b then 1 else 0)
  | _ => Raise TypeError
  end.

(** ** Text helpers (f-strings and [repr]) *)

Definition nl : string := String (Ascii.ascii_of_nat 10) "".

(** [repr] of a string without quote characters *)
Definition py_repr_str (s : string) : string := "'" +:+ s +:+ "'".

Fixpoint join_comma (l : list string) : string :=
  match l with
  | [] => ""
  | [x] => x
  | x :: l' => x +:+ ", " +:+ join_comma l'
  end.

(** [repr] of a list of strings *)
Definition py_repr_list (l : list string) : string :=
  "[" +:+ join_comma (map py_repr_str l) +:+ "]".

(** ** Numeric helpers (floats, numpy) *)

Definition Rltb (a b : R) : bool := if Rlt_dec a b then true else false.

(** A float that may be [nan]: [None] is [nan].  Every comparison with
    [nan] is false. *)
Definition lt_float (v : R) (b : option R) : bool :=
  match b with Some x => Rltb v x | None => false end.

Definition gt_float (v : R) (b : option R) : bool :=
  match b with Some x => Rltb x v | None => false end.

(** A Python float where [nan] matters: a number or [nan].  An infinity
    compares as a number beyond every bound does and is not told apart. *)
Inductive pyfloat :=
| Number (r : R)
| NaN.

(** [a < b], [a > b] and [a <= b] on floats: false when a side is [nan]. *)
Definition float_lt (a b : pyfloat) : bool :=
  match a, b with
  | Number x, Number y => Rltb x y
  | _, _ => false
  end.

Definition float_gt (a b : pyfloat) : bool := float_lt b a.

Definition float_le (a b : pyfloat) : bool :=
  match a, b with
  | Number x, Number y => negb (Rltb y x)
  | _, _ => false
  end.

(** [a * r] for a factor [r] that is a number *)
Definition float_mul (a : pyfloat) (r : R) : pyfloat :=
  match a with
  | Number x => Number (x * r)
  | NaN => NaN
  end.

(** A bound of a parameter, as the float it is. *)
Definition bound_float (b : option R) : pyfloat :=
  match b with
  | Some x => Number x
  | None => NaN
  end.

Fixpoint insert_unique (x : R) (l : list R) : list R :=
  match l with
  | [] => [x]
  | y :: l' =>
      if Rlt_dec x y then x :: l
      else if Rlt_dec y x then y :: insert_unique x l'
      else l
  end.

(** [np.unique]: the sorted distinct elements *)
Definition np_unique (l : list R) : list R := foldr insert_unique [] l.

Definition list_min (l : list R) : option R :=
  match l with [] => None | x :: l' => Some (foldr Rmin x l') end.

Definition list_max (l : list R) : option R :=
  match l with [] => None | x :: l' => Some (foldr Rmax x l') end.

(** ** The data model of [PrimaryFlux] *)

(** [PrimaryFlux.channel_registry], in the order of the source *)
Definition channel_registry : list (string * string) :=
  [ ("eL", "eL"); ("eR", "eR"); ("e", "e");
    ("muL", "\[Mu]L"); ("muR", "\[Mu]R"); ("mu", "\[Mu]");
    ("tauL", "\[Tau]L"); ("tauR", "\[Tau]R"); ("tau", "\[Tau]");
    ("q", "q"); ("c", "c"); ("b", "b"); ("t", "t");
    ("WL", "WL"); ("WT", "WT"); ("W", "W");
    ("ZL", "ZL"); ("ZT", "ZT"); ("Z", "Z");
    ("g", "g"); ("gamma", "\[Gamma]"); ("h", "h");
    ("nu_e", "\[Nu]e"); ("nu_mu", "\[Nu]\[Mu]"); ("nu_tau", "\[Nu]\[Tau]");
    ("V->e", "V->e"); ("V->mu", "V->\[Mu]"); ("V->tau", "V->\[Tau]") ].

Definition table_filename : string :=
  "$GAMMAPY_DATA/dark_matter_spectra/AtProduction_gammas.dat".

(** [allowed_channels]: [list(self.channel_registry.keys())] *)
Definition allowed_channels : list string := channel_registry.*1.

(** [self.channel_registry[c]] *)
Fixpoint registry_get (reg : list (string * string)) (c : string) : result string :=
  match reg with
  | [] => Raise (KeyError c)
  | (k, v) :: reg' => if String.eqb k c then Ok v else registry_get reg' c
  end.

(** An astropy table: numeric columns addressed by name. *)
Abbreviation Table := (gmap string (list R)).

(** [table[name]] *)
Definition column (t : Table) (name : string) : result (list R) :=
  match t !! name with
  | Some c => Ok c
  | None => Raise (KeyError name)
  end.

Record MapAxis := mkAxis {
  ax_name : string;
  ax_nodes : list R;
  ax_interp : string;
  ax_unit : Unit
}.

(** [RegionGeom(region=None, axes=...)] *)
Record RegionGeom := mkGeom { geom_axes : list MapAxis }.

(** [geom.data_shape], as the number of cells *)
Definition data_size (g : RegionGeom) : nat :=
  foldr (fun a n => (length (ax_nodes a) * n)%nat) 1%nat (geom_axes g).

Record RegionNDMap := mkMap { map_geom : RegionGeom; map_data : list R }.

(** [column.reshape(geom.data_shape)]: numpy refuses a shape of another size *)
Definition reshape (col : list R) (g : RegionGeom) : result (list R) :=
  if (length col =? data_size g)%nat then Ok col
  else Raise (ValueError [Txt "cannot reshape array"]).

Fixpoint axis_by_name (axes : list MapAxis) (name : string) : option MapAxis :=
  match axes with
  | [] => None
  | a :: axes' => if String.eqb (ax_name a) name then Some a else axis_by_name axes' name
  end.

Record InterpKwargs := mkInterpKwargs {
  extrapolate : bool;
  fill_value : R;
  values_scale : string
}.

(** A gammapy [Parameter] (the name is a keyword here, hence [Param]); a
    bound that is [nan] (no bound) is [None]. *)
Record Param := mkParam {
  p_name : string;
  p_value : R;
  p_unit : Unit;
  p_min : option R;
  p_max : option R;
  p_frozen : bool
}.

Definition set_value (p : Param) (v : R) : Param :=
  mkParam (p_name p) v (p_unit p) (p_min p) (p_max p) (p_frozen p).

Definition set_frozen (p : Param) (b : bool) : Param :=
  mkParam (p_name p) (p_value p) (p_unit p) (p_min p) (p_max p) b.

(** [Parameter.quantity] *)
Definition p_quantity (p : Param) : Quantity := mkQ (p_value p) (p_unit p).

(** The attributes of a [PrimaryFlux] object: those the class sets itself
    ([table], [_channel]) and those of its base class
    [TemplateNDSpectralModel] ([map], [_interp_kwargs] and the [mass]
    parameter). *)
Record PrimaryFlux := mkPrimaryFlux {
  pf_table : Table;
  pf_channel : string;
  pf_map : RegionNDMap;
  pf_interp_kwargs : InterpKwargs;
  pf_mass : Param
}.

Definition with_channel (self : PrimaryFlux) (c : string) : PrimaryFlux :=
  mkPrimaryFlux (pf_table self) c (pf_map self) (pf_interp_kwargs self) (pf_mass self).

Definition with_mass (self : PrimaryFlux) (p : Param) : PrimaryFlux :=
  mkPrimaryFlux (pf_table self) (pf_channel self) (pf_map self) (pf_interp_kwargs self) p.

(** [PrimaryFlux.mDM] (getter) *)
Definition mDM (self : PrimaryFlux) : Quantity := mkQ (p_value (pf_mass self)) GeV.

(** [PrimaryFlux.channel] (setter).  The f-string of the error is kept in
    three pieces: the text before the channel, the channel, and the rest,
    which holds [repr(self.allowed_channels)]. *)
Definition invalid_channel_msg (channel : value) : list frag :=
  [ Txt "Invalid channel: "; FVal channel;
    Txt (nl +:+ "Available: " +:+ py_repr_list allowed_channels +:+ nl) ].

Definition check_channel (channel : value) : result string :=
  match channel with
  | VStr c =>
      if bool_decide (c ∈ allowed_channels) then Ok c
      else Raise (ValueError (invalid_channel_msg channel))
  | _ => Raise (ValueError (invalid_channel_msg channel))
  end.

Definition channel_setter (self : PrimaryFlux) (channel : value) : PrimaryFlux * result unit :=
  match check_channel channel with
  | Ok c => (with_channel self c, Ok tt)
  | Raise e => (self, Raise e)
  | NonFinite => (self, NonFinite)
  end.

Definition file_not_found_msg : string :=
  nl +:+ nl +:+ "File not found: " +:+ table_filename +:+ nl
  +:+ "You may download the dataset needed with the following command:" +:+ nl
  +:+ "gammapy download datasets --src dark_matter_spectra".

(** The f-string of the error of the [mDM] setter. *)
Definition mass_out_of_bounds_msg (m : Quantity) (min_mass max_mass : option Quantity)
  : list frag :=
  [ Txt "The mass "; FQty (Some m);
    Txt " is out of the bounds of the model. Please choose a mass between ";
    FQty min_mass; Txt " < `mDM` < "; FQty max_mass ].

(** A quantity whose value may be [nan], its conversion to a unit, and the
    piece of an f-string that shows it. *)
Record FloatQuantity := mkFQ { fq_value : pyfloat; fq_unit : Unit }.

Definition fq_to (q : FloatQuantity) (u : Unit) : result FloatQuantity :=
  if dim_eqb (udim (fq_unit q)) (udim u)
  then Ok (mkFQ (float_mul (fq_value q) (uscale (fq_unit q) / uscale u)) u)
  else Raise (UnitConversionError (fq_unit q) u).

Definition fq_to_value (q : FloatQuantity) (u : Unit) : result pyfloat :=
  q' ← fq_to q u; Ok (fq_value q').

Definition fq_frag (q : FloatQuantity) : frag :=
  FQty (match fq_value q with
        | Number x => Some (mkQ x (fq_unit q))
        | NaN => None
        end).

(** [PrimaryFlux.mDM] (setter), called with a quantity whose value may be
    [nan].  The setter has one effect, the assignment
    [self.mass.value = _mDM_val] of its last line: the outcome [Ok v] says
    that the setter returns after assigning [v], and an exception that it
    has assigned nothing. *)
Definition mDM_setter_float (mDM : FloatQuantity) (self : PrimaryFlux) : result pyfloat :=
  let unit := p_unit (pf_mass self) in
  _mDM ← fq_to mDM unit;
  _mDM_val ← fq_to_value _mDM unit;
  let min_mass := (fun x => mkQ x unit) <$> p_min (pf_mass self) in
  let max_mass := (fun x => mkQ x unit) <$> p_max (pf_mass self) in
  if float_lt _mDM_val (bound_float (p_min (pf_mass self)))
     || float_gt _mDM_val (bound_float (p_max (pf_mass self)))
  then Raise (ValueError
         [ Txt "The mass "; fq_frag _mDM;
           Txt " is out of the bounds of the model. Please choose a mass between ";
           FQty min_mass; Txt " < `mDM` < "; FQty max_mass ])
  else Ok _mDM_val.

(** ** The base class of [PrimaryFlux] *)

Definition in_axis_range (x : R) (nodes : list R) : bool :=
  match list_min nodes, list_max nodes with
  | Some lo, Some hi => negb (Rltb x lo) && negb (Rltb hi x)
  | _, _ => false
  end.

(** Modelled from the spec: [TemplateNDSpectralModel.evaluate] and the grid
    interpolation behind it ([gammapy.modeling.models], [gammapy.maps]), which
    are not among the sources.  The spec gives it the axis lists, the value
    grid, the extrapolation flag and the out-of-domain fill value, and has it
    evaluated at a coordinate tuple, here (log10x, mass); the mass comes in
    the keyword arguments.  A coordinate outside the nodes of its axis is out
    of domain: with extrapolation enabled the result is the fill value, and
    no error.  The spec does not fix how values between nodes are
    interpolated, so that scheme is the argument [in_domain].  The yield is
    dimensionless. *)
Definition template_evaluate (in_domain : RegionNDMap → R → R → R)
    (self : PrimaryFlux) (log10x : R) (kwargs : gmap string Quantity)
  : result Quantity :=
  let axes := geom_axes (map_geom (pf_map self)) in
  match axis_by_name axes "energy_true", axis_by_name axes "mass", kwargs !! "mass" with
  | Some log10x_axis, Some mass_axis, Some mass =>
      m ← to_value mass (ax_unit mass_axis);
      if in_axis_range log10x (ax_nodes log10x_axis)
         && in_axis_range m (ax_nodes mass_axis)
      then Ok (mkQ (in_domain (pf_map self) log10x m) dimensionless_unscaled)
      else if extrapolate (pf_interp_kwargs self)
      then Ok (mkQ (fill_value (pf_interp_kwargs self)) dimensionless_unscaled)
      else Raise (ValueError [Txt "coordinate out of bounds"])
  | _, _, _ => Raise (KeyError "mass")
  end.

(** Modelled from the spec: the mass parameter that
    [TemplateNDSpectralModel.__init__] (not among the sources) wires to the
    mass axis: named after the axis, in its unit, bounded by the least and
    the greatest node.  The spec does not say which value it holds before
    the first assignment, so that value is the argument [initial]. *)
Definition template_mass_parameter (initial : MapAxis → R) (mass_axis : MapAxis) : Param :=
  mkParam (ax_name mass_axis) (initial mass_axis) (ax_unit mass_axis)
    (list_min (ax_nodes mass_axis)) (list_max (ax_nodes mass_axis)) false.

(** ** The flux models and the store of dictionaries *)

Record DarkMatterAnnihilationSpectralModel := mkAnnihilation {
  ann_k : value;
  ann_z : value;
  ann_mass : Quantity;
  ann_channel : value;
  ann_jfactor : Quantity;
  ann_primary_flux : PrimaryFlux;
  ann_scale : Param
}.

Record DarkMatterDecaySpectralModel := mkDecay {
  dec_z : value;
  dec_mass : Quantity;
  dec_channel : value;
  dec_jfactor : Quantity;
  dec_primary_flux : PrimaryFlux;
  dec_scale : Param
}.

Definition THERMAL_RELIC_CROSS_SECTION : Quantity := mkQ 3e-26 cm3_per_s.
Definition LIFETIME_AGE_OF_UNIVERSE : Quantity := mkQ 4.3e17 second.

Definition annihilation_tag : list string :=
  ["DarkMatterAnnihilationSpectralModel"; "dm-annihilation"].
Definition decay_tag : list string :=
  ["DarkMatterDecaySpectralModel"; "dm-decay"].

Inductive obj :=
| ODict (d : gmap string value)
| OList (l : list value).

Abbreviation store := (gmap loc obj).

(** A computation on a state [S] that may raise: the state afterwards and
    the outcome.  An exception keeps the state reached so far. *)
Definition StE (S A : Type) : Type := S → S * result A.

Definition ste_ret {S A} (a : A) : StE S A := fun s => (s, Ok a).

Definition ste_bind {S A B} (m : StE S A) (f : A → StE S B) : StE S B :=
  fun s =>
    match m s with
    | (s', Ok a) => f a s'
    | (s', Raise e) => (s', Raise e)
    | (s', NonFinite) => (s', NonFinite)
    end.

Definition lift {S A} (r : result A) : StE S A := fun s => (s, r).
Definition get_state {S} : StE S S := fun s => (s, Ok s).
Definition put_state {S} (s : S) : StE S unit := fun _ => (s, Ok tt).

Notation "x ⇐ m ; k" := (ste_bind m (fun x => k))
  (at level 20, m at level 100, k at level 200, only parsing).

(** [d[key]] *)
Definition get_item (d : value) (key : string) : StE store value :=
  fun σ =>
    match d with
    | VRef l =>
        match σ !! l with
        | Some (ODict m) =>
            match m !! key with
            | Some v => (σ, Ok v)
            | None => (σ, Raise (KeyError key))
            end
        | _ => (σ, Raise TypeError)
        end
    | _ => (σ, Raise TypeError)
    end.

(** [d[key] = v] *)
Definition set_item (d : value) (key : string) (v : value) : StE store unit :=
  fun σ =>
    match d with
    | VRef l =>
        match σ !! l with
        | Some (ODict m) => (<[l := ODict (<[key := v]> m)]> σ, Ok tt)
        | _ => (σ, Raise TypeError)
        end
    | _ => (σ, Raise TypeError)
    end.

(** [d.pop(key)], the key being a string.  A list has a method [pop], which
    takes an index and refuses a string with [TypeError]; [None], a number,
    a string and a quantity have no attribute [pop]. *)
Definition dict_pop (d : value) (key : string) : StE store value :=
  fun σ =>
    match d with
    | VRef l =>
        match σ !! l with
        | Some (ODict m) =>
            match m !! key with
            | Some v => (<[l := ODict (delete key m)]> σ, Ok v)
            | None => (σ, Raise (KeyError key))
            end
        | _ => (σ, Raise TypeError)
        end
    | _ => (σ, Raise AttributeError)
    end.

(** A new object *)
Definition alloc (o : obj) : StE store value :=
  fun σ => let l := fresh (dom σ) in (<[l := o]> σ, Ok (VRef l)).

(** The elements that [for p in v] visits.  Iterating a dictionary or a
    string yields strings. *)
Definition iterate (v : value) : StE store (list value) :=
  fun σ =>
    match v with
    | VRef l =>
        match σ !! l with
        | Some (OList items) => (σ, Ok items)
        | Some (ODict m) => (σ, Ok (VStr <$> (map_to_list m).*1))
        | None => (σ, Raise TypeError)
        end
    | VStr s => (σ, Ok ((fun c => VStr (String c "")) <$> String.list_ascii_of_string s))
    | _ => (σ, Raise TypeError)
    end.

(** [v == "scale"] *)
Definition is_scale (v : value) : bool :=
  match v with VStr s => String.eqb s "scale" | _ => false end.

(** [[p["value"] for p in parameters if p["name"] == "scale"]] *)
Fixpoint scale_values (parameters : list value) : StE store (list value) :=
  match parameters with
  | [] => ste_ret []
  | p :: rest =>
      name ⇐ get_item p "name" ;
      if is_scale name
      then v ⇐ get_item p "value" ; vs ⇐ scale_values rest ; ste_ret (v :: vs)
      else scale_values rest
  end.

(** [l[0]] *)
Definition first {A} (l : list A) : result A :=
  match l with [] => Raise IndexError | x :: _ => Ok x end.

(** [**d]: the entries of a dictionary *)
Definition dict_contents (d : value) : StE store (gmap string value) :=
  fun σ =>
    match d with
    | VRef l =>
        match σ !! l with
        | Some (ODict m) => (σ, Ok m)
        | _ => (σ, Raise TypeError)
        end
    | _ => (σ, Raise TypeError)
    end.

(** [cls(scale=scale, **data)]: the keyword [scale] may not come twice,
    and every key of [data] must name an argument of [__init__]. *)
Definition bind_kwargs (names : list string) (scale : value) (data : gmap string value)
  : result (gmap string value) :=
  if bool_decide ("scale" ∈ dom data) then Raise TypeError
  else if bool_decide (dom data ⊆ list_to_set names) then Ok (<["scale" := scale]> data)
  else Raise TypeError.

(** [kwargs.update(upd)] *)
Definition dict_update {A} (kwargs upd : gmap string A) : gmap string A := upd ∪ kwargs.

(** The default of the argument [scale]: [scale.quantity] of the class
    attribute [Parameter("scale", 1, unit="")]. *)
Definition default_scale : value := VQuantity (mkQ 1 dimensionless_unscaled).

(** The decimal logarithm of a positive real, and the ratio
    [x = energy / mDM] as a pure number, the mass being held in GeV. *)
Definition log10 (x : R) : R := ln x / ln 10.

Definition energy_fraction (self : PrimaryFlux) (energy : Quantity) : R :=
  qvalue energy * uscale (qunit energy) / p_value (pf_mass self).

(** Variants of a model that differ in one attribute. *)
Definition with_k (self : DarkMatterAnnihilationSpectralModel) (k : value)
  : DarkMatterAnnihilationSpectralModel :=
  mkAnnihilation k (ann_z self) (ann_mass self) (ann_channel self) (ann_jfactor self)
    (ann_primary_flux self) (ann_scale self).

Definition with_jfactor (self : DarkMatterDecaySpectralModel) (jfactor : Quantity)
  : DarkMatterDecaySpectralModel :=
  mkDecay (dec_z self) (dec_mass self) (dec_channel self) jfactor
    (dec_primary_flux self) (dec_scale self).

#[global] Instance result_fmap : FMap result := fun A B f r =>
  match r with
  | Ok a => Ok (f a)
  | Raise e => Raise e
  | NonFinite => NonFinite
  end.

(** [a] occurs in [b] *)
Definition contains (a b : string) : Prop := ∃ p s, b = p +:+ a +:+ s.

(** What [from_dict] has done to its argument [data] when it returns: the
    dictionary [data["spectral"]], which held the keys ["type"] and
    ["parameters"], is the same object without them, and nothing else in
    the store has changed. *)
Definition spectral_popped (σ σ' : store) (data : value) : Prop :=
  ∃ ld outer l m inner,
    data = VRef ld ∧
    σ !! ld = Some (ODict outer) ∧ σ' !! ld = Some (ODict outer) ∧
    outer !! "spectral" = Some (VRef l) ∧
    σ !! l = Some (ODict m) ∧
    is_Some (m !! "type") ∧ is_Some (m !! "parameters") ∧
    σ' !! l = Some (ODict inner) ∧
    inner = delete "parameters" (delete "type" m) ∧
    inner !! "type" = None ∧ inner !! "parameters" = None ∧
    σ' = <[l := ODict inner]> σ ∧
    σ' ≠ σ.

(** The nodes of the log-energy-ratio axis of the map. *)
Definition log10x_nodes (self : PrimaryFlux) : list R :=
  match axis_by_name (geom_axes (map_geom (pf_map self))) "energy_true" with
  | Some a => ax_nodes a
  | None => []
  end.

(** The nodes of the mass axis of the map. *)
Definition mass_nodes (self : PrimaryFlux) : list R :=
  match axis_by_name (geom_axes (map_geom (pf_map self))) "mass" with
  | Some a => ax_nodes a
  | None => []
  end.

(** The state of a [PrimaryFlux] that its constructor establishes and its
    setters keep: the channel is a key of the registry, and neither bound of
    the mass parameter rejects the mass. *)
Definition pf_valid (self : PrimaryFlux) : Prop :=
  pf_channel self ∈ allowed_channels ∧
  lt_float (p_value (pf_mass self)) (p_min (pf_mass self)) = false ∧
  gt_float (p_value (pf_mass self)) (p_max (pf_mass self)) = false.

(** More variants of a model that differ in one attribute. *)
Definition with_ann_z (self : DarkMatterAnnihilationSpectralModel) (z : value)
  : DarkMatterAnnihilationSpectralModel :=
  mkAnnihilation (ann_k self) z (ann_mass self) (ann_channel self) (ann_jfactor self)
    (ann_primary_flux self) (ann_scale self).

Definition with_ann_jfactor (self : DarkMatterAnnihilationSpectralModel)
    (jfactor : Quantity) : DarkMatterAnnihilationSpectralModel :=
  mkAnnihilation (ann_k self) (ann_z self) (ann_mass self) (ann_channel self) jfactor
    (ann_primary_flux self) (ann_scale self).

Definition with_dec_z (self : DarkMatterDecaySpectralModel) (z : value)
  : DarkMatterDecaySpectralModel :=
  mkDecay z (dec_mass self) (dec_channel self) (dec_jfactor self)
    (dec_primary_flux self) (dec_scale self).

(** Every object of the store [σ] is in [σ'] as it was. *)
Definition store_kept (σ σ' : store) : Prop :=
  ∀ l o, σ !! l = Some o → σ' !! l = Some o.

(** An entry of a list of parameters: a dictionary of the store with the
    given name, and with the given value if it has one. *)
Definition param_entry (σ : store) (item name : value) (v : option value) : Prop :=
  ∃ l d, item = VRef l ∧ σ !! l = Some (ODict d) ∧
         d !! "name" = Some name ∧ d !! "value" = v.

(** ** A small data file and objects built from it

    Two masses, two log-energy ratios and the column of the channel ["b"];
    astropy's printing and reading are given on the two quantities that the
    examples serialise. *)

Definition sample_table : Table :=
  {[ "mDM" := [100; 100; 10000; 10000];
     "Log[10,x]" := [-2; -1; -2; -1];
     "b" := [0.5; 0.25; 0.75; 0.125] ]}.

Definition sample_file : option (result Table) := Some (Ok sample_table).

Definition sample_to_string (q : Quantity) : string :=
  if dim_eqb (udim (qunit q)) (udim GeV) then "5000.0 GeV" else "1.0".

Definition sample_parse (s : string) : option Quantity :=
  if String.eqb s "5000.0 GeV" then Some (mkQ 5000 GeV)
  else if String.eqb s "1.0" then Some (mkQ 1 dimensionless_unscaled)
  else None.

Definition sample_initial (a : MapAxis) : R := 0.

Definition sample_super_evaluate (self : PrimaryFlux) (log10x : R)
    (kwargs : gmap string Quantity) : result Quantity :=
  Ok (mkQ 0.5 dimensionless_unscaled).

Definition sample_in_domain (m : RegionNDMap) (log10x mass : R) : R := 0.5.

Definition sample_geom : RegionGeom :=
  mkGeom [ mkAxis "energy_true" [-2; -1] "lin" dimensionless_unscaled;
           mkAxis "mass" [100; 10000] "log" GeV ].

Definition sample_flux : PrimaryFlux :=
  mkPrimaryFlux sample_table "b" (mkMap sample_geom [0.5; 0.25; 0.75; 0.125])
    (mkInterpKwargs true 0 "lin")
    (mkParam "mass" 5000 GeV (Some 100) (Some 10000) true).

Definition sample_annihilation : DarkMatterAnnihilationSpectralModel :=
  mkAnnihilation (VNum 2) (VNum 0) (mkQ 5000 GeV) (VStr "b")
    (mkQ 1 dimensionless_unscaled) sample_flux
    (mkParam "scale" 1 dimensionless_unscaled None None false).

Definition sample_decay : DarkMatterDecaySpectralModel :=
  mkDecay (VNum 0) (mkQ 5000 GeV) (VStr "b") (mkQ 1 dimensionless_unscaled) sample_flux
    (mkParam "scale" 1 dimensionless_unscaled None None false).

(** A store holding a record of the annihilation model. *)
Definition sample_store : store :=
  {[ 0%nat := ODict {[ "spectral" := VRef 1 ]};
     1%nat := ODict {[ "type" := VStr "DarkMatterAnnihilationSpectralModel";
                       "parameters" := VRef 2;
                       "channel" := VStr "b";
                       "mass" := VStr "5000.0 GeV";
                       "jfactor" := VStr "1.0";
                       "z" := VNum 0;
                       "k" := VNum 2 ]};
     2%nat := OList [VRef 3];
     3%nat := ODict {[ "name" := VStr "scale"; "value" := VNum 1;
                       "frozen" := VBool false ]} ]}.

(** Stores for the error cases of [from_dict]: a record without
    ["parameters"], a record whose list of parameters is empty, and two
    parameter entries. *)
Definition sample_store_no_parameters : store :=
  {[ 0%nat := ODict {[ "spectral" := VRef 1 ]};
     1%nat := ODict {[ "type" := VStr "DarkMatterDecaySpectralModel" ]} ]}.

Definition sample_inner_no_scale : gmap string value :=
  {[ "type" := VStr "DarkMatterDecaySpectralModel"; "parameters" := VRef 2 ]}.

Definition sample_store_no_scale : store :=
  {[ 0%nat := ODict {[ "spectral" := VRef 1 ]};
     1%nat := ODict sample_inner_no_scale;
     2%nat := OList [] ]}.

Definition sample_store_entries : store :=
  {[ 5%nat := ODict {[ "name" := VStr "index" ]};
     6%nat := ODict {[ "name" := VStr "scale"; "value" := VNum 3 ]} ]}.




(** One step of a computation in [result]. *)
Ltac bind_step := cbn [mbind result_bind fmap result_fmap].
Tactic Notation "bind_step" "in" hyp(H) := cbn [mbind result_bind fmap result_fmap] in H.

Section Spectra.

(** What the module takes from outside: astropy's reading and printing of
    quantities, the base-class evaluation of the template model, the value
    the base class gives the mass parameter before the first assignment,
    and the data file ([None]: no file at [table_filename]; otherwise what
    [Table.read] returns or raises). *)
Variable parse_quantity : string → option Quantity.
Variable to_string : Quantity → string.
Variable super_evaluate : PrimaryFlux → R → gmap string Quantity → result Quantity.
Variable template_initial_value : MapAxis → R.
Variable table_file : option (result Table).

(** [u.Quantity(v)] for a scalar [v]; containers are outside the scalar
    embedding and rejected. *)
Definition u_Quantity (v : value) : result Quantity :=
  match v with
  | VQuantity q => Ok q
  | VNum r => Ok (mkQ r dimensionless_unscaled)
  | VBool b => Ok (mkQ (if b then 1 else 0) dimensionless_unscaled)
  | VStr s =>
      match parse_quantity s with
      | Some q => Ok q
      | None => Raise TypeError
      end
  | VNone => Raise TypeError
  | VRef _ => Raise TypeError
  end.

(** [PrimaryFlux.mDM] (setter), for a candidate whose value is a number; a
    candidate whose value is [nan] is the matter of [mDM_setter_float]. *)
Definition mDM_setter (mDM : value) : StE PrimaryFlux unit :=
  self ⇐ get_state;
  let unit := p_unit (pf_mass self) in
  _mDM ⇐ lift (q ← u_Quantity mDM; q_to q unit);
  _mDM_val ⇐ lift (to_value _mDM unit);
  let min_mass := (fun x => mkQ x unit) <$> p_min (pf_mass self) in
  let max_mass := (fun x => mkQ x unit) <$> p_max (pf_mass self) in
  if lt_float _mDM_val (p_min (pf_mass self)) || gt_float _mDM_val (p_max (pf_mass self))
  then lift (Raise (ValueError (mass_out_of_bounds_msg _mDM min_mass max_mass)))
  else put_state (with_mass self (set_value (pf_mass self) _mDM_val)).

(** [PrimaryFlux.__init__] *)
Definition PrimaryFlux_init (mDM channel : value) : result PrimaryFlux :=
  match table_file with
  | None => Raise (FileNotFoundError file_not_found_msg)
  | Some read =>
      table ← read;
      c ← check_channel channel;
      mDM_column ← column table "mDM";
      let masses := np_unique mDM_column in
      log10x_column ← column table "Log[10,x]";
      let log10x := np_unique log10x_column in
      let mass_axis := mkAxis "mass" masses "log" GeV in
      let log10x_axis := mkAxis "energy_true" log10x "lin" dimensionless_unscaled in
      channel_name ← registry_get channel_registry c;
      let geom := mkGeom [log10x_axis; mass_axis] in
      channel_column ← column table channel_name;
      data ← reshape channel_column geom;
      let region_map := mkMap geom data in
      let interp_kwargs := mkInterpKwargs true 0 "lin" in
      let self :=
        mkPrimaryFlux table c region_map interp_kwargs
          (template_mass_parameter template_initial_value mass_axis) in
      let '(self, r) := mDM_setter mDM self in
      _ ← r;
      Ok (with_mass self (set_frozen (pf_mass self) true))
  end.

(** [PrimaryFlux.evaluate] *)
Definition evaluate (self : PrimaryFlux) (energy : Quantity) (kwargs : gmap string Quantity)
  : result Quantity :=
  let mass : gmap string Quantity := {[ "mass" := mDM self ]} in
  let kwargs := dict_update kwargs mass in
  x ← q_div energy (mDM self);
  log10x ← np_log10 x;
  dN_dlogx ← super_evaluate self log10x kwargs;
  dN_dE ← q_div dN_dlogx (q_rscale energy (ln 10));
  Ok dN_dE.

(** Modelled from the spec: [SpectralModel.__call__] (not among the
    sources), through which the flux models query their [primary_flux]: it
    evaluates the model at the energy, handing [evaluate] the quantity of
    each parameter of the model under the parameter's name. *)
Definition PrimaryFlux_call (self : PrimaryFlux) (energy : Quantity) : result Quantity :=
  evaluate self energy {[ p_name (pf_mass self) := p_quantity (pf_mass self) ]}.

(** Modelled from the spec: [SpectralModel.__init__(scale=scale)] (not among
    the sources) gives the model its [scale] parameter, holding the scale
    passed in. *)
Definition scale_parameter (scale : value) : result Param :=
  q ← u_Quantity scale;
  Ok (mkParam "scale" (qvalue q) (qunit q) None None false).

(** [DarkMatterAnnihilationSpectralModel.__init__] *)
Definition annihilation_init (mass channel scale jfactor z k : value)
  : result DarkMatterAnnihilationSpectralModel :=
  mass' ← u_Quantity mass;
  jfactor' ← u_Quantity jfactor;
  primary_flux ← PrimaryFlux_init mass channel;
  scale' ← scale_parameter scale;
  Ok (mkAnnihilation k z mass' channel jfactor' primary_flux scale').

(** [DarkMatterAnnihilationSpectralModel.evaluate]; the argument [scale] is a
    pure number. *)
Definition annihilation_evaluate (self : DarkMatterAnnihilationSpectralModel)
    (energy : Quantity) (scale : R) : result Quantity :=
  z ← as_float (ann_z self);
  dN_dE ← PrimaryFlux_call (ann_primary_flux self) (q_rscale energy (1 + z));
  let flux :=
    q_mul (q_mul (q_lscale scale (ann_jfactor self)) THERMAL_RELIC_CROSS_SECTION) dN_dE in
  k ← as_float (ann_k self);
  flux ← q_divr flux k;
  flux ← q_div flux (ann_mass self);
  flux ← q_div flux (ann_mass self);
  q_divr flux (4 * PI).

(** [DarkMatterDecaySpectralModel.__init__] *)
Definition decay_init (mass channel scale jfactor z : value)
  : result DarkMatterDecaySpectralModel :=
  mass' ← u_Quantity mass;
  jfactor' ← u_Quantity jfactor;
  primary_flux ← PrimaryFlux_init mass channel;
  scale' ← scale_parameter scale;
  Ok (mkDecay z mass' channel jfactor' primary_flux scale').

(** [DarkMatterDecaySpectralModel.evaluate]; the argument [scale] is a pure
    number. *)
Definition decay_evaluate (self : DarkMatterDecaySpectralModel)
    (energy : Quantity) (scale : R) : result Quantity :=
  z ← as_float (dec_z self);
  dN_dE ← PrimaryFlux_call (dec_primary_flux self) (q_rscale energy (1 + z));
  let flux := q_mul (q_lscale scale (dec_jfactor self)) dN_dE in
  flux ← q_div flux LIFETIME_AGE_OF_UNIVERSE;
  flux ← q_div flux (dec_mass self);
  q_divr flux (4 * PI).

(** A call of the annihilation class with keyword arguments only: [mass] and
    [channel] are required, the other arguments have defaults. *)
Definition annihilation_new (kwargs : gmap string value)
  : result DarkMatterAnnihilationSpectralModel :=
  match kwargs !! "mass", kwargs !! "channel" with
  | Some mass, Some channel =>
      annihilation_init mass channel
        (default default_scale (kwargs !! "scale"))
        (default (VNum 1) (kwargs !! "jfactor"))
        (default (VNum 0) (kwargs !! "z"))
        (default (VNum 2) (kwargs !! "k"))
  | _, _ => Raise TypeError
  end.

Definition decay_new (kwargs : gmap string value) : result DarkMatterDecaySpectralModel :=
  match kwargs !! "mass", kwargs !! "channel" with
  | Some mass, Some channel =>
      decay_init mass channel
        (default default_scale (kwargs !! "scale"))
        (default (VNum 1) (kwargs !! "jfactor"))
        (default (VNum 0) (kwargs !! "z"))
  | _, _ => Raise TypeError
  end.

(** Modelled from the spec: [SpectralModel.to_dict] (not among the
    sources) builds the structured record: under ["spectral"], the type tag
    and the list of parameters, here the scale parameter with its name, its
    current value and its frozen flag. *)
Definition model_to_dict (tag : list string) (scale : Param) (full_output : bool)
  : StE store value :=
  p ⇐ alloc (ODict {[ "name" := VStr (p_name scale);
                      "value" := VNum (p_value scale);
                      "frozen" := VBool (p_frozen scale) ]});
  parameters ⇐ alloc (OList [p]);
  spectral ⇐ alloc (ODict {[ "type" := VStr (default "" (head tag));
                             "parameters" := parameters ]});
  alloc (ODict {[ "spectral" := spectral ]}).

(** [DarkMatterAnnihilationSpectralModel.to_dict] *)
Definition annihilation_to_dict (self : DarkMatterAnnihilationSpectralModel)
    (full_output : bool) : StE store value :=
  data ⇐ model_to_dict annihilation_tag (ann_scale self) full_output;
  spectral ⇐ get_item data "spectral";
  _ ⇐ set_item spectral "channel" (ann_channel self);
  spectral ⇐ get_item data "spectral";
  _ ⇐ set_item spectral "mass" (VStr (to_string (ann_mass self)));
  spectral ⇐ get_item data "spectral";
  _ ⇐ set_item spectral "jfactor" (VStr (to_string (ann_jfactor self)));
  spectral ⇐ get_item data "spectral";
  _ ⇐ set_item spectral "z" (ann_z self);
  spectral ⇐ get_item data "spectral";
  _ ⇐ set_item spectral "k" (ann_k self);
  ste_ret data.

(** [DarkMatterAnnihilationSpectralModel.from_dict] *)
Definition annihilation_from_dict (data : value)
  : StE store DarkMatterAnnihilationSpectralModel :=
  data ⇐ get_item data "spectral";
  _ ⇐ dict_pop data "type";
  parameters ⇐ dict_pop data "parameters";
  items ⇐ iterate parameters;
  scales ⇐ scale_values items;
  scale ⇐ lift (first scales);
  kwargs ⇐ dict_contents data;
  lift (kwargs ← bind_kwargs ["mass"; "channel"; "scale"; "jfactor"; "z"; "k"] scale kwargs;
        annihilation_new kwargs).

(** [DarkMatterDecaySpectralModel.to_dict] *)
Definition decay_to_dict (self : DarkMatterDecaySpectralModel)
    (full_output : bool) : StE store value :=
  data ⇐ model_to_dict decay_tag (dec_scale self) full_output;
  spectral ⇐ get_item data "spectral";
  _ ⇐ set_item spectral "channel" (dec_channel self);
  spectral ⇐ get_item data "spectral";
  _ ⇐ set_item spectral "mass" (VStr (to_string (dec_mass self)));
  spectral ⇐ get_item data "spectral";
  _ ⇐ set_item spectral "jfactor" (VStr (to_string (dec_jfactor self)));
  spectral ⇐ get_item data "spectral";
  _ ⇐ set_item spectral "z" (dec_z self);
  ste_ret data.

(** [DarkMatterDecaySpectralModel.from_dict] *)
Definition decay_from_dict (data : value) : StE store DarkMatterDecaySpectralModel :=
  data ⇐ get_item data "spectral";
  _ ⇐ dict_pop data "type";
  parameters ⇐ dict_pop data "parameters";
  items ⇐ iterate parameters;
  scales ⇐ scale_values items;
  scale ⇐ lift (first scales);
  kwargs ⇐ dict_contents data;
  lift (kwargs ← bind_kwargs ["mass"; "channel"; "scale"; "jfactor"; "z"] scale kwargs;
        decay_new kwargs).


(** The interpolant state of an annihilation model is the derived one: its
    primary flux is what [PrimaryFlux] builds for the mass and the channel
    of the model, and its scale parameter bears the name of the class
    attribute.  The constructor leaves a model in this state. *)
Definition annihilation_derived (self : DarkMatterAnnihilationSpectralModel) : Prop :=
  PrimaryFlux_init (VQuantity (ann_mass self)) (ann_channel self)
  = Ok (ann_primary_flux self)
  ∧ p_name (ann_scale self) = "scale".

(** The same state for a decay model. *)
Definition decay_derived (self : DarkMatterDecaySpectralModel) : Prop :=
  PrimaryFlux_init (VQuantity (dec_mass self)) (dec_channel self)
  = Ok (dec_primary_flux self)
  ∧ p_name (dec_scale self) = "scale".

(** [from_dict] of one of the two models, called on [data] in the store
    [σ], returns a model and leaves the store [σ']. *)
Definition from_dict_returns (data : value) (σ σ' : store) : Prop :=
  (∃ self, annihilation_from_dict data σ = (σ', Ok self)) ∨
  (∃ self, decay_from_dict data σ = (σ', Ok self)).

(** ** Properties *)

(** *** Arithmetic facts *)

Lemma ln_10_pos : 0 < ln 10.
Proof. rewrite <- ln_1. apply ln_increasing; lra. Qed.

Lemma log10_nonneg x : 1 <= x → 0 <= log10 x.
Proof.
  intros Hx. unfold log10.
  assert (0 <= ln x).
  { destruct Hx as [Hx | <-]; [| rewrite ln_1; lra].
    rewrite <- ln_1. left. apply ln_increasing; lra. }
  apply Rmult_le_pos; [done |]. left. apply Rinv_0_lt_compat, ln_10_pos.
Qed.

Lemma Rltb_true a b : a < b → Rltb a b = true.
Proof. intros H. unfold Rltb. destruct (Rlt_dec a b); [done | contradiction]. Qed.

Lemma Rltb_false a b : b <= a → Rltb a b = false.
Proof. intros H. unfold Rltb. destruct (Rlt_dec a b); [lra | done]. Qed.

Lemma energy_fraction_pos self energy :
  0 < energy_fraction self energy →
  p_value (pf_mass self) ≠ 0 ∧ qvalue energy ≠ 0.
Proof.
  unfold energy_fraction. intros H. split; intros E; rewrite E in H.
  - unfold Rdiv in H. rewrite Rinv_0, Rmult_0_r in H. lra.
  - unfold Rdiv in H. rewrite !Rmult_0_l in H. lra.
Qed.

Lemma dim_eqb_refl d : dim_eqb d d = true.
Proof. unfold dim_eqb. rewrite !Z.eqb_refl. done. Qed.

(** *** [PrimaryFlux.evaluate] *)

(** The logarithm that [evaluate] takes of [energy / self.mDM]. *)
Lemma log10_energy_ratio self energy :
  udim (qunit energy) = udim GeV →
  0 < energy_fraction self energy →
  (x ← q_div energy (mDM self); np_log10 x) = Ok (log10 (energy_fraction self energy)).
Proof.
  intros Hdim Hx. destruct (energy_fraction_pos _ _ Hx) as [Hm He].
  unfold q_div. cbn [mDM qvalue qunit].
  destruct (Req_dec_T (p_value (pf_mass self)) 0) as [E | _]; [contradiction |].
  cbn. unfold np_log10. cbn [qvalue qunit unit_div udim uscale].
  rewrite Hdim. cbn.
  set (x := qvalue energy / p_value (pf_mass self) * (uscale (qunit energy) / 1 / 1)).
  assert (Ex : x = energy_fraction self energy).
  { unfold x, energy_fraction. field. done. }
  rewrite Ex. destruct (Rlt_dec 0 (energy_fraction self energy)); [done | contradiction].
Qed.

(** [evaluate] at an energy with [x = energy / mDM] positive, step by step. *)
Lemma evaluate_unfold self energy kwargs :
  udim (qunit energy) = udim GeV →
  0 < energy_fraction self energy →
  evaluate self energy kwargs =
    dN_dlogx ← super_evaluate self (log10 (energy_fraction self energy))
                 (<["mass" := mDM self]> kwargs);
    Ok (mkQ (qvalue dN_dlogx / (qvalue energy * ln 10))
            (unit_div (qunit dN_dlogx) (qunit energy))).
Proof.
  intros Hdim Hx. unfold evaluate.
  pose proof (log10_energy_ratio self energy Hdim Hx) as Hlog.
  destruct (q_div energy (mDM self)) as [x | e | ]; cbn in Hlog; try discriminate.
  cbn. rewrite Hlog. cbn.
  unfold dict_update. rewrite <- insert_union_singleton_l.
  destruct (super_evaluate _ _ _) as [dN | e | ]; cbn; try done.
  unfold q_div. cbn [q_rscale qvalue qunit].
  destruct (Req_dec_T (qvalue energy * ln 10) 0) as [E | _]; [| done].
  destruct (energy_fraction_pos _ _ Hx) as [_ He].
  pose proof ln_10_pos.
  apply Rmult_integral in E. destruct E; [contradiction | lra].
Qed.

Lemma evaluate_Ok self energy kwargs dN_dlogx :
  udim (qunit energy) = udim GeV →
  0 < energy_fraction self energy →
  super_evaluate self (log10 (energy_fraction self energy))
    (<["mass" := mDM self]> kwargs) = Ok dN_dlogx →
  evaluate self energy kwargs =
    Ok (mkQ (qvalue dN_dlogx / (qvalue energy * ln 10))
            (unit_div (qunit dN_dlogx) (qunit energy))).
Proof. intros Hdim Hx H. rewrite evaluate_unfold by done. by rewrite H. Qed.

(** C1.  For an energy quantity [energy] and a [PrimaryFlux] whose mass is
    [mDM], with [x = energy / mDM] positive, [evaluate] queries the
    base-class interpolant at [log10 x] with the keyword [mass] set to
    [self.mDM]; when the interpolant returns the yield [dN_dlogx],
    [evaluate] returns the quantity of value
    [dN_dlogx / (energy * ln 10)], in the unit of the yield over the unit
    of the energy, and an error of the interpolant is passed on. *)
Theorem evaluate_jacobian self energy kwargs :
  udim (qunit energy) = udim GeV →
  0 < energy_fraction self energy →
  let log10x := log10 (energy_fraction self energy) in
  let queried := super_evaluate self log10x (<["mass" := mDM self]> kwargs) in
  (∀ dN_dlogx, queried = Ok dN_dlogx →
     ∃ dN_dE, evaluate self energy kwargs = Ok dN_dE ∧
       qvalue dN_dE = qvalue dN_dlogx / (qvalue energy * ln 10) ∧
       qunit dN_dE = unit_div (qunit dN_dlogx) (qunit energy)) ∧
  (∀ e, queried = Raise e → evaluate self energy kwargs = Raise e) ∧
  (queried = NonFinite → evaluate self energy kwargs = NonFinite).
Proof.
  intros Hdim Hx log10x queried. subst log10x queried.
  rewrite evaluate_unfold by done. split_and!.
  - intros dN ->. bind_step. by eexists.
  - by intros e ->.
  - by intros ->.
Qed.

(** C9.  The result of [evaluate] does not depend on a [mass] entry of the
    keyword arguments: two dictionaries of keyword arguments that agree
    once their [mass] entries are removed give the same result. *)
Theorem evaluate_ignores_mass_keyword self energy (kwargs1 kwargs2 : gmap string Quantity) :
  delete "mass" kwargs1 = delete "mass" kwargs2 →
  evaluate self energy kwargs1 = evaluate self energy kwargs2.
Proof.
  intros Hdel. unfold evaluate, dict_update.
  rewrite <- !insert_union_singleton_l.
  rewrite <- (insert_delete_eq kwargs1), <- (insert_delete_eq kwargs2), Hdel.
  done.
Qed.

(** *** The flux models *)

Lemma four_pi_neq_0 : 4 * PI ≠ 0.
Proof. pose proof PI_RGT_0. lra. Qed.

Lemma q_divr_ok a r : r ≠ 0 → q_divr a r = Ok (mkQ (qvalue a / r) (qunit a)).
Proof. intros H. unfold q_divr. destruct (Req_dec_T r 0); [contradiction | done]. Qed.

Lemma q_div_ok a b :
  qvalue b ≠ 0 →
  q_div a b = Ok (mkQ (qvalue a / qvalue b) (unit_div (qunit a) (qunit b))).
Proof. intros H. unfold q_div. destruct (Req_dec_T (qvalue b) 0); [contradiction | done]. Qed.

Lemma q_div_zero a b : qvalue b = 0 → q_div a b = NonFinite.
Proof. intros H. unfold q_div. destruct (Req_dec_T (qvalue b) 0); [done | contradiction]. Qed.

Lemma unit_eq u v : uscale u = uscale v → udim u = udim v → u = v.
Proof. destruct u, v. cbn. by intros -> ->. Qed.

Lemma dim_eq a b :
  d_energy a = d_energy b → d_length a = d_length b → d_time a = d_time b → a = b.
Proof. destruct a, b. cbn. by intros -> -> ->. Qed.

(** C2.  With numbers [z] and [k] in the attributes of that name, [k] and
    the mass not zero, and the primary flux at the blueshifted energy
    [energy * (1 + z)] returning [dN_dE], the annihilation model's
    [evaluate] returns a quantity whose value is
    [scale * jfactor * 3e-26 * dN_dE / (k * mass^2 * 4 pi)] and whose unit
    is the unit of [jfactor * cm3/s * dN_dE / mass^2]; the cross-section is
    the constant 3e-26 cm3/s. *)
Theorem annihilation_evaluate_formula self energy scale z k dN_dE :
  ann_z self = VNum z →
  ann_k self = VNum k →
  k ≠ 0 →
  qvalue (ann_mass self) ≠ 0 →
  PrimaryFlux_call (ann_primary_flux self) (q_rscale energy (1 + z)) = Ok dN_dE →
  THERMAL_RELIC_CROSS_SECTION = mkQ 3e-26 cm3_per_s ∧
  ∃ flux,
    annihilation_evaluate self energy scale = Ok flux ∧
    qvalue flux =
      scale * qvalue (ann_jfactor self) * 3e-26 * qvalue dN_dE
      / (k * (qvalue (ann_mass self))^2 * (4 * PI)) ∧
    qunit flux =
      unit_div (unit_mul (unit_mul (qunit (ann_jfactor self)) cm3_per_s) (qunit dN_dE))
               (unit_mul (qunit (ann_mass self)) (qunit (ann_mass self))).
Proof.
  intros Hz Hk Hk0 Hm Hpf. split; [done |].
  unfold annihilation_evaluate. rewrite Hz, Hk. cbn. rewrite Hpf. cbn.
  rewrite q_divr_ok by done. cbn.
  rewrite q_div_ok by done. cbn.
  rewrite q_div_ok by done. cbn.
  rewrite q_divr_ok by apply four_pi_neq_0.
  eexists. split; [done |]. cbn. split.
  - field. pose proof PI_RGT_0.
    repeat split; try done; try (apply not_0_IZR; lia); lra.
  - apply unit_eq; cbn.
    + unfold Rdiv. rewrite Rinv_mult. ring.
    + apply dim_eq; cbn; lia.
Qed.

(** C3.  With a number [z] in the attribute of that name, the mass not zero,
    and the primary flux at the blueshifted energy [energy * (1 + z)]
    returning [dN_dE], the decay model's [evaluate] returns a quantity whose
    value is [scale * jfactor * dN_dE / (4.3e17 * mass * 4 pi)] and whose
    unit is the unit of [jfactor * dN_dE / (s * mass)]; the lifetime is the
    constant 4.3e17 s, and no attribute [k] enters. *)
Theorem decay_evaluate_formula self energy scale z dN_dE :
  dec_z self = VNum z →
  qvalue (dec_mass self) ≠ 0 →
  PrimaryFlux_call (dec_primary_flux self) (q_rscale energy (1 + z)) = Ok dN_dE →
  LIFETIME_AGE_OF_UNIVERSE = mkQ 4.3e17 second ∧
  ∃ flux,
    decay_evaluate self energy scale = Ok flux ∧
    qvalue flux =
      scale * qvalue (dec_jfactor self) * qvalue dN_dE
      / (4.3e17 * qvalue (dec_mass self) * (4 * PI)) ∧
    qunit flux =
      unit_div (unit_mul (qunit (dec_jfactor self)) (qunit dN_dE))
               (unit_mul second (qunit (dec_mass self))).
Proof.
  intros Hz Hm Hpf. split; [done |].
  unfold decay_evaluate. rewrite Hz. cbn. rewrite Hpf. cbn.
  assert (Htau : qvalue LIFETIME_AGE_OF_UNIVERSE ≠ 0) by (change (4.3e17 ≠ 0); lra).
  rewrite q_div_ok by done. cbn.
  rewrite q_div_ok by done. cbn.
  rewrite q_divr_ok by apply four_pi_neq_0.
  eexists. split; [done |]. cbn. split.
  - field. pose proof PI_RGT_0.
    repeat split; try done; try (apply not_0_IZR; lia); lra.
  - apply unit_eq; cbn.
    + unfold Rdiv. rewrite Rinv_mult. ring.
    + apply dim_eq; cbn; lia.
Qed.

Lemma quantity_eq a b : qvalue a = qvalue b → qunit a = qunit b → a = b.
Proof. destruct a, b. cbn. by intros -> ->. Qed.

Lemma q_divr_lscale c a r : q_divr (q_lscale c a) r = q_lscale c <$> q_divr a r.
Proof.
  unfold q_divr. destruct (Req_dec_T r 0); [done |]. bind_step.
  f_equal. apply quantity_eq; cbn; [| done]. unfold Rdiv. ring.
Qed.

Lemma q_div_lscale c a b : q_div (q_lscale c a) b = q_lscale c <$> q_div a b.
Proof.
  unfold q_div. destruct (Req_dec_T (qvalue b) 0); [done |]. bind_step.
  f_equal. apply quantity_eq; cbn; [| done]. unfold Rdiv. ring.
Qed.

Lemma q_mul_lscale c a b : q_mul (q_lscale c a) b = q_lscale c (q_mul a b).
Proof. apply quantity_eq; cbn; [ring | done]. Qed.

Lemma q_lscale_mul c r a : q_lscale (c * r) a = q_lscale c (q_lscale r a).
Proof. apply quantity_eq; cbn; [ring | done]. Qed.

(** A bind whose argument is scaled: the scaling moves to the result when
    the continuation commutes with it. *)
Lemma bind_lscale c (r : result Quantity) (f : Quantity → result Quantity) :
  (∀ a, f (q_lscale c a) = q_lscale c <$> f a) →
  ((q_lscale c <$> r) ≫= f) = q_lscale c <$> (r ≫= f).
Proof. intros Hf. destruct r; bind_step; [apply Hf | done | done]. Qed.

Lemma decay_evaluate_scale self energy scale c :
  decay_evaluate self energy (c * scale) = q_lscale c <$> decay_evaluate self energy scale.
Proof.
  unfold decay_evaluate.
  destruct (as_float (dec_z self)) as [z | e | ]; bind_step; try done.
  destruct (PrimaryFlux_call _ _) as [dN | e | ]; bind_step; try done.
  rewrite q_lscale_mul, q_mul_lscale, q_div_lscale.
  apply bind_lscale. intros a.
  rewrite q_div_lscale. apply bind_lscale. intros b. apply q_divr_lscale.
Qed.

Lemma decay_evaluate_jfactor self energy scale c :
  decay_evaluate (with_jfactor self (q_lscale c (dec_jfactor self))) energy scale
  = q_lscale c <$> decay_evaluate self energy scale.
Proof.
  rewrite <- decay_evaluate_scale.
  unfold decay_evaluate. cbn [with_jfactor dec_z dec_primary_flux dec_jfactor dec_mass].
  replace (q_lscale scale (q_lscale c (dec_jfactor self)))
    with (q_lscale (c * scale) (dec_jfactor self)); [done |].
  apply quantity_eq; cbn; [ring | done].
Qed.

Lemma annihilation_evaluate_k self energy scale k :
  k ≠ 0 →
  annihilation_evaluate (with_k self (VNum k)) energy scale
  = q_lscale (1 / k) <$> annihilation_evaluate (with_k self (VNum 1)) energy scale.
Proof.
  intros Hk. unfold annihilation_evaluate.
  cbn [with_k ann_z ann_k ann_primary_flux ann_jfactor ann_mass].
  destruct (as_float (ann_z self)) as [z | e | ]; bind_step; try done.
  destruct (PrimaryFlux_call _ _) as [dN | e | ]; bind_step; try done.
  cbn [as_float]. bind_step.
  rewrite !q_divr_ok by lra. bind_step.
  set (flux := q_mul _ dN).
  replace (mkQ (qvalue flux / k) (qunit flux))
    with (q_lscale (1 / k) (mkQ (qvalue flux / 1) (qunit flux))).
  2: { apply quantity_eq; cbn [qvalue qunit q_lscale]; [| done]. by field. }
  rewrite q_div_lscale.
  apply bind_lscale. intros a.
  rewrite q_div_lscale. apply bind_lscale. intros b. apply q_divr_lscale.
Qed.

(** C8.  With the energy and the other attributes fixed, the decay model's
    [evaluate] is homogeneous of degree one in the argument [scale] and in
    the attribute [jfactor] (whatever the outcome, a flux or an error), and
    the annihilation model's [evaluate] is [1 / k] times its value at
    [k = 1]; so the model with [k = 2] returns twice the flux of the model
    with [k = 4]. *)
Theorem flux_scaling energy scale c :
  (∀ self,
     decay_evaluate self energy (c * scale)
     = q_lscale c <$> decay_evaluate self energy scale) ∧
  (∀ self,
     decay_evaluate (with_jfactor self (q_lscale c (dec_jfactor self))) energy scale
     = q_lscale c <$> decay_evaluate self energy scale) ∧
  (∀ self k, k ≠ 0 →
     annihilation_evaluate (with_k self (VNum k)) energy scale
     = q_lscale (1 / k) <$> annihilation_evaluate (with_k self (VNum 1)) energy scale) ∧
  (∀ self,
     annihilation_evaluate (with_k self (VNum 2)) energy scale
     = q_lscale 2 <$> annihilation_evaluate (with_k self (VNum 4)) energy scale).
Proof.
  split; [| split; [| split]].
  - intros self. apply decay_evaluate_scale.
  - intros self. apply decay_evaluate_jfactor.
  - intros self k Hk. by apply annihilation_evaluate_k.
  - intros self.
    rewrite (annihilation_evaluate_k self energy scale 2) by lra.
    rewrite (annihilation_evaluate_k self energy scale 4) by lra.
    destruct (annihilation_evaluate (with_k self (VNum 1)) energy scale) as [f | e | ];
      cbn; try done.
    f_equal. apply quantity_eq; cbn; [lra | done].
Qed.

(** *** The setters of [PrimaryFlux] *)

Lemma q_to_same_unit q u :
  uscale u ≠ 0 → qunit q = u → to_value q u = Ok (qvalue q).
Proof.
  intros Hu <-. unfold to_value, q_to. rewrite dim_eqb_refl. bind_step.
  f_equal. cbn. by field.
Qed.

Lemma q_to_unit q u q' : q_to q u = Ok q' → qunit q' = u.
Proof. unfold q_to. destruct (dim_eqb _ _); [| done]. by intros [= <-]. Qed.

(** The setter, once the candidate has been converted and the bounds read. *)
Lemma mDM_setter_run self m q lo hi :
  p_min (pf_mass self) = Some lo →
  p_max (pf_mass self) = Some hi →
  uscale (p_unit (pf_mass self)) ≠ 0 →
  (q0 ← u_Quantity m; q_to q0 (p_unit (pf_mass self))) = Ok q →
  mDM_setter m self =
    if lt_float (qvalue q) (Some lo) || gt_float (qvalue q) (Some hi)
    then (self,
          Raise (ValueError (mass_out_of_bounds_msg q
                  (Some (mkQ lo (p_unit (pf_mass self))))
                  (Some (mkQ hi (p_unit (pf_mass self)))))))
    else (with_mass self (set_value (pf_mass self) (qvalue q)), Ok tt).
Proof.
  intros Hlo Hhi Hu Hq.
  assert (Hv : to_value q (p_unit (pf_mass self)) = Ok (qvalue q)).
  { apply q_to_same_unit; [done |].
    destruct (u_Quantity m) as [q0 | e | ]; cbn in Hq; try done.
    by apply q_to_unit in Hq. }
  unfold mDM_setter, ste_bind, get_state, lift, put_state.
  rewrite Hq, Hv, Hlo, Hhi. cbn [fmap option_fmap option_map].
  by destruct (_ || _).
Qed.

Lemma mDM_setter_in_bounds self m q lo hi :
  p_min (pf_mass self) = Some lo →
  p_max (pf_mass self) = Some hi →
  uscale (p_unit (pf_mass self)) ≠ 0 →
  (q0 ← u_Quantity m; q_to q0 (p_unit (pf_mass self))) = Ok q →
  lo <= qvalue q <= hi →
  mDM_setter m self = (with_mass self (set_value (pf_mass self) (qvalue q)), Ok tt).
Proof.
  intros Hlo Hhi Hu Hq [H1 H2].
  rewrite (mDM_setter_run self m q lo hi) by done. cbn [lt_float gt_float].
  by rewrite (Rltb_false (qvalue q) lo), (Rltb_false hi (qvalue q)).
Qed.

(** The setter on floats agrees with the setter on every candidate that is
    a quantity with a number as value: the same exception with the same
    message, or the assignment of the same value. *)
Lemma mDM_setter_float_number q self :
  mDM_setter (VQuantity q) self
  = match mDM_setter_float (mkFQ (Number (qvalue q)) (qunit q)) self with
    | Ok (Number v) => (with_mass self (set_value (pf_mass self) v), Ok tt)
    | Ok NaN => (self, NonFinite)
    | Raise e => (self, Raise e)
    | NonFinite => (self, NonFinite)
    end.
Proof.
  unfold mDM_setter, mDM_setter_float, ste_bind, get_state, lift, put_state.
  cbn [u_Quantity]. bind_step. unfold q_to, fq_to. cbn [fq_unit fq_value qunit qvalue].
  destruct (dim_eqb (udim (qunit q)) (udim (p_unit (pf_mass self)))); [| done].
  bind_step. unfold to_value, fq_to_value, q_to, fq_to.
  cbn [fq_unit fq_value qunit qvalue float_mul]. rewrite dim_eqb_refl. bind_step.
  cbn [fq_unit fq_value qunit qvalue float_mul].
  destruct (p_min (pf_mass self)) as [lo |], (p_max (pf_mass self)) as [hi |];
    cbn [lt_float gt_float float_lt float_gt bound_float fmap option_fmap option_map];
    try destruct (Rltb _ lo); try destruct (Rltb hi _); done.
Qed.

(** A candidate whose value is [nan] passes both comparisons: when its unit
    has the dimension of the unit of the mass parameter, the setter returns
    normally and has assigned [nan], whatever the bounds are. *)
Lemma mDM_setter_float_nan u self :
  udim u = udim (p_unit (pf_mass self)) →
  mDM_setter_float (mkFQ NaN u) self = Ok NaN.
Proof.
  intros Hu. unfold mDM_setter_float, fq_to_value, fq_to. cbn [fq_unit fq_value].
  rewrite Hu, dim_eqb_refl. bind_step. cbn [fq_unit fq_value]. rewrite dim_eqb_refl.
  bind_step. cbn [fq_value float_mul float_lt float_gt].
  by destruct (p_min (pf_mass self)), (p_max (pf_mass self)).
Qed.

(** C5, amended.  For a [PrimaryFlux] whose mass parameter has the bounds
    [lo] and [hi] and a proper unit, and a candidate [m] whose value is a
    number and which astropy converts to the quantity [q] in that unit: [q]
    is in the unit of the mass parameter; if the value of [q] is below [lo]
    or above [hi], the setter raises the [ValueError] whose text shows [q]
    and, as the range to choose from, the two bounds as quantities in that
    unit, and the object, so the mass that [mDM] reads, is as before; if
    the value lies in [lo, hi], ends included, the setter returns normally
    and the mass parameter holds the value of [q]. *)
Theorem mDM_setter_bounds self m q lo hi :
  p_min (pf_mass self) = Some lo →
  p_max (pf_mass self) = Some hi →
  uscale (p_unit (pf_mass self)) ≠ 0 →
  (q0 ← u_Quantity m; q_to q0 (p_unit (pf_mass self))) = Ok q →
  qunit q = p_unit (pf_mass self) ∧
  (qvalue q < lo ∨ hi < qvalue q →
     mDM_setter m self
     = (self,
        Raise (ValueError
                 [ Txt "The mass "; FQty (Some q);
                   Txt " is out of the bounds of the model. Please choose a mass between ";
                   FQty (Some (mkQ lo (p_unit (pf_mass self))));
                   Txt " < `mDM` < ";
                   FQty (Some (mkQ hi (p_unit (pf_mass self)))) ]))
     ∧ mDM (mDM_setter m self).1 = mDM self) ∧
  (lo <= qvalue q <= hi →
     mDM_setter m self = (with_mass self (set_value (pf_mass self) (qvalue q)), Ok tt)
     ∧ mDM (mDM_setter m self).1 = mkQ (qvalue q) GeV).
Proof.
  intros Hlo Hhi Hu Hq.
  pose proof (mDM_setter_run self m q lo hi Hlo Hhi Hu Hq) as Hrun.
  split_and!.
  - destruct (u_Quantity m) as [q0 | e | ]; cbn in Hq; try done.
    by apply q_to_unit in Hq.
  - intros Hout. rewrite Hrun. cbn [lt_float gt_float].
    destruct Hout as [H | H].
    + rewrite (Rltb_true (qvalue q) lo) by done. done.
    + rewrite (Rltb_true hi (qvalue q)) by done. rewrite orb_true_r. done.
  - intros Hin. by rewrite (mDM_setter_in_bounds self m q lo hi).
Qed.

Lemma string_app_assoc (a b c : string) : (a +:+ b) +:+ c = a +:+ b +:+ c.
Proof.
  induction a as [| ch a IH]; [done |].
  change (String ch ((a +:+ b) +:+ c) = String ch (a +:+ b +:+ c)). by f_equal.
Qed.

Lemma string_app_empty_r (a : string) : a +:+ "" = a.
Proof.
  induction a as [| ch a IH]; [done |].
  change (String ch (a +:+ "") = String ch a). by f_equal.
Qed.

Lemma contains_app_l a b p : contains a b → contains a (p +:+ b).
Proof.
  intros (p' & s & ->). exists (p +:+ p'), s. by rewrite string_app_assoc.
Qed.

Lemma contains_app_r a b s : contains a b → contains a (b +:+ s).
Proof.
  intros (p & s' & ->). exists p, (s' +:+ s). by rewrite !string_app_assoc.
Qed.

Lemma contains_join_comma x l : x ∈ l → contains x (join_comma l).
Proof.
  induction l as [| y l IH]; intros Hx; [by apply elem_of_nil in Hx |].
  apply elem_of_cons in Hx. destruct l as [| z l'].
  - destruct Hx as [-> | Hx]; [| by apply elem_of_nil in Hx].
    exists "", "". by rewrite string_app_empty_r.
  - change (join_comma (y :: z :: l')) with (y +:+ ", " +:+ join_comma (z :: l')).
    destruct Hx as [-> | Hx].
    + by exists "", (", " +:+ join_comma (z :: l')).
    + rewrite <- string_app_assoc. apply contains_app_l. by apply IH.
Qed.

Lemma check_channel_spec c :
  check_channel (VStr c)
  = if bool_decide (c ∈ allowed_channels) then Ok c
    else Raise (ValueError (invalid_channel_msg (VStr c))).
Proof. done. Qed.

Lemma mDM_setter_frame m self :
  let self' := (mDM_setter m self).1 in
  pf_table self' = pf_table self ∧ pf_channel self' = pf_channel self ∧
  pf_map self' = pf_map self ∧ pf_interp_kwargs self' = pf_interp_kwargs self ∧
  p_name (pf_mass self') = p_name (pf_mass self) ∧
  p_unit (pf_mass self') = p_unit (pf_mass self) ∧
  p_min (pf_mass self') = p_min (pf_mass self) ∧
  p_max (pf_mass self') = p_max (pf_mass self) ∧
  p_frozen (pf_mass self') = p_frozen (pf_mass self).
Proof.
  unfold mDM_setter, ste_bind, get_state, lift, put_state.
  destruct (_ ≫= _) as [q | e | ]; cbn; try done.
  destruct (to_value _ _) as [v | e | ]; cbn; try done.
  by destruct (_ || _).
Qed.

(** What a successful [PrimaryFlux.__init__] has done. *)
Lemma PrimaryFlux_init_inv mDM_arg channel pf :
  PrimaryFlux_init mDM_arg channel = Ok pf →
  ∃ t c mDM_column log10x_column channel_name channel_column self0,
    table_file = Some (Ok t) ∧
    channel = VStr c ∧ c ∈ allowed_channels ∧
    column t "mDM" = Ok mDM_column ∧
    column t "Log[10,x]" = Ok log10x_column ∧
    registry_get channel_registry c = Ok channel_name ∧
    column t channel_name = Ok channel_column ∧
    self0 = mkPrimaryFlux t c
              (mkMap (mkGeom [mkAxis "energy_true" (np_unique log10x_column) "lin"
                                dimensionless_unscaled;
                              mkAxis "mass" (np_unique mDM_column) "log" GeV])
                     channel_column)
              (mkInterpKwargs true 0 "lin")
              (template_mass_parameter template_initial_value
                 (mkAxis "mass" (np_unique mDM_column) "log" GeV)) ∧
    (mDM_setter mDM_arg self0).2 = Ok tt ∧
    pf = with_mass (mDM_setter mDM_arg self0).1
           (set_frozen (pf_mass (mDM_setter mDM_arg self0).1) true).
Proof.
  unfold PrimaryFlux_init. intros H.
  destruct table_file as [[t | e | ] |]; try done. bind_step in H.
  destruct channel as [| | | c | |]; try done.
  rewrite check_channel_spec in H.
  case_bool_decide as Hc; [| done]. bind_step in H.
  destruct (column t "mDM") as [mcol | e | ] eqn:Hmcol; try done. bind_step in H.
  destruct (column t "Log[10,x]") as [xcol | e | ] eqn:Hxcol; try done. bind_step in H.
  destruct (registry_get channel_registry c) as [name | e | ] eqn:Hname; try done.
  bind_step in H.
  destruct (column t name) as [col | e | ] eqn:Hcol; try done. bind_step in H.
  unfold reshape in H. destruct (_ =? _)%nat; [| done]. bind_step in H.
  destruct (mDM_setter _ _) as [self' r] eqn:Hset.
  destruct r as [[] | e | ]; try done. bind_step in H.
  injection H as <-.
  match type of Hset with
  | mDM_setter _ ?s = _ => exists t, c, mcol, xcol, name, col, s
  end.
  split_and!; try done; by rewrite Hset.
Qed.

Lemma mDM_setter_Ok_inv m self self' :
  mDM_setter m self = (self', Ok tt) →
  ∃ v, self' = with_mass self (set_value (pf_mass self) v) ∧
       lt_float v (p_min (pf_mass self)) = false ∧
       gt_float v (p_max (pf_mass self)) = false.
Proof.
  unfold mDM_setter, ste_bind, get_state, lift, put_state.
  destruct (_ ≫= _) as [q | e | ]; try done.
  destruct (to_value _ _) as [v | e | ]; try done.
  destruct (lt_float v _ || gt_float v _) eqn:Hcheck; [done |].
  apply orb_false_elim in Hcheck as [Hlt Hgt].
  intros [= <-]. by exists v.
Qed.

(** The mass parameter of a constructed [PrimaryFlux]: named [mass], in
    GeV, frozen, bounded by the least and the greatest node of the mass
    axis, and holding a value that neither bound rejects. *)
Lemma PrimaryFlux_init_mass mDM_arg channel self :
  PrimaryFlux_init mDM_arg channel = Ok self →
  p_name (pf_mass self) = "mass" ∧
  p_unit (pf_mass self) = GeV ∧
  p_frozen (pf_mass self) = true ∧
  p_min (pf_mass self) = list_min (mass_nodes self) ∧
  p_max (pf_mass self) = list_max (mass_nodes self) ∧
  lt_float (p_value (pf_mass self)) (p_min (pf_mass self)) = false ∧
  gt_float (p_value (pf_mass self)) (p_max (pf_mass self)) = false.
Proof.
  intros H. apply PrimaryFlux_init_inv in H
    as (t & c & mcol & xcol & name & col & self0 & _ & _ & _ & _ & _ & _ & _
        & Hself0 & Hok & ->).
  destruct (mDM_setter mDM_arg self0) as [self' r] eqn:Hset. cbn in Hok. subst r.
  apply mDM_setter_Ok_inv in Hset as (v & -> & Hlt & Hgt).
  rewrite Hself0 in Hlt, Hgt |- *. done.
Qed.

(** C6.  For a string [c]: the channel setter returns normally exactly when
    [c] is a key of the registry, and then the channel is [c]; otherwise it
    raises the [ValueError] of the invalid channel and the object is as
    before, and so does the constructor when the data file is read.  A
    constructor that succeeds was given a key of the registry.  The registry
    has 28 keys, and the text of the error holds the [repr] of each of
    them. *)
Theorem channel_setter_registry self c mDM_arg :
  ((channel_setter self (VStr c)).2 = Ok tt ↔ c ∈ allowed_channels) ∧
  (c ∈ allowed_channels →
     channel_setter self (VStr c) = (with_channel self c, Ok tt)) ∧
  (c ∉ allowed_channels →
     channel_setter self (VStr c)
     = (self, Raise (ValueError (invalid_channel_msg (VStr c))))
     ∧ ∀ t, table_file = Some (Ok t) →
         PrimaryFlux_init mDM_arg (VStr c)
         = Raise (ValueError (invalid_channel_msg (VStr c)))) ∧
  (∀ pf, PrimaryFlux_init mDM_arg (VStr c) = Ok pf →
     c ∈ allowed_channels ∧ pf_channel pf = c) ∧
  length allowed_channels = 28%nat ∧
  (∀ k, k ∈ allowed_channels →
     ∃ text, Txt text ∈ invalid_channel_msg (VStr c) ∧ contains (py_repr_str k) text).
Proof.
  unfold channel_setter. rewrite check_channel_spec.
  repeat split.
  - case_bool_decide; [done | by cbn].
  - intros H. by rewrite bool_decide_true.
  - intros H. by rewrite bool_decide_true.
  - by rewrite bool_decide_false.
  - intros t Ht. unfold PrimaryFlux_init. rewrite Ht. bind_step.
    rewrite check_channel_spec, bool_decide_false by done. done.
  - apply PrimaryFlux_init_inv in H.
    destruct H as (t & c' & _ & _ & _ & _ & _ & _ & [= <-] & Hc & _). done.
  - apply PrimaryFlux_init_inv in H.
    destruct H as (t & c' & ? & ? & ? & ? & self0 & _ & [= <-] & _ & _ & _ & _ & _
                   & Hself0 & _ & ->).
    cbn [with_mass pf_channel].
    destruct (mDM_setter_frame mDM_arg self0) as (_ & -> & _). by rewrite Hself0.
  - intros k Hk. eexists. split.
    + unfold invalid_channel_msg. apply list_elem_of_lookup. by exists 2%nat.
    + apply contains_app_l, contains_app_l, contains_app_r.
      unfold py_repr_list. apply contains_app_l, contains_app_r.
      apply contains_join_comma. apply list_elem_of_In, in_map. by apply list_elem_of_In.
Qed.

(** *** The store: [to_dict] and [from_dict] *)

Lemma ste_bind_Ok_inv {S A B} (m : StE S A) (f : A → StE S B) s s' b :
  ste_bind m f s = (s', Ok b) →
  ∃ s1 a, m s = (s1, Ok a) ∧ f a s1 = (s', Ok b).
Proof.
  unfold ste_bind. destruct (m s) as [s1 [a | e | ]]; try done. by exists s1, a.
Qed.

Lemma lift_Ok_inv {S A} (r : result A) (s s' : S) a :
  lift r s = (s', Ok a) → s' = s ∧ r = Ok a.
Proof. unfold lift. by intros [= -> ->]. Qed.

Lemma get_item_Ok_inv d key σ σ' v :
  get_item d key σ = (σ', Ok v) →
  σ' = σ ∧ ∃ l m, d = VRef l ∧ σ !! l = Some (ODict m) ∧ m !! key = Some v.
Proof.
  unfold get_item. destruct d as [| | | | | l]; try done.
  destruct (σ !! l) as [[m | ] |] eqn:Hl; try done.
  destruct (m !! key) as [w |] eqn:Hk; try done.
  intros [= <- <-]. split; [done |]. by exists l, m.
Qed.

Lemma dict_pop_Ok_inv d key σ σ' v :
  dict_pop d key σ = (σ', Ok v) →
  ∃ l m, d = VRef l ∧ σ !! l = Some (ODict m) ∧ m !! key = Some v ∧
         σ' = <[l := ODict (delete key m)]> σ.
Proof.
  unfold dict_pop. destruct d as [| | | | | l]; try done.
  destruct (σ !! l) as [[m | ] |] eqn:Hl; try done.
  destruct (m !! key) as [w |] eqn:Hk; try done.
  intros [= <- <-]. by exists l, m.
Qed.

Lemma dict_contents_Ok_inv d σ σ' kw :
  dict_contents d σ = (σ', Ok kw) →
  σ' = σ ∧ ∃ l, d = VRef l ∧ σ !! l = Some (ODict kw).
Proof.
  unfold dict_contents. destruct d as [| | | | | l]; try done.
  destruct (σ !! l) as [[m | ] |] eqn:Hl; try done.
  intros [= <- <-]. split; [done |]. by exists l.
Qed.

Lemma get_item_store d key σ : (get_item d key σ).1 = σ.
Proof.
  unfold get_item. destruct d as [| | | | | l]; try done.
  destruct (σ !! l) as [[m | ] |]; try done. by destruct (m !! key).
Qed.

Lemma iterate_store v σ : (iterate v σ).1 = σ.
Proof.
  unfold iterate. destruct v as [| | | | | l]; try done.
  by destruct (σ !! l) as [[m | ] |].
Qed.

Lemma scale_values_store parameters σ : (scale_values parameters σ).1 = σ.
Proof.
  induction parameters as [| p rest IH]; [done |].
  cbn [scale_values]. unfold ste_bind at 1.
  pose proof (get_item_store p "name" σ) as Hn.
  destruct (get_item p "name" σ) as [σ1 [name | e | ]]; cbn in Hn; subst σ1; try done.
  destruct (is_scale name); [| done].
  unfold ste_bind at 1.
  pose proof (get_item_store p "value" σ) as Hv.
  destruct (get_item p "value" σ) as [σ1 [v | e | ]]; cbn in Hv; subst σ1; try done.
  unfold ste_bind. destruct (scale_values rest σ) as [σ1 [vs | e | ]]; cbn in IH; by subst σ1.
Qed.

Lemma bind_kwargs_Ok_inv names scale data kw :
  bind_kwargs names scale data = Ok kw →
  dom data ⊆ list_to_set names ∧ kw = <["scale" := scale]> data.
Proof.
  unfold bind_kwargs. case_bool_decide; [done |].
  case_bool_decide; [| done]. by intros [= <-].
Qed.

(** The part that the two [from_dict] share: the result of the constructor
    call is reached only after both keys have been popped. *)
Lemma from_dict_pops {A} (names : list string) (new : gmap string value → result A)
    data σ σ' (M : A) :
  "spectral" ∉ names →
  (data ⇐ get_item data "spectral";
   _ ⇐ dict_pop data "type";
   parameters ⇐ dict_pop data "parameters";
   items ⇐ iterate parameters;
   scales ⇐ scale_values items;
   scale ⇐ lift (first scales);
   kwargs ⇐ dict_contents data;
   lift (kwargs ← bind_kwargs names scale kwargs; new kwargs)) σ = (σ', Ok M) →
  spectral_popped σ σ' data.
Proof.
  intros Hnames H.
  apply ste_bind_Ok_inv in H as (σ0 & sp & Hget & H).
  apply get_item_Ok_inv in Hget as (-> & ld & outer & -> & Hld & Hsp).
  apply ste_bind_Ok_inv in H as (σ1 & ty & Hpop1 & H).
  apply dict_pop_Ok_inv in Hpop1 as (l & m & -> & Hl & Hty & ->).
  apply ste_bind_Ok_inv in H as (σ2 & ps & Hpop2 & H).
  apply dict_pop_Ok_inv in Hpop2 as (l' & m' & [= <-] & Hl' & Hps & ->).
  rewrite lookup_insert_eq in Hl'. injection Hl' as <-.
  rewrite insert_insert_eq in H.
  apply ste_bind_Ok_inv in H as (σ3 & items & Hit & H).
  pose proof (iterate_store ps (<[l:=ODict (delete "parameters" (delete "type" m))]> σ)) as E.
  rewrite Hit in E. cbn in E. subst σ3.
  apply ste_bind_Ok_inv in H as (σ4 & scales & Hsc & H).
  pose proof (scale_values_store items
                (<[l:=ODict (delete "parameters" (delete "type" m))]> σ)) as E.
  rewrite Hsc in E. cbn in E. subst σ4.
  apply ste_bind_Ok_inv in H as (σ5 & scale & Hfirst & H).
  apply lift_Ok_inv in Hfirst as (-> & Hfirst).
  apply ste_bind_Ok_inv in H as (σ6 & kw & Hkw & H).
  apply dict_contents_Ok_inv in Hkw as (-> & l' & [= <-] & Hkw).
  rewrite lookup_insert_eq in Hkw. injection Hkw as <-.
  apply lift_Ok_inv in H as (-> & H).
  destruct (bind_kwargs names scale _) as [kw | e | ] eqn:Hbind; try done.
  apply bind_kwargs_Ok_inv in Hbind as (Hdom & _).
  rewrite lookup_delete_ne in Hps by done.
  assert (Hne : ld ≠ l).
  { intros ->. rewrite Hl in Hld. injection Hld as <-.
    assert (Hin : "spectral" ∈ dom (delete "parameters" (delete "type" m))).
    { apply elem_of_dom. rewrite !lookup_delete_ne by done. by rewrite Hsp. }
    apply Hdom in Hin. by apply elem_of_list_to_set in Hin. }
  exists ld, outer, l, m, (delete "parameters" (delete "type" m)).
  split_and!; try done.
  - by rewrite lookup_insert_ne.
  - by rewrite lookup_insert_eq.
  - rewrite lookup_delete_ne by done. apply lookup_delete_eq.
  - apply lookup_delete_eq.
  - intros E. pose proof (f_equal (lookup l) E) as E'.
    rewrite lookup_insert_eq, Hl in E'. injection E' as E'.
    pose proof (f_equal (lookup "type") E') as E''.
    rewrite lookup_delete_ne, lookup_delete_eq, Hty in E'' by done. done.
Qed.

(** C10.  When [from_dict] of the annihilation model or of the decay model
    returns a model, it has changed its argument: the dictionary under
    ["spectral"], which held the keys ["type"] and ["parameters"], no longer
    holds them, so the store is not what it was. *)
Theorem from_dict_mutates_argument data (σ σ' : store) :
  from_dict_returns data σ σ' → spectral_popped σ σ' data.
Proof.
  intros [[M H] | [M H]].
  - eapply (from_dict_pops ["mass"; "channel"; "scale"; "jfactor"; "z"; "k"]);
      [| exact H].
    rewrite !elem_of_cons, elem_of_nil. intros Hin. by decompose [or] Hin.
  - eapply (from_dict_pops ["mass"; "channel"; "scale"; "jfactor"; "z"]); [| exact H].
    rewrite !elem_of_cons, elem_of_nil. intros Hin. by decompose [or] Hin.
Qed.

Lemma ste_bind_Ok {S A B} (m : StE S A) (f : A → StE S B) s s1 a :
  m s = (s1, Ok a) → ste_bind m f s = f a s1.
Proof. unfold ste_bind. by intros ->. Qed.

Lemma get_item_lookup l m key v (σ : store) :
  σ !! l = Some (ODict m) → m !! key = Some v →
  get_item (VRef l) key σ = (σ, Ok v).
Proof. unfold get_item. by intros -> ->. Qed.

Lemma set_item_lookup l m key v (σ : store) :
  σ !! l = Some (ODict m) →
  set_item (VRef l) key v σ = (<[l := ODict (<[key := v]> m)]> σ, Ok tt).
Proof. unfold set_item. by intros ->. Qed.

Lemma dict_pop_lookup l m key v (σ : store) :
  σ !! l = Some (ODict m) → m !! key = Some v →
  dict_pop (VRef l) key σ = (<[l := ODict (delete key m)]> σ, Ok v).
Proof. unfold dict_pop. by intros -> ->. Qed.

Lemma alloc_fresh o (σ : store) :
  ∃ l, σ !! l = None ∧ alloc o σ = (<[l := o]> σ, Ok (VRef l)).
Proof.
  exists (fresh (dom σ)). split; [| done].
  apply not_elem_of_dom, is_fresh.
Qed.


(** One statement [data["spectral"][key] = v] of [to_dict]. *)
Lemma set_spectral_item {A} (σ : store) lo lsp inner key v (rest : StE store A) :
  σ !! lo = Some (ODict {[ "spectral" := VRef lsp ]}) →
  σ !! lsp = Some (ODict inner) →
  (spectral ⇐ get_item (VRef lo) "spectral";
   _ ⇐ set_item spectral key v;
   rest) σ
  = rest (<[lsp := ODict (<[key := v]> inner)]> σ).
Proof.
  intros Hlo Hlsp.
  rewrite (ste_bind_Ok _ _ _ σ (VRef lsp)).
  2: { eapply get_item_lookup; [done |]. apply lookup_singleton_eq. }
  by rewrite (ste_bind_Ok _ _ _ _ tt (set_item_lookup _ _ _ _ _ Hlsp)).
Qed.


Lemma mDM_setter_same_quantity m1 m2 self :
  u_Quantity m1 = u_Quantity m2 → mDM_setter m1 self = mDM_setter m2 self.
Proof. unfold mDM_setter, ste_bind, get_state. by intros ->. Qed.

Lemma PrimaryFlux_init_same_quantity m1 m2 channel :
  u_Quantity m1 = u_Quantity m2 →
  PrimaryFlux_init m1 channel = PrimaryFlux_init m2 channel.
Proof.
  intros E. unfold PrimaryFlux_init.
  destruct table_file as [[t | e | ] |]; try done. bind_step.
  destruct (check_channel channel) as [c | e | ]; try done. bind_step.
  destruct (column t "mDM") as [mcol | e | ]; try done. bind_step.
  destruct (column t "Log[10,x]") as [xcol | e | ]; try done. bind_step.
  destruct (registry_get channel_registry c) as [name | e | ]; try done. bind_step.
  destruct (column t name) as [col | e | ]; try done. bind_step.
  destruct (reshape col _) as [data | e | ]; try done. bind_step.
  by rewrite (mDM_setter_same_quantity m1 m2).
Qed.

Lemma annihilation_init_inv mass channel scale jfactor z k self :
  annihilation_init mass channel scale jfactor z k = Ok self →
  ∃ mass' jfactor' primary_flux scale',
    u_Quantity mass = Ok mass' ∧ u_Quantity jfactor = Ok jfactor' ∧
    PrimaryFlux_init mass channel = Ok primary_flux ∧
    u_Quantity scale = Ok scale' ∧
    self = mkAnnihilation k z mass' channel jfactor' primary_flux
             (mkParam "scale" (qvalue scale') (qunit scale') None None false).
Proof.
  unfold annihilation_init, scale_parameter. intros H.
  destruct (u_Quantity mass) as [m | e | ]; try done. bind_step in H.
  destruct (u_Quantity jfactor) as [j | e | ]; try done. bind_step in H.
  destruct (PrimaryFlux_init mass channel) as [pf | e | ]; try done. bind_step in H.
  destruct (u_Quantity scale) as [sc | e | ]; try done. bind_step in H.
  injection H as <-. by exists m, j, pf, sc.
Qed.

(** The constructor leaves a model with its interpolant derived from its
    mass and channel. *)
Lemma annihilation_init_derived mass channel scale jfactor z k self :
  annihilation_init mass channel scale jfactor z k = Ok self →
  annihilation_derived self.
Proof.
  intros H. apply annihilation_init_inv in H
    as (mq & jq & pf & sc & Hm & Hj & Hpf & Hsc & ->).
  split; [| done]. cbn [ann_mass ann_channel ann_primary_flux].
  by rewrite (PrimaryFlux_init_same_quantity _ mass).
Qed.


(** A constructor call that succeeds. *)
Lemma PrimaryFlux_init_ok t c m q mDM_column log10x_column channel_name channel_column
    lo hi :
  table_file = Some (Ok t) →
  c ∈ allowed_channels →
  column t "mDM" = Ok mDM_column →
  column t "Log[10,x]" = Ok log10x_column →
  registry_get channel_registry c = Ok channel_name →
  column t channel_name = Ok channel_column →
  length channel_column
  = (length (np_unique log10x_column) * (length (np_unique mDM_column) * 1))%nat →
  (q0 ← u_Quantity m; q_to q0 GeV) = Ok q →
  list_min (np_unique mDM_column) = Some lo →
  list_max (np_unique mDM_column) = Some hi →
  lo <= qvalue q <= hi →
  PrimaryFlux_init m (VStr c) =
    Ok (mkPrimaryFlux t c
          (mkMap (mkGeom [mkAxis "energy_true" (np_unique log10x_column) "lin"
                            dimensionless_unscaled;
                          mkAxis "mass" (np_unique mDM_column) "log" GeV])
                 channel_column)
          (mkInterpKwargs true 0 "lin")
          (mkParam "mass" (qvalue q) GeV (Some lo) (Some hi) true)).
Proof.
  intros Hfile Hc Hm Hx Hname Hcol Hlen Hq Hlo Hhi Hin.
  unfold PrimaryFlux_init. rewrite Hfile. bind_step.
  rewrite check_channel_spec, bool_decide_true by done. bind_step.
  rewrite Hm. bind_step. rewrite Hx. bind_step. rewrite Hname. bind_step.
  rewrite Hcol. bind_step.
  unfold reshape. cbn [data_size geom_axes foldr ax_nodes].
  rewrite Hlen, Nat.eqb_refl. bind_step.
  erewrite (mDM_setter_in_bounds _ m q lo hi);
    cbn [pf_mass template_mass_parameter p_min p_max p_unit ax_unit ax_nodes ax_name];
    try done.
  - bind_step. unfold with_mass, set_value, set_frozen, template_mass_parameter.
    cbn [pf_mass pf_table pf_channel pf_map pf_interp_kwargs
         p_name p_value p_unit p_min p_max p_frozen ax_name ax_unit ax_nodes].
    by rewrite Hlo, Hhi.
  - cbn. lra.
Qed.

(** ** Further properties of [PrimaryFlux] *)

Lemma lt_float_ext v v' b : v = v' → lt_float v b = lt_float v' b.
Proof. by intros ->. Qed.

(** The outcomes of the setter. *)
Lemma mDM_setter_cases m self :
  (∃ e, mDM_setter m self = (self, Raise e)) ∨
  mDM_setter m self = (self, NonFinite) ∨
  (∃ q, (q0 ← u_Quantity m; q_to q0 (p_unit (pf_mass self))) = Ok q ∧
        to_value q (p_unit (pf_mass self)) = Ok (qvalue q * (uscale (p_unit (pf_mass self)) / uscale (p_unit (pf_mass self)))) ∧
        let v := qvalue q * (uscale (p_unit (pf_mass self)) / uscale (p_unit (pf_mass self))) in
        lt_float v (p_min (pf_mass self)) = false ∧
        gt_float v (p_max (pf_mass self)) = false ∧
        mDM_setter m self = (with_mass self (set_value (pf_mass self) v), Ok tt)).
Proof.
  unfold mDM_setter, ste_bind, get_state, lift, put_state.
  destruct (_ ≫= _) as [q | e | ] eqn:Hq; [| left; by eexists | right; by left].
  assert (Hunit : qunit q = p_unit (pf_mass self)).
  { destruct (u_Quantity m) as [q0 | e | ]; cbn in Hq; try done.
    by apply q_to_unit in Hq. }
  unfold to_value, q_to. rewrite Hunit, dim_eqb_refl. bind_step. cbn [qvalue].
  destruct (lt_float _ _ || gt_float _ _) eqn:Hcheck; [left; by eexists |].
  apply orb_false_elim in Hcheck as [Hlt Hgt].
  right. right. exists q. by rewrite Hunit, dim_eqb_refl.
Qed.

Lemma mDM_setter_error_keeps m self self' r :
  mDM_setter m self = (self', r) → r ≠ Ok tt → self' = self.
Proof.
  intros H Hr.
  destruct (mDM_setter_cases m self) as [[e E] | [E | (q & _ & _ & _ & _ & E)]];
    rewrite E in H; injection H as <- <-; done.
Qed.

Lemma Rltb_false_inv a b : Rltb a b = false → b <= a.
Proof. unfold Rltb. destruct (Rlt_dec a b); [done | intros _; lra]. Qed.

Lemma insert_unique_nonempty x l : insert_unique x l ≠ [].
Proof.
  destruct l as [| y l]; cbn [insert_unique]; [done |].
  destruct (Rlt_dec x y); [done |]. by destruct (Rlt_dec y x).
Qed.

Lemma np_unique_nonempty l : l ≠ [] → np_unique l ≠ [].
Proof. destruct l as [| x l]; [done |]. intros _. apply insert_unique_nonempty. Qed.

(** X1.  A [PrimaryFlux] that the constructor returns, given a mass whose
    value is a number: its channel is a key of the registry; the nodes of
    its mass axis are the distinct entries of the mass column of the table;
    its mass parameter is in GeV and frozen, its bounds are the least and
    the greatest of these nodes, and, the column not being empty, both
    bounds exist and the mass lies between them, ends included; the
    interpolation keywords are extrapolation enabled, fill value 0 and
    linear values; and [mDM] reads the mass that was passed, converted to
    GeV. *)
Theorem PrimaryFlux_init_establishes mDM_arg channel self :
  PrimaryFlux_init mDM_arg channel = Ok self →
  pf_valid self ∧
  p_unit (pf_mass self) = GeV ∧
  p_frozen (pf_mass self) = true ∧
  p_min (pf_mass self) = list_min (mass_nodes self) ∧
  p_max (pf_mass self) = list_max (mass_nodes self) ∧
  (∃ col, column (pf_table self) "mDM" = Ok col ∧
          mass_nodes self = np_unique col ∧
          (col ≠ [] →
           ∃ lo hi, p_min (pf_mass self) = Some lo ∧ p_max (pf_mass self) = Some hi ∧
                    lo <= p_value (pf_mass self) <= hi)) ∧
  pf_interp_kwargs self = mkInterpKwargs true 0 "lin" ∧
  (q0 ← u_Quantity mDM_arg; q_to q0 GeV) = Ok (mDM self).
Proof.
  intros H.
  destruct (PrimaryFlux_init_mass _ _ _ H) as (_ & Hunit & Hfr & Hmin & Hmax & Hlt & Hgt).
  apply PrimaryFlux_init_inv in H
    as (t & c & mcol & xcol & name & col & self0 & _ & _ & Hc & Hmcol & _ & _ & _
        & Hself0 & Hok & ->).
  destruct (mDM_setter_cases mDM_arg self0)
    as [[e E] | [E | (q & Hq & _ & Hlt' & Hgt' & E)]];
    rewrite E in Hok; cbn in Hok; try done.
  rewrite E in Hunit, Hfr, Hmin, Hmax, Hlt, Hgt |- *.
  rewrite Hself0 in Hq, Hunit, Hfr, Hmin, Hmax, Hlt, Hgt |- *.
  cbn [pf_mass template_mass_parameter p_unit p_min p_max ax_unit ax_nodes ax_name] in Hq.
  unfold pf_valid. split_and!; try done.
  - exists mcol. split_and!; [done | done |]. intros Hne.
    apply np_unique_nonempty in Hne.
    change (mass_nodes _) with (np_unique mcol) in Hmin, Hmax.
    destruct (np_unique mcol) as [| x l] eqn:Hnodes; [done |].
    rewrite Hmin in Hlt. rewrite Hmax in Hgt. cbn [list_min list_max lt_float gt_float] in *.
    eexists _, _. split_and!; [done | done | |].
    + by apply Rltb_false_inv.
    + by apply Rltb_false_inv.
  - rewrite Hq. f_equal. unfold mDM. cbn.
    destruct (u_Quantity mDM_arg) as [q0 | e | ]; cbn in Hq; try done.
    apply q_to_unit in Hq. apply quantity_eq; cbn; [| done]. lra.
Qed.

(** X2.  Both setters keep a [PrimaryFlux] valid for every argument whose
    value is a number or no number at all (a string, [None], a quantity of
    another dimension), whether they return or raise: afterwards the
    channel is still a key of the registry and the mass is still rejected
    by neither bound.  A candidate mass whose value is [nan] is the
    exception: in a unit of the dimension of the mass unit it is assigned
    without an error, whatever the bounds, and the mass is [nan]
    afterwards. *)
Theorem setters_keep_valid self m c :
  pf_valid self →
  pf_valid (mDM_setter m self).1 ∧
  pf_valid (channel_setter self c).1 ∧
  (∀ u, udim u = udim (p_unit (pf_mass self)) →
        mDM_setter_float (mkFQ NaN u) self = Ok NaN).
Proof.
  intros (Hc & Hlt & Hgt). split_and!.
  - destruct (mDM_setter_cases m self) as [[e E] | [E | (q & _ & _ & Hlt' & Hgt' & E)]];
      rewrite E; by split_and!.
  - unfold channel_setter.
    destruct c as [| | | c' | |]; cbn [check_channel]; try by split_and!.
    case_bool_decide as Hin; by split_and!.
  - intros u Hu. by apply mDM_setter_float_nan.
Qed.

(** X3.  The [mDM] setter is all or nothing.  When it does not return
    normally (the candidate is no quantity, has another dimension than the
    mass parameter, or is out of bounds) the object is what it was; a
    candidate of another dimension raises [UnitConversionError].  When it
    returns, only the value of the mass parameter may have changed. *)
Theorem mDM_setter_atomic m self :
  ((mDM_setter m self).2 ≠ Ok tt → (mDM_setter m self).1 = self) ∧
  (∀ q, u_Quantity m = Ok q →
        dim_eqb (udim (qunit q)) (udim (p_unit (pf_mass self))) = false →
        mDM_setter m self
        = (self, Raise (UnitConversionError (qunit q) (p_unit (pf_mass self))))) ∧
  (∀ e, u_Quantity m = Raise e → mDM_setter m self = (self, Raise e)) ∧
  (∃ v, (mDM_setter m self).1 = with_mass self (set_value (pf_mass self) v)).
Proof.
  split_and!.
  - intros Hr. destruct (mDM_setter m self) as [self' r] eqn:E.
    by apply (mDM_setter_error_keeps m self self' r).
  - intros q Hq Hdim. unfold mDM_setter, ste_bind, get_state, lift.
    rewrite Hq. bind_step. unfold q_to. by rewrite Hdim.
  - intros e He. unfold mDM_setter, ste_bind, get_state, lift. by rewrite He.
  - destruct (mDM_setter_cases m self) as [[e E] | [E | (q & _ & _ & _ & _ & E)]];
      rewrite E; cbn [fst]; try by eexists.
    all: exists (p_value (pf_mass self)); by destruct self as [? ? ? ? []].
Qed.

(** X4.  Writing back the mass that [mDM] reads changes nothing: for a
    [PrimaryFlux] whose mass parameter is in GeV and whose mass is within
    the bounds, the setter called with [self.mDM] returns normally and the
    object is what it was. *)
Theorem mDM_set_get self :
  p_unit (pf_mass self) = GeV →
  lt_float (p_value (pf_mass self)) (p_min (pf_mass self)) = false →
  gt_float (p_value (pf_mass self)) (p_max (pf_mass self)) = false →
  mDM_setter (VQuantity (mDM self)) self = (self, Ok tt).
Proof.
  intros Hu Hlt Hgt.
  destruct (mDM_setter_cases (VQuantity (mDM self)) self)
    as [[e E] | [E | (q & Hq & _ & _ & _ & E)]].
  - exfalso. revert E. unfold mDM_setter, ste_bind, get_state, lift, put_state.
    cbn [u_Quantity]. bind_step. unfold to_value, q_to, mDM. cbn [qunit qvalue].
    rewrite Hu, dim_eqb_refl. bind_step. cbn [qunit qvalue]. rewrite dim_eqb_refl.
    bind_step. cbn [qvalue uscale GeV].
    replace (p_value (pf_mass self) * (1 / 1) * (1 / 1)) with (p_value (pf_mass self))
      by lra.
    by rewrite Hlt, Hgt.
  - exfalso. revert E. unfold mDM_setter, ste_bind, get_state, lift, put_state.
    cbn [u_Quantity]. bind_step. unfold to_value, q_to, mDM. cbn [qunit qvalue].
    rewrite Hu, dim_eqb_refl. bind_step. cbn [qunit qvalue]. rewrite dim_eqb_refl.
    bind_step. by destruct (_ || _).
  - rewrite E. f_equal.
    cbn [u_Quantity] in Hq. bind_step in Hq. unfold q_to, mDM in Hq.
    cbn [qunit qvalue] in Hq. rewrite Hu, dim_eqb_refl in Hq. injection Hq as <-.
    rewrite Hu. cbn [qvalue uscale GeV].
    destruct self as [t c mp kw [n v u lo hi fr]]. unfold with_mass, set_value. cbn.
    do 2 f_equal. lra.
Qed.

(** X5.  The [mDM] setter depends on the candidate only through its value
    in the unit of the mass parameter: two quantities of the dimension of
    that unit that denote the same amount (value times unit scale) give the
    same object and the same outcome, error message included. *)
Theorem mDM_setter_unit_invariant q1 q2 self :
  udim (qunit q1) = udim (p_unit (pf_mass self)) →
  udim (qunit q2) = udim (p_unit (pf_mass self)) →
  qvalue q1 * uscale (qunit q1) = qvalue q2 * uscale (qunit q2) →
  mDM_setter (VQuantity q1) self = mDM_setter (VQuantity q2) self.
Proof.
  intros H1 H2 Hv.
  assert (E : (q0 ← u_Quantity (VQuantity q1); q_to q0 (p_unit (pf_mass self)))
            = (q0 ← u_Quantity (VQuantity q2); q_to q0 (p_unit (pf_mass self)))).
  { cbn [u_Quantity]. bind_step. unfold q_to. rewrite H1, H2, dim_eqb_refl.
    do 2 f_equal. unfold Rdiv. by rewrite <- !Rmult_assoc, Hv. }
  unfold mDM_setter, ste_bind, get_state, lift. by rewrite E.
Qed.

Lemma dim_eqb_eq a b : dim_eqb a b = true → a = b.
Proof.
  unfold dim_eqb. intros H.
  apply andb_prop in H as [H H3]. apply andb_prop in H as [H1 H2].
  apply Z.eqb_eq in H1, H2, H3. by apply dim_eq.
Qed.

Lemma dim_div_GeV_dimensionless d :
  dim_eqb (dim_div d (udim GeV)) (udim dimensionless_unscaled) = true → d = udim GeV.
Proof.
  intros H. apply dim_eqb_eq in H. injection H as H1 H2 H3.
  apply dim_eq; cbn; lia.
Qed.

(** X6.  [evaluate] at an input that is no positive energy never reaches
    the interpolant: an [energy] of another dimension than energy (with a
    mass that is not zero) raises [UnitTypeError], from the logarithm; an
    energy quantity that is zero or negative gives no finite flux. *)
Theorem evaluate_rejects_bad_energy self energy kwargs :
  (p_value (pf_mass self) ≠ 0 → udim (qunit energy) ≠ udim GeV →
     evaluate self energy kwargs = Raise UnitTypeError) ∧
  (udim (qunit energy) = udim GeV → energy_fraction self energy <= 0 →
     evaluate self energy kwargs = NonFinite).
Proof.
  split.
  - intros Hm Hdim. unfold evaluate.
    rewrite q_div_ok by done. bind_step. unfold np_log10. cbn [qunit unit_div udim].
    destruct (dim_eqb _ _) eqn:E; [| done].
    by apply dim_div_GeV_dimensionless in E.
  - intros Hdim Hx. unfold evaluate, q_div. cbn [mDM qvalue qunit].
    destruct (Req_dec_T (p_value (pf_mass self)) 0) as [E | Hm]; [done |].
    bind_step. unfold np_log10. cbn [qvalue qunit unit_div udim uscale].
    rewrite Hdim. cbn [GeV udim dim_div dim_eqb d_energy d_length d_time
                       dimensionless_unscaled uscale Z.sub Z.eqb Z.pos_sub Z.opp andb
                       Pos.eqb Z.add Z.succ_double Z.pred_double Z.double].
    cbn.
    set (x := qvalue energy / p_value (pf_mass self) * (uscale (qunit energy) / 1 / 1)).
    assert (Ex : x = energy_fraction self energy).
    { unfold x, energy_fraction. by field. }
    destruct (Rlt_dec 0 x); [lra | done].
Qed.

(** X7.  [evaluate] does not depend on the unit in which the energy comes:
    two energy quantities that denote the same energy query the interpolant
    at the same point, fail alike, and return fluxes that agree once each
    is taken per the same energy unit (value over the scale of the energy
    unit). *)
Theorem evaluate_unit_consistent self e1 e2 kwargs :
  udim (qunit e1) = udim GeV →
  udim (qunit e2) = udim GeV →
  qvalue e1 * uscale (qunit e1) = qvalue e2 * uscale (qunit e2) →
  0 < energy_fraction self e1 →
  (∀ r1, evaluate self e1 kwargs = Ok r1 →
     ∃ r2, evaluate self e2 kwargs = Ok r2 ∧
           qvalue r2 / uscale (qunit e2) = qvalue r1 / uscale (qunit e1) ∧
           udim (qunit r2) = udim (qunit r1)) ∧
  (∀ e, evaluate self e1 kwargs = Raise e → evaluate self e2 kwargs = Raise e) ∧
  (evaluate self e1 kwargs = NonFinite → evaluate self e2 kwargs = NonFinite).
Proof.
  intros Hd1 Hd2 Hv Hx1.
  assert (Hfrac : energy_fraction self e2 = energy_fraction self e1).
  { unfold energy_fraction. by rewrite Hv. }
  assert (Hx2 : 0 < energy_fraction self e2) by (by rewrite Hfrac).
  rewrite (evaluate_unfold self e1 kwargs Hd1 Hx1).
  rewrite (evaluate_unfold self e2 kwargs Hd2 Hx2). rewrite Hfrac.
  destruct (super_evaluate _ _ _) as [dN | e | ]; bind_step; split_and!; try done.
  intros r1 [= <-]. eexists. split; [done |]. cbn [qvalue qunit unit_div udim].
  split; [| by rewrite Hd1, Hd2].
  unfold Rdiv. rewrite !Rmult_assoc, <- !Rinv_mult. do 2 f_equal.
  rewrite (Rmult_comm (qvalue e2 * ln 10)), (Rmult_comm (qvalue e1 * ln 10)).
  rewrite <- !Rmult_assoc.
  rewrite (Rmult_comm (uscale (qunit e2))), (Rmult_comm (uscale (qunit e1))).
  by rewrite Hv.
Qed.

Lemma registry_get_allowed reg c :
  c ∈ reg.*1 → ∃ label, registry_get reg c = Ok label ∧ (c, label) ∈ reg.
Proof.
  induction reg as [| [k v] reg IH]; intros Hc; [by apply elem_of_nil in Hc |].
  cbn [registry_get]. destruct (String.eqb k c) eqn:E.
  - apply String.eqb_eq in E as ->. exists v. split; [done | apply elem_of_cons; by left].
  - cbn in Hc. apply elem_of_cons in Hc as [-> | Hc].
    + by rewrite String.eqb_refl in E.
    + destruct (IH Hc) as (label & Hl & Hin). exists label.
      split; [done | apply elem_of_cons; by right].
Qed.

Lemma mDM_setter_no_KeyError m self key :
  (mDM_setter m self).2 ≠ Raise (KeyError key).
Proof.
  unfold mDM_setter, ste_bind, get_state, lift, put_state.
  destruct (u_Quantity m) as [q0 | e | ] eqn:Hq0; bind_step.
  - unfold q_to. destruct (dim_eqb _ _) eqn:Hd; [| done].
    unfold to_value, q_to. cbn [qunit]. rewrite dim_eqb_refl. bind_step.
    by destruct (_ || _).
  - cbn. destruct m as [| | | s | |]; cbn in Hq0; try done; try by injection Hq0 as <-.
    destruct (parse_quantity s); [done | by injection Hq0 as <-].
  - done.
Qed.

Lemma column_Raise_inv (t : Table) name e :
  column t name = Raise e → e = KeyError name ∧ t !! name = None.
Proof. unfold column. destruct (t !! name); [done | by intros [= <-]]. Qed.

Lemma column_not_NonFinite (t : Table) name : column t name ≠ NonFinite.
Proof. unfold column. by destruct (t !! name). Qed.

(** X8.  When the data file has been read, the constructor raises
    [KeyError] only for a column that the table lacks: the mass column, the
    log-energy-ratio column, or the column that the registry names for the
    channel.  The lookup of a validated channel in the registry never
    fails. *)
Theorem PrimaryFlux_init_KeyError t mDM_arg channel key :
  table_file = Some (Ok t) →
  PrimaryFlux_init mDM_arg channel = Raise (KeyError key) →
  t !! key = None ∧
  (key = "mDM" ∨ key = "Log[10,x]" ∨
   ∃ c, channel = VStr c ∧ c ∈ allowed_channels ∧
        registry_get channel_registry c = Ok key).
Proof.
  intros Hfile H. unfold PrimaryFlux_init in H. rewrite Hfile in H. bind_step in H.
  destruct channel as [| | | c | |]; try done.
  rewrite check_channel_spec in H. case_bool_decide as Hc; [| done]. bind_step in H.
  destruct (column t "mDM") as [mcol | e | ] eqn:Hm; bind_step in H.
  2: { injection H as ->. apply column_Raise_inv in Hm as [[= <-] Hm]. by split; [| left]. }
  2: { by apply column_not_NonFinite in Hm. }
  destruct (column t "Log[10,x]") as [xcol | e | ] eqn:Hx; bind_step in H.
  2: { injection H as ->. apply column_Raise_inv in Hx as [[= <-] Hx].
       split; [done | right; by left]. }
  2: { by apply column_not_NonFinite in Hx. }
  destruct (registry_get_allowed channel_registry c Hc) as (label & Hl & _).
  rewrite Hl in H. bind_step in H.
  destruct (column t label) as [col | e | ] eqn:Hcol; bind_step in H.
  2: { injection H as ->. apply column_Raise_inv in Hcol as [[= <-] Hcol].
       split; [done |]. right. right. by exists c. }
  2: { by apply column_not_NonFinite in Hcol. }
  unfold reshape in H. destruct (_ =? _)%nat; [| done]. bind_step in H.
  match type of H with context [mDM_setter ?m ?s] =>
    pose proof (mDM_setter_no_KeyError m s key) as Hno;
    destruct (mDM_setter m s) as [self' r] end.
  cbn in Hno. destruct r as [[] | e | ]; bind_step in H;
    [discriminate | injection H as ->; by destruct Hno | discriminate].
Qed.

(** X9.  The channel setter changes the channel attribute and nothing
    else: the table, the map, the interpolation keywords and the mass
    parameter are what they were, whatever is passed.  So for a base-class
    interpolant that does not read the channel attribute, [evaluate]
    returns after a change of channel what it returned before: the map of
    the first channel stays in use. *)
Theorem channel_setter_keeps_interpolant self c energy kwargs :
  (∀ s ch log10x kw, super_evaluate (with_channel s ch) log10x kw
                     = super_evaluate s log10x kw) →
  let self' := (channel_setter self c).1 in
  pf_table self' = pf_table self ∧
  pf_map self' = pf_map self ∧
  pf_interp_kwargs self' = pf_interp_kwargs self ∧
  pf_mass self' = pf_mass self ∧
  evaluate self' energy kwargs = evaluate self energy kwargs.
Proof.
  intros Hblind self'. subst self'. unfold channel_setter.
  destruct (check_channel c) as [ch | e | ]; cbn [fst]; try done.
  split_and!; try done.
  unfold evaluate. change (mDM (with_channel self ch)) with (mDM self).
  destruct (q_div energy (mDM self)) as [x | e | ]; bind_step; try done.
  destruct (np_log10 x) as [log10x | e | ]; bind_step; try done.
  by rewrite Hblind.
Qed.

(** ** Further properties of the flux models *)

Lemma q_rscale_twice q a : q_rscale (q_rscale q a) (1 + 0) = q_rscale q a.
Proof. apply quantity_eq; cbn; [lra | done]. Qed.

(** X10.  The redshift enters [evaluate] only as a shift of the energy: a
    model with the number [z] as redshift returns at the energy [energy]
    what the same model with redshift 0 returns at the energy
    [energy * (1 + z)]; this holds for the annihilation model and for the
    decay model, whatever the outcome. *)
Theorem redshift_is_energy_shift energy scale z :
  (∀ self, ann_z self = VNum z →
     annihilation_evaluate self energy scale
     = annihilation_evaluate (with_ann_z self (VNum 0)) (q_rscale energy (1 + z)) scale) ∧
  (∀ self, dec_z self = VNum z →
     decay_evaluate self energy scale
     = decay_evaluate (with_dec_z self (VNum 0)) (q_rscale energy (1 + z)) scale).
Proof.
  split; intros self Hz.
  - unfold annihilation_evaluate.
    cbn [with_ann_z ann_z ann_k ann_primary_flux ann_jfactor ann_mass].
    rewrite Hz. cbn [as_float]. bind_step. by rewrite q_rscale_twice.
  - unfold decay_evaluate.
    cbn [with_dec_z dec_z dec_primary_flux dec_jfactor dec_mass].
    rewrite Hz. cbn [as_float]. bind_step. by rewrite q_rscale_twice.
Qed.

Lemma annihilation_tail_lscale c a k' mass :
  (flux ← q_divr (q_lscale c a) k';
   flux ← q_div flux mass;
   flux ← q_div flux mass;
   q_divr flux (4 * PI))
  = q_lscale c <$> (flux ← q_divr a k';
                    flux ← q_div flux mass;
                    flux ← q_div flux mass;
                    q_divr flux (4 * PI)).
Proof.
  rewrite q_divr_lscale. apply bind_lscale. intros b.
  rewrite q_div_lscale. apply bind_lscale. intros b'.
  rewrite q_div_lscale. apply bind_lscale. intros b''. apply q_divr_lscale.
Qed.

(** X11.  With the energy and the other attributes fixed, the annihilation
    model's [evaluate] is homogeneous of degree one in the argument [scale]
    and in the attribute [jfactor], whatever the outcome: multiplying
    either by [c] multiplies a returned flux by [c] and leaves an error as
    it is. *)
Theorem annihilation_flux_scaling self energy scale c :
  annihilation_evaluate self energy (c * scale)
  = q_lscale c <$> annihilation_evaluate self energy scale ∧
  annihilation_evaluate (with_ann_jfactor self (q_lscale c (ann_jfactor self))) energy scale
  = q_lscale c <$> annihilation_evaluate self energy scale.
Proof.
  assert (Hscale : annihilation_evaluate self energy (c * scale)
                   = q_lscale c <$> annihilation_evaluate self energy scale).
  { unfold annihilation_evaluate.
    destruct (as_float (ann_z self)) as [z | e | ]; bind_step; try done.
    destruct (PrimaryFlux_call _ _) as [dN | e | ]; bind_step; try done.
    destruct (as_float (ann_k self)) as [k' | e | ]; bind_step; try done.
    rewrite q_lscale_mul, !q_mul_lscale. apply annihilation_tail_lscale. }
  split; [exact Hscale |].
  rewrite <- Hscale. unfold annihilation_evaluate.
  cbn [with_ann_jfactor ann_z ann_k ann_primary_flux ann_jfactor ann_mass].
  replace (q_lscale scale (q_lscale c (ann_jfactor self)))
    with (q_lscale (c * scale) (ann_jfactor self)); [done |].
  apply quantity_eq; cbn; [ring | done].
Qed.

(** ** Further properties of [from_dict] and [to_dict] *)

Lemma iterate_list (σ : store) l items :
  σ !! l = Some (OList items) → iterate (VRef l) σ = (σ, Ok items).
Proof. unfold iterate. by intros ->. Qed.

(** [from_dict] on a record whose ["spectral"] dictionary holds both keys,
    up to the call of the constructor.  [names] are the arguments of the
    constructor and [new] is the constructor. *)
Lemma from_dict_run {A} (names : list string) (new : gmap string value → result A)
    (σ : store) ld outer lsp inner ty ps items scales :
  σ !! ld = Some (ODict outer) →
  outer !! "spectral" = Some (VRef lsp) →
  σ !! lsp = Some (ODict inner) →
  inner !! "type" = Some ty →
  inner !! "parameters" = Some ps →
  iterate ps (<[lsp := ODict (delete "parameters" (delete "type" inner))]> σ)
  = (<[lsp := ODict (delete "parameters" (delete "type" inner))]> σ, Ok items) →
  scale_values items (<[lsp := ODict (delete "parameters" (delete "type" inner))]> σ)
  = (<[lsp := ODict (delete "parameters" (delete "type" inner))]> σ, Ok scales) →
  (data ⇐ get_item (VRef ld) "spectral";
   _ ⇐ dict_pop data "type";
   parameters ⇐ dict_pop data "parameters";
   items ⇐ iterate parameters;
   scales ⇐ scale_values items;
   scale ⇐ lift (first scales);
   kwargs ⇐ dict_contents data;
   lift (kwargs ← bind_kwargs names scale kwargs; new kwargs)) σ
  = (<[lsp := ODict (delete "parameters" (delete "type" inner))]> σ,
     scale ← first scales;
     kwargs ← bind_kwargs names scale (delete "parameters" (delete "type" inner));
     new kwargs).
Proof.
  intros Hld Hsp Hlsp Hty Hps Hit Hsc.
  rewrite (ste_bind_Ok _ _ _ σ (VRef lsp)) by (by eapply get_item_lookup).
  erewrite ste_bind_Ok by (by eapply dict_pop_lookup).
  erewrite ste_bind_Ok.
  2: { eapply dict_pop_lookup; [by rewrite lookup_insert_eq |].
       by rewrite lookup_delete_ne. }
  rewrite insert_insert_eq.
  rewrite (ste_bind_Ok _ _ _ _ _ Hit), (ste_bind_Ok _ _ _ _ _ Hsc).
  destruct scales as [| scale rest]; [done |].
  cbn [first]. rewrite (ste_bind_Ok _ _ _ _ scale) by done.
  erewrite ste_bind_Ok.
  2: { unfold dict_contents. by rewrite lookup_insert_eq. }
  done.
Qed.

(** [from_dict] stops at the first key that is missing. *)
Lemma from_dict_missing {A} (names : list string) (new : gmap string value → result A)
    (σ : store) ld outer :
  σ !! ld = Some (ODict outer) →
  let body :=
    (data ⇐ get_item (VRef ld) "spectral";
     _ ⇐ dict_pop data "type";
     parameters ⇐ dict_pop data "parameters";
     items ⇐ iterate parameters;
     scales ⇐ scale_values items;
     scale ⇐ lift (first scales);
     kwargs ⇐ dict_contents data;
     lift (kwargs ← bind_kwargs names scale kwargs; new kwargs)) in
  (outer !! "spectral" = None → body σ = (σ, Raise (KeyError "spectral"))) ∧
  (∀ lsp inner, outer !! "spectral" = Some (VRef lsp) → σ !! lsp = Some (ODict inner) →
     (inner !! "type" = None → body σ = (σ, Raise (KeyError "type"))) ∧
     (is_Some (inner !! "type") → inner !! "parameters" = None →
        body σ = (<[lsp := ODict (delete "type" inner)]> σ,
                  Raise (KeyError "parameters")))).
Proof.
  intros Hld body. subst body. split.
  - intros Hsp. unfold ste_bind at 1. unfold get_item. by rewrite Hld, Hsp.
  - intros lsp inner Hsp Hlsp. split.
    + intros Hty. rewrite (ste_bind_Ok _ _ _ σ (VRef lsp)) by (by eapply get_item_lookup).
      unfold ste_bind at 1. unfold dict_pop. by rewrite Hlsp, Hty.
    + intros [ty Hty] Hps.
      rewrite (ste_bind_Ok _ _ _ σ (VRef lsp)) by (by eapply get_item_lookup).
      erewrite ste_bind_Ok by (by eapply dict_pop_lookup).
      unfold ste_bind at 1. unfold dict_pop.
      by rewrite lookup_insert_eq, lookup_delete_ne, Hps.
Qed.

(** X12.  [from_dict] of either model stops at the first key that is
    missing, and is not all or nothing.  A record without ["spectral"]
    raises [KeyError] for it and a ["spectral"] dictionary without ["type"]
    raises [KeyError] for that, both with the store untouched; but a
    ["spectral"] dictionary with ["type"] and without ["parameters"] raises
    [KeyError] for ["parameters"] after ["type"] has been removed from the
    caller's dictionary. *)
Theorem from_dict_missing_keys (σ : store) ld outer :
  σ !! ld = Some (ODict outer) →
  (outer !! "spectral" = None →
     annihilation_from_dict (VRef ld) σ = (σ, Raise (KeyError "spectral")) ∧
     decay_from_dict (VRef ld) σ = (σ, Raise (KeyError "spectral"))) ∧
  (∀ lsp inner, outer !! "spectral" = Some (VRef lsp) → σ !! lsp = Some (ODict inner) →
     (inner !! "type" = None →
        annihilation_from_dict (VRef ld) σ = (σ, Raise (KeyError "type")) ∧
        decay_from_dict (VRef ld) σ = (σ, Raise (KeyError "type"))) ∧
     (is_Some (inner !! "type") → inner !! "parameters" = None →
        annihilation_from_dict (VRef ld) σ
        = (<[lsp := ODict (delete "type" inner)]> σ, Raise (KeyError "parameters")) ∧
        decay_from_dict (VRef ld) σ
        = (<[lsp := ODict (delete "type" inner)]> σ, Raise (KeyError "parameters")))).
Proof.
  intros Hld.
  destruct (from_dict_missing ["mass"; "channel"; "scale"; "jfactor"; "z"; "k"]
              annihilation_new σ ld outer Hld) as [Ha1 Ha2].
  destruct (from_dict_missing ["mass"; "channel"; "scale"; "jfactor"; "z"]
              decay_new σ ld outer Hld) as [Hd1 Hd2].
  split.
  - intros Hsp. split; [by apply Ha1 | by apply Hd1].
  - intros lsp inner Hsp Hlsp.
    destruct (Ha2 lsp inner Hsp Hlsp) as [Ha3 Ha4].
    destruct (Hd2 lsp inner Hsp Hlsp) as [Hd3 Hd4].
    split.
    + intros Hty. split; [by apply Ha3 | by apply Hd3].
    + intros Hty Hps. split; [by apply Ha4 | by apply Hd4].
Qed.

(** X20.  [from_dict] of either model on an argument that is not shaped as
    a record.  An argument that is no dictionary (a number, a string,
    [None], a quantity, a list) cannot be indexed with ["spectral"]:
    [TypeError].  When the entry under ["spectral"] is a number, a string,
    [None] or a quantity, which have no method [pop], the error is
    [AttributeError]; when it is a list, whose [pop] wants an index, it is
    [TypeError].  In each case the store is untouched. *)
Theorem from_dict_not_a_record (σ : store) :
  (∀ data, (∀ l, data ≠ VRef l) →
     annihilation_from_dict data σ = (σ, Raise TypeError) ∧
     decay_from_dict data σ = (σ, Raise TypeError)) ∧
  (∀ l items, σ !! l = Some (OList items) →
     annihilation_from_dict (VRef l) σ = (σ, Raise TypeError) ∧
     decay_from_dict (VRef l) σ = (σ, Raise TypeError)) ∧
  (∀ ld outer v, σ !! ld = Some (ODict outer) → outer !! "spectral" = Some v →
     ((∀ l, v ≠ VRef l) →
        annihilation_from_dict (VRef ld) σ = (σ, Raise AttributeError) ∧
        decay_from_dict (VRef ld) σ = (σ, Raise AttributeError)) ∧
     (∀ l items, v = VRef l → σ !! l = Some (OList items) →
        annihilation_from_dict (VRef ld) σ = (σ, Raise TypeError) ∧
        decay_from_dict (VRef ld) σ = (σ, Raise TypeError))).
Proof.
  split_and!.
  - intros data Hno. unfold annihilation_from_dict, decay_from_dict, ste_bind, get_item.
    destruct data as [| b | r | s | q | l]; try done. by destruct (Hno l).
  - intros l items Hl.
    unfold annihilation_from_dict, decay_from_dict, ste_bind, get_item. by rewrite Hl.
  - intros ld outer v Hld Hsp. split.
    + intros Hno. unfold annihilation_from_dict, decay_from_dict.
      split.
      all: rewrite (ste_bind_Ok _ _ _ σ v) by (by eapply get_item_lookup).
      all: unfold ste_bind, dict_pop.
      all: destruct v as [| b | r | s | q | l]; try done; by destruct (Hno l).
    + intros l items -> Hl. unfold annihilation_from_dict, decay_from_dict.
      split.
      all: rewrite (ste_bind_Ok _ _ _ σ (VRef l)) by (by eapply get_item_lookup).
      all: unfold ste_bind, dict_pop; by rewrite Hl.
Qed.

Lemma scale_values_skip (σ : store) item name v rest :
  param_entry σ item name v → is_scale name = false →
  scale_values (item :: rest) σ = scale_values rest σ.
Proof.
  intros (l & d & -> & Hl & Hname & _) Hns. cbn [scale_values].
  rewrite (ste_bind_Ok _ _ _ σ name) by (by eapply get_item_lookup).
  by rewrite Hns.
Qed.

Lemma scale_values_take (σ : store) item name v rest :
  param_entry σ item name (Some v) → is_scale name = true →
  scale_values (item :: rest) σ
  = (vs ⇐ scale_values rest; ste_ret (v :: vs)) σ.
Proof.
  intros (l & d & -> & Hl & Hname & Hv) Hs. cbn [scale_values].
  rewrite (ste_bind_Ok _ _ _ σ name) by (by eapply get_item_lookup).
  rewrite Hs.
  by rewrite (ste_bind_Ok _ _ _ σ v) by (by eapply get_item_lookup).
Qed.

Lemma scale_values_prefix (σ : store) pre rest :
  Forall (fun item => ∃ name v, param_entry σ item name v ∧ is_scale name = false) pre →
  scale_values (pre ++ rest) σ = scale_values rest σ.
Proof.
  induction 1 as [| item pre (name & v & He & Hns) _ IH]; [done |].
  cbn [app]. by rewrite (scale_values_skip σ item name v).
Qed.

(** X13.  The scale that [from_dict] takes is the value of the first
    parameter named ["scale"].  Parameters before it with other names are
    skipped, and need no ["value"]; with no parameter named ["scale"] the
    selection raises [IndexError].  The whole list is read before the first
    element is taken: an error in an entry after the scale entry (an entry
    without ["name"], say) is raised all the same.  The store is not
    changed. *)
Theorem scale_selection (σ : store) pre p v rest :
  Forall (fun item => ∃ name w, param_entry σ item name w ∧ is_scale name = false) pre →
  param_entry σ p (VStr "scale") (Some v) →
  (scales ⇐ scale_values pre; lift (first scales)) σ = (σ, Raise IndexError) ∧
  (∀ vs, scale_values rest σ = (σ, Ok vs) →
     (scales ⇐ scale_values (pre ++ p :: rest); lift (first scales)) σ = (σ, Ok v)) ∧
  (∀ e, scale_values rest σ = (σ, Raise e) →
     (scales ⇐ scale_values (pre ++ p :: rest); lift (first scales)) σ = (σ, Raise e)).
Proof.
  intros Hpre Hp. split_and!.
  - pose proof (scale_values_prefix σ pre [] Hpre) as E. rewrite app_nil_r in E.
    unfold ste_bind. by rewrite E.
  - intros vs Hrest. unfold ste_bind at 1.
    rewrite (scale_values_prefix σ pre (p :: rest) Hpre).
    rewrite (scale_values_take σ p (VStr "scale") v rest Hp eq_refl).
    unfold ste_bind. by rewrite Hrest.
  - intros e Hrest. unfold ste_bind at 1.
    rewrite (scale_values_prefix σ pre (p :: rest) Hpre).
    rewrite (scale_values_take σ p (VStr "scale") v rest Hp eq_refl).
    unfold ste_bind. by rewrite Hrest.
Qed.

Lemma bind_kwargs_unexpected names scale (data : gmap string value) key :
  key ∈ dom data → key ∉ names → bind_kwargs names scale data = Raise TypeError.
Proof.
  intros Hin Hnot. unfold bind_kwargs. case_bool_decide; [done |].
  case_bool_decide as Hsub; [| done].
  apply Hsub in Hin. by apply elem_of_list_to_set in Hin.
Qed.

Lemma bind_kwargs_scale_twice names scale (data : gmap string value) :
  "scale" ∈ dom data → bind_kwargs names scale data = Raise TypeError.
Proof. intros Hin. unfold bind_kwargs. by rewrite bool_decide_true. Qed.

(** X14.  On a record whose ["spectral"] dictionary holds ["type"] and
    ["parameters"], [from_dict] of either model pops both keys and then:
    raises [IndexError] when no parameter is named ["scale"]; raises
    [TypeError] when the dictionary holds the key ["scale"] itself or any
    key that is no argument of the constructor.  The key ["k"] is such a
    key for the decay model. *)
Theorem from_dict_rejects (σ : store) ld outer lsp inner ty ps items scales :
  σ !! ld = Some (ODict outer) →
  outer !! "spectral" = Some (VRef lsp) →
  σ !! lsp = Some (ODict inner) →
  inner !! "type" = Some ty →
  inner !! "parameters" = Some ps →
  iterate ps (<[lsp := ODict (delete "parameters" (delete "type" inner))]> σ)
  = (<[lsp := ODict (delete "parameters" (delete "type" inner))]> σ, Ok items) →
  scale_values items (<[lsp := ODict (delete "parameters" (delete "type" inner))]> σ)
  = (<[lsp := ODict (delete "parameters" (delete "type" inner))]> σ, Ok scales) →
  let σ' := <[lsp := ODict (delete "parameters" (delete "type" inner))]> σ in
  (scales = [] →
     annihilation_from_dict (VRef ld) σ = (σ', Raise IndexError) ∧
     decay_from_dict (VRef ld) σ = (σ', Raise IndexError)) ∧
  (scales ≠ [] →
     (∀ key, is_Some (inner !! key) →
        key ∉ ["type"; "parameters"; "mass"; "channel"; "jfactor"; "z"; "k"] →
        annihilation_from_dict (VRef ld) σ = (σ', Raise TypeError)) ∧
     (∀ key, is_Some (inner !! key) →
        key ∉ ["type"; "parameters"; "mass"; "channel"; "jfactor"; "z"] →
        decay_from_dict (VRef ld) σ = (σ', Raise TypeError))).
Proof.
  intros Hld Hsp Hlsp Hty Hps Hit Hsc σ'. subst σ'.
  unfold annihilation_from_dict, decay_from_dict.
  rewrite !(from_dict_run _ _ σ ld outer lsp inner ty ps items scales) by done.
  split.
  - by intros ->.
  - intros Hne. destruct scales as [| scale rest]; [done |]. cbn [first]. bind_step.
    assert (Hkey : ∀ key, is_Some (inner !! key) → key ≠ "type" → key ≠ "parameters" →
                     key ∈ dom (delete "parameters" (delete "type" inner))).
    { intros key Hin H1 H2. apply elem_of_dom. by rewrite !lookup_delete_ne. }
    split; intros key Hin Hnot; rewrite !not_elem_of_cons in Hnot.
    + destruct Hnot as (H1 & H2 & H3 & H4 & H5 & H6 & H7 & _).
      destruct (decide (key = "scale")) as [-> | Hscale].
      * rewrite bind_kwargs_scale_twice; [done |]. by apply Hkey.
      * rewrite (bind_kwargs_unexpected _ _ _ key); [done | by apply Hkey |].
        rewrite !not_elem_of_cons. split_and!; try done. apply not_elem_of_nil.
    + destruct Hnot as (H1 & H2 & H3 & H4 & H5 & H6 & _).
      destruct (decide (key = "scale")) as [-> | Hscale].
      * rewrite bind_kwargs_scale_twice; [done |]. by apply Hkey.
      * rewrite (bind_kwargs_unexpected _ _ _ key); [done | by apply Hkey |].
        rewrite !not_elem_of_cons. split_and!; try done. apply not_elem_of_nil.
Qed.

Lemma from_dict_type_ignored {A} (names : list string)
    (new : gmap string value → result A) (σ : store) ld outer lsp inner ty1 ty2 :
  ld ≠ lsp →
  σ !! ld = Some (ODict outer) →
  outer !! "spectral" = Some (VRef lsp) →
  let body :=
    (data ⇐ get_item (VRef ld) "spectral";
     _ ⇐ dict_pop data "type";
     parameters ⇐ dict_pop data "parameters";
     items ⇐ iterate parameters;
     scales ⇐ scale_values items;
     scale ⇐ lift (first scales);
     kwargs ⇐ dict_contents data;
     lift (kwargs ← bind_kwargs names scale kwargs; new kwargs)) in
  body (<[lsp := ODict (<["type" := ty1]> inner)]> σ)
  = body (<[lsp := ODict (<["type" := ty2]> inner)]> σ).
Proof.
  intros Hne Hld Hsp body. subst body.
  assert (Hstep : ∀ ty (k : value → StE store A),
    (data ⇐ get_item (VRef ld) "spectral"; _ ⇐ dict_pop data "type"; k data)
      (<[lsp := ODict (<["type" := ty]> inner)]> σ)
    = k (VRef lsp) (<[lsp := ODict (delete "type" inner)]> σ)).
  { intros ty k.
    rewrite (ste_bind_Ok _ _ _ (<[lsp := ODict (<["type" := ty]> inner)]> σ) (VRef lsp)).
    2: { eapply get_item_lookup; [by rewrite lookup_insert_ne | done]. }
    erewrite ste_bind_Ok.
    2: { eapply dict_pop_lookup; [by rewrite lookup_insert_eq |].
         by rewrite lookup_insert_eq. }
    by rewrite insert_insert_eq, delete_insert_eq. }
  by rewrite (Hstep ty1), (Hstep ty2).
Qed.

(** X15.  [from_dict] never reads the type tag: it pops ["type"] and drops
    the value.  Two records that differ only in the value under ["type"]
    give the same outcome and leave the same store, for either model; so a
    record that bears the tag of the other model, or no tag of a model at
    all, is treated like one that bears the right tag. *)
Theorem from_dict_ignores_type (σ : store) ld outer lsp inner ty1 ty2 :
  ld ≠ lsp →
  σ !! ld = Some (ODict outer) →
  outer !! "spectral" = Some (VRef lsp) →
  annihilation_from_dict (VRef ld) (<[lsp := ODict (<["type" := ty1]> inner)]> σ)
  = annihilation_from_dict (VRef ld) (<[lsp := ODict (<["type" := ty2]> inner)]> σ) ∧
  decay_from_dict (VRef ld) (<[lsp := ODict (<["type" := ty1]> inner)]> σ)
  = decay_from_dict (VRef ld) (<[lsp := ODict (<["type" := ty2]> inner)]> σ).
Proof.
  intros Hne Hld Hsp. split.
  - exact (from_dict_type_ignored _ annihilation_new σ ld outer lsp inner ty1 ty2
             Hne Hld Hsp).
  - exact (from_dict_type_ignored _ decay_new σ ld outer lsp inner ty1 ty2 Hne Hld Hsp).
Qed.

(** The four objects that the base class allocates, and where. *)
Lemma model_to_dict_run tag scale full_output (σ : store) :
  ∃ lp lps lsp lo,
    σ !! lp = None ∧ σ !! lps = None ∧ σ !! lsp = None ∧ σ !! lo = None ∧
    lps ≠ lp ∧ lsp ≠ lp ∧ lsp ≠ lps ∧ lo ≠ lp ∧ lo ≠ lps ∧ lo ≠ lsp ∧
    model_to_dict tag scale full_output σ
    = (<[lo := ODict {[ "spectral" := VRef lsp ]}]>
         (<[lsp := ODict {[ "type" := VStr (default "" (head tag));
                            "parameters" := VRef lps ]}]>
            (<[lps := OList [VRef lp]]>
               (<[lp := ODict {[ "name" := VStr (p_name scale);
                                 "value" := VNum (p_value scale);
                                 "frozen" := VBool (p_frozen scale) ]}]> σ))),
       Ok (VRef lo)).
Proof.
  unfold model_to_dict.
  destruct (alloc_fresh (ODict {[ "name" := VStr (p_name scale);
                                  "value" := VNum (p_value scale);
                                  "frozen" := VBool (p_frozen scale) ]}) σ)
    as (lp & Hlp & E1).
  rewrite (ste_bind_Ok _ _ _ _ _ E1).
  match goal with |- context [ste_bind (alloc ?o) _ ?s] =>
    destruct (alloc_fresh o s) as (lps & Hlps & E2) end.
  rewrite (ste_bind_Ok _ _ _ _ _ E2).
  match goal with |- context [ste_bind (alloc ?o) _ ?s] =>
    destruct (alloc_fresh o s) as (lsp & Hlsp & E3) end.
  rewrite (ste_bind_Ok _ _ _ _ _ E3).
  match goal with |- context [alloc ?o ?s] =>
    destruct (alloc_fresh o s) as (lo & Hlo & E4) end.
  rewrite E4.
  assert (lps ≠ lp) by (intros ->; by rewrite lookup_insert_eq in Hlps).
  rewrite lookup_insert_ne in Hlps by done.
  assert (lsp ≠ lps) by (intros ->; by rewrite lookup_insert_eq in Hlsp).
  rewrite lookup_insert_ne in Hlsp by done.
  assert (lsp ≠ lp) by (intros ->; by rewrite lookup_insert_eq in Hlsp).
  rewrite lookup_insert_ne in Hlsp by done.
  assert (lo ≠ lsp) by (intros ->; by rewrite lookup_insert_eq in Hlo).
  rewrite lookup_insert_ne in Hlo by done.
  assert (lo ≠ lps) by (intros ->; by rewrite lookup_insert_eq in Hlo).
  rewrite lookup_insert_ne in Hlo by done.
  assert (lo ≠ lp) by (intros ->; by rewrite lookup_insert_eq in Hlo).
  rewrite lookup_insert_ne in Hlo by done.
  exists lp, lps, lsp, lo. by split_and!.
Qed.

(** The store after [to_dict] of the annihilation model. *)
Lemma annihilation_to_dict_run self full_output (σ : store) :
  ∃ lp lps lsp lo base,
    σ !! lp = None ∧ σ !! lps = None ∧ σ !! lsp = None ∧ σ !! lo = None ∧
    lps ≠ lp ∧ lsp ≠ lp ∧ lsp ≠ lps ∧ lo ≠ lp ∧ lo ≠ lps ∧ lo ≠ lsp ∧
    base = <[lo := ODict {[ "spectral" := VRef lsp ]}]>
             (<[lsp := ODict {[ "type" := VStr "DarkMatterAnnihilationSpectralModel";
                                "parameters" := VRef lps ]}]>
                (<[lps := OList [VRef lp]]>
                   (<[lp := ODict {[ "name" := VStr (p_name (ann_scale self));
                                     "value" := VNum (p_value (ann_scale self));
                                     "frozen" := VBool (p_frozen (ann_scale self)) ]}]>
                      σ))) ∧
    annihilation_to_dict self full_output σ
    = (<[lsp := ODict (<["k" := ann_k self]>
                      (<["z" := ann_z self]>
                      (<["jfactor" := VStr (to_string (ann_jfactor self))]>
                      (<["mass" := VStr (to_string (ann_mass self))]>
                      (<["channel" := ann_channel self]>
                         {[ "type" := VStr "DarkMatterAnnihilationSpectralModel";
                            "parameters" := VRef lps ]})))))]> base,
       Ok (VRef lo)).
Proof.
  destruct (model_to_dict_run annihilation_tag (ann_scale self) full_output σ)
    as (lp & lps & lsp & lo & Hlp & Hlps & Hlsp & Hlo & N1 & N2 & N3 & N4 & N5 & N6 & E).
  exists lp, lps, lsp, lo. eexists. split_and!; try done.
  unfold annihilation_to_dict. rewrite (ste_bind_Ok _ _ _ _ _ E).
  cbn [annihilation_tag head default from_option].
  erewrite set_spectral_item;
    [| by rewrite lookup_insert_eq | by rewrite lookup_insert_ne, lookup_insert_eq].
  erewrite set_spectral_item;
    [| by rewrite lookup_insert_ne, lookup_insert_eq | by rewrite lookup_insert_eq].
  rewrite insert_insert_eq.
  erewrite set_spectral_item;
    [| by rewrite lookup_insert_ne, lookup_insert_eq | by rewrite lookup_insert_eq].
  rewrite insert_insert_eq.
  erewrite set_spectral_item;
    [| by rewrite lookup_insert_ne, lookup_insert_eq | by rewrite lookup_insert_eq].
  rewrite insert_insert_eq.
  erewrite set_spectral_item;
    [| by rewrite lookup_insert_ne, lookup_insert_eq | by rewrite lookup_insert_eq].
  rewrite insert_insert_eq.
  done.
Qed.

(** The store after [to_dict] of the decay model. *)
Lemma decay_to_dict_run self full_output (σ : store) :
  ∃ lp lps lsp lo base,
    σ !! lp = None ∧ σ !! lps = None ∧ σ !! lsp = None ∧ σ !! lo = None ∧
    lps ≠ lp ∧ lsp ≠ lp ∧ lsp ≠ lps ∧ lo ≠ lp ∧ lo ≠ lps ∧ lo ≠ lsp ∧
    base = <[lo := ODict {[ "spectral" := VRef lsp ]}]>
             (<[lsp := ODict {[ "type" := VStr "DarkMatterDecaySpectralModel";
                                "parameters" := VRef lps ]}]>
                (<[lps := OList [VRef lp]]>
                   (<[lp := ODict {[ "name" := VStr (p_name (dec_scale self));
                                     "value" := VNum (p_value (dec_scale self));
                                     "frozen" := VBool (p_frozen (dec_scale self)) ]}]>
                      σ))) ∧
    decay_to_dict self full_output σ
    = (<[lsp := ODict (<["z" := dec_z self]>
                      (<["jfactor" := VStr (to_string (dec_jfactor self))]>
                      (<["mass" := VStr (to_string (dec_mass self))]>
                      (<["channel" := dec_channel self]>
                         {[ "type" := VStr "DarkMatterDecaySpectralModel";
                            "parameters" := VRef lps ]}))))]> base,
       Ok (VRef lo)).
Proof.
  destruct (model_to_dict_run decay_tag (dec_scale self) full_output σ)
    as (lp & lps & lsp & lo & Hlp & Hlps & Hlsp & Hlo & N1 & N2 & N3 & N4 & N5 & N6 & E).
  exists lp, lps, lsp, lo. eexists. split_and!; try done.
  unfold decay_to_dict. rewrite (ste_bind_Ok _ _ _ _ _ E).
  cbn [decay_tag head default from_option].
  erewrite set_spectral_item;
    [| by rewrite lookup_insert_eq | by rewrite lookup_insert_ne, lookup_insert_eq].
  erewrite set_spectral_item;
    [| by rewrite lookup_insert_ne, lookup_insert_eq | by rewrite lookup_insert_eq].
  rewrite insert_insert_eq.
  erewrite set_spectral_item;
    [| by rewrite lookup_insert_ne, lookup_insert_eq | by rewrite lookup_insert_eq].
  rewrite insert_insert_eq.
  erewrite set_spectral_item;
    [| by rewrite lookup_insert_ne, lookup_insert_eq | by rewrite lookup_insert_eq].
  rewrite insert_insert_eq.
  done.
Qed.

Lemma store_kept_fresh (σ : store) lp lps lsp lo op ops osp oo osp' :
  σ !! lp = None → σ !! lps = None → σ !! lsp = None → σ !! lo = None →
  store_kept σ (<[lsp := osp']> (<[lo := oo]> (<[lsp := osp]> (<[lps := ops]>
                 (<[lp := op]> σ))))).
Proof.
  intros Hlp Hlps Hlsp Hlo l o Hl.
  assert (l ≠ lp) by congruence. assert (l ≠ lps) by congruence.
  assert (l ≠ lsp) by congruence. assert (l ≠ lo) by congruence.
  by rewrite !lookup_insert_ne.
Qed.

(** X16.  [to_dict] of either model changes no object that exists: it
    builds its record from new objects only, so every dictionary and list
    of the store before the call is in the store afterwards as it was, and
    the record it returns is an object that did not exist before.  It
    always returns. *)
Theorem to_dict_allocates_only full_output (σ : store) :
  (∀ self, ∃ σ' lo,
     annihilation_to_dict self full_output σ = (σ', Ok (VRef lo)) ∧
     σ !! lo = None ∧ is_Some (σ' !! lo) ∧ store_kept σ σ') ∧
  (∀ self, ∃ σ' lo,
     decay_to_dict self full_output σ = (σ', Ok (VRef lo)) ∧
     σ !! lo = None ∧ is_Some (σ' !! lo) ∧ store_kept σ σ').
Proof.
  split; intros self.
  - destruct (annihilation_to_dict_run self full_output σ)
      as (lp & lps & lsp & lo & base & Hlp & Hlps & Hlsp & Hlo
          & N1 & N2 & N3 & N4 & N5 & N6 & -> & E).
    eexists _, lo. split; [exact E |]. split_and!; [done | |].
    + rewrite lookup_insert_ne, lookup_insert_eq by done. by eexists.
    + by apply store_kept_fresh.
  - destruct (decay_to_dict_run self full_output σ)
      as (lp & lps & lsp & lo & base & Hlp & Hlps & Hlsp & Hlo
          & N1 & N2 & N3 & N4 & N5 & N6 & -> & E).
    eexists _, lo. split; [exact E |]. split_and!; [done | |].
    + rewrite lookup_insert_ne, lookup_insert_eq by done. by eexists.
    + by apply store_kept_fresh.
Qed.

(** [from_dict] on a record shaped like those of [to_dict]: one parameter,
    named ["scale"]. *)
Lemma record_from_dict {A} (names : list string) (new : gmap string value → result A)
    (σ : store) lp lps lsp lo ty v fr inner ty' :
  lps ≠ lp → lsp ≠ lp → lsp ≠ lps → lo ≠ lp → lo ≠ lps → lo ≠ lsp →
  inner !! "type" = Some ty' →
  inner !! "parameters" = Some (VRef lps) →
  let base :=
    <[lo := ODict {[ "spectral" := VRef lsp ]}]>
      (<[lsp := ODict {[ "type" := ty; "parameters" := VRef lps ]}]>
         (<[lps := OList [VRef lp]]>
            (<[lp := ODict {[ "name" := VStr "scale"; "value" := VNum v;
                              "frozen" := fr ]}]> σ))) in
  (data ⇐ get_item (VRef lo) "spectral";
   _ ⇐ dict_pop data "type";
   parameters ⇐ dict_pop data "parameters";
   items ⇐ iterate parameters;
   scales ⇐ scale_values items;
   scale ⇐ lift (first scales);
   kwargs ⇐ dict_contents data;
   lift (kwargs ← bind_kwargs names scale kwargs; new kwargs))
    (<[lsp := ODict inner]> base)
  = (<[lsp := ODict (delete "parameters" (delete "type" inner))]>
       (<[lsp := ODict inner]> base),
     kwargs ← bind_kwargs names (VNum v) (delete "parameters" (delete "type" inner));
     new kwargs).
Proof.
  intros N1 N2 N3 N4 N5 N6 Hty Hps base.
  erewrite (from_dict_run names new (<[lsp := ODict inner]> base) lo
              {[ "spectral" := VRef lsp ]} lsp inner ty' (VRef lps)
              [VRef lp] [VNum v]).
  - done.
  - unfold base. by rewrite lookup_insert_ne, lookup_insert_eq.
  - apply lookup_singleton_eq.
  - by rewrite lookup_insert_eq.
  - done.
  - done.
  - apply iterate_list. unfold base.
    rewrite !(lookup_insert_ne _ lsp lps) by done.
    rewrite (lookup_insert_ne _ lo lps) by done.
    rewrite (lookup_insert_ne _ lsp lps) by done.
    by rewrite lookup_insert_eq.
  - erewrite (scale_values_take _ (VRef lp) (VStr "scale") (VNum v) []); [done | | done].
    exists lp, {[ "name" := VStr "scale"; "value" := VNum v; "frozen" := fr ]}.
    split_and!; [done | | done | by simplify_map_eq].
    unfold base.
    rewrite !(lookup_insert_ne _ lsp lp) by done.
    rewrite (lookup_insert_ne _ lo lp) by done.
    rewrite (lookup_insert_ne _ lsp lp) by done.
    rewrite (lookup_insert_ne _ lps lp) by done.
    by rewrite lookup_insert_eq.
Qed.

Lemma decay_init_inv mass channel scale jfactor z self :
  decay_init mass channel scale jfactor z = Ok self →
  ∃ mass' jfactor' primary_flux scale',
    u_Quantity mass = Ok mass' ∧ u_Quantity jfactor = Ok jfactor' ∧
    PrimaryFlux_init mass channel = Ok primary_flux ∧
    u_Quantity scale = Ok scale' ∧
    self = mkDecay z mass' channel jfactor' primary_flux
             (mkParam "scale" (qvalue scale') (qunit scale') None None false).
Proof.
  unfold decay_init, scale_parameter. intros H.
  destruct (u_Quantity mass) as [m | e | ]; try done. bind_step in H.
  destruct (u_Quantity jfactor) as [j | e | ]; try done. bind_step in H.
  destruct (PrimaryFlux_init mass channel) as [pf | e | ]; try done. bind_step in H.
  destruct (u_Quantity scale) as [sc | e | ]; try done. bind_step in H.
  injection H as <-. by exists m, j, pf, sc.
Qed.



(** X17.  The record of a decay model round-trips.  For a decay model as
    the constructor leaves it (its primary flux is what [PrimaryFlux]
    builds for its mass and channel), whose mass and J-factor astropy
    prints to strings that it reads back as the same quantities,
    [from_dict] of the record that [to_dict] returns gives a model with the
    same channel, mass, J-factor, [z] and scale value and an equal primary
    flux, whose [evaluate] agrees with that of the model at every energy
    and scale; the constructor leaves every model in that state. *)
Theorem decay_round_trip self full_output (σ : store) :
  decay_derived self →
  parse_quantity (to_string (dec_mass self)) = Some (dec_mass self) →
  parse_quantity (to_string (dec_jfactor self)) = Some (dec_jfactor self) →
  (∀ mass channel scale jfactor z self0,
     decay_init mass channel scale jfactor z = Ok self0 → decay_derived self0) ∧
  ∃ σ1 data σ2 self',
    decay_to_dict self full_output σ = (σ1, Ok data) ∧
    decay_from_dict data σ1 = (σ2, Ok self') ∧
    dec_channel self' = dec_channel self ∧
    dec_mass self' = dec_mass self ∧
    dec_jfactor self' = dec_jfactor self ∧
    dec_z self' = dec_z self ∧
    p_value (dec_scale self') = p_value (dec_scale self) ∧
    dec_primary_flux self' = dec_primary_flux self ∧
    decay_derived self' ∧
    ∀ energy scale_arg,
      decay_evaluate self' energy scale_arg = decay_evaluate self energy scale_arg.
Proof.
  intros [Hpf Hname] Hmass Hjf. split.
  { intros mass channel scale jfactor z self0 H.
    apply decay_init_inv in H as (mq & jq & pf & sc & Hm & Hj & Hpf0 & Hsc & ->).
    split; [| done]. cbn [dec_mass dec_channel dec_primary_flux].
    by rewrite (PrimaryFlux_init_same_quantity _ mass). }
  destruct (decay_to_dict_run self full_output σ)
    as (lp & lps & lsp & lo & base & Hlp & Hlps & Hlsp & Hlo
        & N1 & N2 & N3 & N4 & N5 & N6 & -> & E).
  destruct self as [z mq channel jq pf sc].
  cbn [dec_z dec_mass dec_jfactor dec_channel dec_scale dec_primary_flux] in *.
  rewrite Hname in E.
  set (self' := mkDecay z mq channel jq pf
                  (mkParam "scale" (p_value sc) dimensionless_unscaled None None false)).
  eexists _, (VRef lo), _, self'. split; [exact E |]. split; [| by split_and!].
  unfold decay_from_dict.
  erewrite (record_from_dict _ decay_new σ lp lps lsp lo);
    [| done | done | done | done | done | done
     | by simplify_map_eq | by simplify_map_eq].
  f_equal.
  unfold bind_kwargs.
  rewrite bool_decide_false.
  2: { rewrite not_elem_of_dom. by simplify_map_eq. }
  match goal with |- context [bool_decide (dom ?d ⊆ ?names)] =>
    replace (bool_decide (dom d ⊆ names)) with true by (by vm_compute) end.
  bind_step. unfold decay_new.
  match goal with |- context [<["scale" := ?v]> ?d] => set (kwargs := <["scale" := v]> d) end.
  assert (kwargs !! "mass" = Some (VStr (to_string mq))) as -> by (by simplify_map_eq).
  assert (kwargs !! "channel" = Some channel) as -> by (by simplify_map_eq).
  assert (kwargs !! "scale" = Some (VNum (p_value sc))) as -> by (by simplify_map_eq).
  assert (kwargs !! "jfactor" = Some (VStr (to_string jq))) as -> by (by simplify_map_eq).
  assert (kwargs !! "z" = Some z) as -> by (by simplify_map_eq).
  cbn [default from_option]. unfold Datatypes.id, decay_init.
  assert (Hm' : u_Quantity (VStr (to_string mq)) = Ok mq) by (cbn; by rewrite Hmass).
  assert (Hj' : u_Quantity (VStr (to_string jq)) = Ok jq) by (cbn; by rewrite Hjf).
  rewrite Hm'. bind_step. rewrite Hj'. bind_step.
  rewrite (PrimaryFlux_init_same_quantity _ (VQuantity mq)) by (by rewrite Hm').
  rewrite Hpf. bind_step. done.
Qed.

(** X18.  The decay model does not read a record of the annihilation
    model: [from_dict] of the decay model, given the record that [to_dict]
    of an annihilation model returns, raises [TypeError], because the
    record holds the key ["k"], which is no argument of the decay
    constructor. *)
Theorem decay_rejects_annihilation_record self full_output (σ : store) :
  p_name (ann_scale self) = "scale" →
  ∃ σ1 data σ2,
    annihilation_to_dict self full_output σ = (σ1, Ok data) ∧
    decay_from_dict data σ1 = (σ2, Raise TypeError).
Proof.
  intros Hname.
  destruct (annihilation_to_dict_run self full_output σ)
    as (lp & lps & lsp & lo & base & Hlp & Hlps & Hlsp & Hlo
        & N1 & N2 & N3 & N4 & N5 & N6 & -> & E).
  rewrite Hname in E.
  eexists _, (VRef lo), _. split; [exact E |].
  unfold decay_from_dict.
  erewrite (record_from_dict _ decay_new σ lp lps lsp lo);
    [| done | done | done | done | done | done
     | by simplify_map_eq | by simplify_map_eq].
  apply pair_equal_spec. split; [reflexivity |].
  rewrite (bind_kwargs_unexpected _ _ _ "k"); [done | |].
  - apply elem_of_dom. by simplify_map_eq.
  - rewrite !not_elem_of_cons. split_and!; try done. apply not_elem_of_nil.
Qed.

(** X19.  The annihilation model reads a record of the decay model, since
    the type tag is not read and [k] has a default: for a decay model as
    the constructor leaves it, whose mass and J-factor print and read back,
    [from_dict] of the annihilation model, given the record that [to_dict]
    of the decay model returns, gives an annihilation model with [k = 2]
    and the channel, mass, J-factor, [z], scale value and primary flux of
    the decay model. *)
Theorem annihilation_reads_decay_record self full_output (σ : store) :
  decay_derived self →
  parse_quantity (to_string (dec_mass self)) = Some (dec_mass self) →
  parse_quantity (to_string (dec_jfactor self)) = Some (dec_jfactor self) →
  ∃ σ1 data σ2 self',
    decay_to_dict self full_output σ = (σ1, Ok data) ∧
    annihilation_from_dict data σ1 = (σ2, Ok self') ∧
    ann_k self' = VNum 2 ∧
    ann_channel self' = dec_channel self ∧
    ann_mass self' = dec_mass self ∧
    ann_jfactor self' = dec_jfactor self ∧
    ann_z self' = dec_z self ∧
    p_value (ann_scale self') = p_value (dec_scale self) ∧
    ann_primary_flux self' = dec_primary_flux self.
Proof.
  intros [Hpf Hname] Hmass Hjf.
  destruct (decay_to_dict_run self full_output σ)
    as (lp & lps & lsp & lo & base & Hlp & Hlps & Hlsp & Hlo
        & N1 & N2 & N3 & N4 & N5 & N6 & -> & E).
  destruct self as [z mq channel jq pf sc].
  cbn [dec_z dec_mass dec_jfactor dec_channel dec_scale dec_primary_flux] in *.
  rewrite Hname in E.
  set (self' := mkAnnihilation (VNum 2) z mq channel jq pf
                  (mkParam "scale" (p_value sc) dimensionless_unscaled None None false)).
  eexists _, (VRef lo), _, self'. split; [exact E |]. split; [| by split_and!].
  unfold annihilation_from_dict.
  erewrite (record_from_dict _ annihilation_new σ lp lps lsp lo);
    [| done | done | done | done | done | done
     | by simplify_map_eq | by simplify_map_eq].
  f_equal.
  unfold bind_kwargs.
  rewrite bool_decide_false.
  2: { rewrite not_elem_of_dom. by simplify_map_eq. }
  match goal with |- context [bool_decide (dom ?d ⊆ ?names)] =>
    replace (bool_decide (dom d ⊆ names)) with true by (by vm_compute) end.
  bind_step. unfold annihilation_new.
  match goal with |- context [<["scale" := ?v]> ?d] => set (kwargs := <["scale" := v]> d) end.
  assert (kwargs !! "mass" = Some (VStr (to_string mq))) as -> by (by simplify_map_eq).
  assert (kwargs !! "channel" = Some channel) as -> by (by simplify_map_eq).
  assert (kwargs !! "scale" = Some (VNum (p_value sc))) as -> by (by simplify_map_eq).
  assert (kwargs !! "jfactor" = Some (VStr (to_string jq))) as -> by (by simplify_map_eq).
  assert (kwargs !! "z" = Some z) as -> by (by simplify_map_eq).
  assert (kwargs !! "k" = None) as -> by (by simplify_map_eq).
  cbn [default from_option]. unfold Datatypes.id, annihilation_init.
  assert (Hm' : u_Quantity (VStr (to_string mq)) = Ok mq) by (cbn; by rewrite Hmass).
  assert (Hj' : u_Quantity (VStr (to_string jq)) = Ok jq) by (cbn; by rewrite Hjf).
  rewrite Hm'. bind_step. rewrite Hj'. bind_step.
  rewrite (PrimaryFlux_init_same_quantity _ (VQuantity mq)) by (by rewrite Hm').
  rewrite Hpf. bind_step. done.
Qed.

End Spectra.

(** *** Out-of-range energies *)

Lemma in_axis_range_above x nodes hi :
  list_max nodes = Some hi → hi < x → in_axis_range x nodes = false.
Proof.
  intros Hmax Hx. unfold in_axis_range. rewrite Hmax.
  destruct (list_min nodes); [| done].
  rewrite (Rltb_true hi x) by done. apply andb_false_r.
Qed.

Lemma in_axis_range_below x nodes lo :
  list_min nodes = Some lo → x < lo → in_axis_range x nodes = false.
Proof.
  intros Hmin Hx. unfold in_axis_range. rewrite Hmin.
  destruct (list_max nodes); [| done].
  by rewrite (Rltb_true x lo).
Qed.

(** The interpolant of a constructed [PrimaryFlux], queried outside the
    nodes of the log-energy-ratio axis with the mass of the object. *)
Lemma template_evaluate_out_of_range in_domain self log10x kwargs log10x_axis_nodes
    mass_nodes data :
  pf_map self
  = mkMap (mkGeom [mkAxis "energy_true" log10x_axis_nodes "lin" dimensionless_unscaled;
                   mkAxis "mass" mass_nodes "log" GeV]) data →
  pf_interp_kwargs self = mkInterpKwargs true 0 "lin" →
  in_axis_range log10x log10x_axis_nodes = false →
  template_evaluate in_domain self log10x (<["mass" := mDM self]> kwargs)
  = Ok (mkQ 0 dimensionless_unscaled).
Proof.
  intros Hmap Hkw Hrange. unfold template_evaluate. rewrite Hmap, Hkw.
  cbn [geom_axes map_geom axis_by_name ax_name String.eqb Ascii.eqb Bool.eqb
       ax_unit ax_nodes].
  rewrite lookup_insert_eq.
  unfold to_value, q_to, mDM. cbn [qunit qvalue]. rewrite dim_eqb_refl. bind_step.
  by rewrite Hrange.
Qed.

(** C4.  For a [PrimaryFlux] that the constructor has built and an energy
    with [x = energy / mDM] positive: the interpolation keywords are
    extrapolation enabled and fill value 0; an energy whose [log10 x] lies
    above the greatest or below the least node of the log-energy-ratio axis
    raises no error, [evaluate] returns the flux 0; and when the greatest
    node lies below 0, every energy with [x >= 1] gets the flux 0. *)
Theorem out_of_range_energy_gives_zero parse_quantity template_initial_value table_file
    in_domain mDM_arg channel self energy kwargs :
  PrimaryFlux_init parse_quantity template_initial_value table_file mDM_arg channel
  = Ok self →
  udim (qunit energy) = udim GeV →
  0 < energy_fraction self energy →
  let zero := Ok (mkQ 0 (unit_div dimensionless_unscaled (qunit energy))) in
  let flux := evaluate (template_evaluate in_domain) self energy kwargs in
  pf_interp_kwargs self = mkInterpKwargs true 0 "lin" ∧
  (∀ hi, list_max (log10x_nodes self) = Some hi →
         hi < log10 (energy_fraction self energy) → flux = zero) ∧
  (∀ lo, list_min (log10x_nodes self) = Some lo →
         log10 (energy_fraction self energy) < lo → flux = zero) ∧
  (∀ hi, list_max (log10x_nodes self) = Some hi → hi < 0 →
         1 <= energy_fraction self energy → flux = zero).
Proof.
  intros Hinit Hdim Hx zero flux.
  apply PrimaryFlux_init_inv in Hinit
    as (t & c & mcol & xcol & name & col & self0 & _ & _ & _ & _ & _ & _ & _
        & Hself0 & _ & Hself).
  destruct (mDM_setter_frame parse_quantity mDM_arg self0)
    as (_ & _ & Hmap & Hkw & _).
  assert (Hmap' : pf_map self = pf_map self0) by (by rewrite Hself).
  assert (Hkw' : pf_interp_kwargs self = pf_interp_kwargs self0) by (by rewrite Hself).
  rewrite Hself0 in Hmap', Hkw'. cbn [pf_map pf_interp_kwargs] in Hmap', Hkw'.
  assert (Hnodes : log10x_nodes self = np_unique xcol).
  { unfold log10x_nodes. by rewrite Hmap'. }
  assert (Hzero : in_axis_range (log10 (energy_fraction self energy)) (np_unique xcol)
                  = false → flux = zero).
  { intros Hrange. unfold flux, zero.
    erewrite evaluate_Ok; [| done | done |].
    2: { by eapply template_evaluate_out_of_range. }
    f_equal. apply quantity_eq; cbn [qvalue qunit]; [| done].
    unfold Rdiv. ring. }
  rewrite Hnodes. split_and!; [done | | |].
  - intros hi Hmax Hhi. apply Hzero. by eapply in_axis_range_above.
  - intros lo Hmin Hlo. apply Hzero. by eapply in_axis_range_below.
  - intros hi Hmax Hhi H1. apply Hzero. eapply in_axis_range_above; [done |].
    pose proof (log10_nonneg _ H1). lra.
Qed.

(** *** The small data file *)

Ltac decide_reals :=
  repeat match goal with
  | |- context [Rlt_dec ?a ?b] => destruct (Rlt_dec a b); try lra
  | |- context [Rle_dec ?a ?b] => destruct (Rle_dec a b); try lra
  | |- context [Req_dec_T ?a ?b] => destruct (Req_dec_T a b); try lra
  end.

Lemma sample_masses : np_unique [100; 100; 10000; 10000] = [100; 10000].
Proof.
  unfold np_unique. cbn [foldr insert_unique].
  repeat (decide_reals; cbn [insert_unique]). done.
Qed.

Lemma sample_log10x : np_unique [-2; -1; -2; -1] = [-2; -1].
Proof.
  unfold np_unique. cbn [foldr insert_unique].
  repeat (decide_reals; cbn [insert_unique]). done.
Qed.

Lemma sample_bounds :
  list_min [100; 10000] = Some 100 ∧ list_max [100; 10000] = Some 10000.
Proof.
  unfold list_min, list_max. cbn [foldr]. unfold Rmin, Rmax.
  split; decide_reals; done.
Qed.

Lemma sample_PrimaryFlux_init m :
  u_Quantity sample_parse m = Ok (mkQ 5000 GeV) →
  PrimaryFlux_init sample_parse sample_initial sample_file m (VStr "b") = Ok sample_flux.
Proof.
  intros Hm.
  erewrite (PrimaryFlux_init_ok sample_parse sample_initial sample_file sample_table "b" m
              (mkQ 5000 GeV) [100; 100; 10000; 10000] [-2; -1; -2; -1] "b"
              [0.5; 0.25; 0.75; 0.125] 100 10000).
  - by rewrite sample_masses, sample_log10x.
  - done.
  - apply (bool_decide_unpack _). by vm_compute.
  - done.
  - done.
  - done.
  - done.
  - by rewrite sample_masses, sample_log10x.
  - rewrite Hm. bind_step. unfold q_to. cbn [qunit qvalue udim GeV dim_eqb].
    cbn. f_equal. apply quantity_eq; cbn; [lra | done].
  - rewrite sample_masses. apply sample_bounds.
  - rewrite sample_masses. apply sample_bounds.
  - cbn. lra.
Qed.

Example channel_setter_foo :
  channel_setter sample_flux (VStr "foo")
  = (sample_flux, Raise (ValueError (invalid_channel_msg (VStr "foo")))).
Proof. reflexivity. Qed.

Example channel_setter_tau :
  channel_setter sample_flux (VStr "tau") = (with_channel sample_flux "tau", Ok tt).
Proof. reflexivity. Qed.

Example registry_get_mu : registry_get channel_registry "mu" = Ok "\[Mu]".
Proof. reflexivity. Qed.

Example py_repr_list_two : py_repr_list ["eL"; "eR"] = "['eL', 'eR']".
Proof. reflexivity. Qed.

Example PrimaryFlux_init_no_file :
  PrimaryFlux_init sample_parse sample_initial None (VQuantity (mkQ 5000 GeV)) (VStr "b")
  = Raise (FileNotFoundError file_not_found_msg).
Proof. reflexivity. Qed.

Example PrimaryFlux_init_no_unit :
  PrimaryFlux_init sample_parse sample_initial sample_file (VNum 5000) (VStr "b")
  = Raise (UnitConversionError dimensionless_unscaled GeV).
Proof.
  unfold PrimaryFlux_init, sample_file. bind_step.
  rewrite check_channel_spec, bool_decide_true
    by (apply (bool_decide_unpack _); by vm_compute).
  bind_step.
  change (column sample_table "mDM") with (Ok [100; 100; 10000; 10000] : result (list R)).
  bind_step.
  change (column sample_table "Log[10,x]") with (Ok [-2; -1; -2; -1] : result (list R)).
  bind_step.
  change (registry_get channel_registry "b") with (Ok "b" : result string).
  bind_step.
  change (column sample_table "b") with (Ok [0.5; 0.25; 0.75; 0.125] : result (list R)).
  bind_step.
  rewrite sample_masses, sample_log10x. reflexivity.
Qed.

Lemma sample_energy_fraction e :
  0 < e → 0 < energy_fraction sample_flux (mkQ e GeV).
Proof. intros He. unfold energy_fraction. cbn. lra. Qed.

Lemma sample_PrimaryFlux_call e :
  0 < e →
  PrimaryFlux_call sample_super_evaluate sample_flux (mkQ e GeV)
  = Ok (mkQ (0.5 / (e * ln 10)) (unit_div dimensionless_unscaled GeV)).
Proof.
  intros He. unfold PrimaryFlux_call.
  by rewrite (evaluate_Ok sample_super_evaluate sample_flux (mkQ e GeV) _
                (mkQ 0.5 dimensionless_unscaled) eq_refl (sample_energy_fraction e He)).
Qed.

Lemma sample_annihilation_init :
  annihilation_init sample_parse sample_initial sample_file
    (VQuantity (mkQ 5000 GeV)) (VStr "b") (VNum 1) (VNum 1) (VNum 0) (VNum 2)
  = Ok sample_annihilation.
Proof.
  unfold annihilation_init. cbn [u_Quantity]. bind_step.
  rewrite sample_PrimaryFlux_init by done. bind_step. done.
Qed.

(** *** The theorems at the small data file *)

Lemma evaluate_jacobian_witness :
  udim (qunit (mkQ 50 GeV)) = udim GeV ∧
  0 < energy_fraction sample_flux (mkQ 50 GeV) ∧
  ∃ dN_dE,
    evaluate sample_super_evaluate sample_flux (mkQ 50 GeV) ∅ = Ok dN_dE ∧
    qvalue dN_dE = 0.5 / (50 * ln 10).
Proof.
  assert (H1 : udim (qunit (mkQ 50 GeV)) = udim GeV) by reflexivity.
  assert (H2 : 0 < energy_fraction sample_flux (mkQ 50 GeV)).
  { apply sample_energy_fraction. lra. }
  split; [exact H1 |]. split; [exact H2 |].
  destruct (evaluate_jacobian sample_super_evaluate sample_flux (mkQ 50 GeV) ∅ H1 H2)
    as (Hok & _).
  destruct (Hok (mkQ 0.5 dimensionless_unscaled) eq_refl) as (dN_dE & E & V & _).
  exists dN_dE. split; [exact E | exact V].
Defined.

Lemma evaluate_ignores_mass_keyword_witness :
  delete "mass" ({[ "mass" := mkQ 1 GeV ]} : gmap string Quantity)
  = delete "mass" ({[ "mass" := mkQ 2 TeV ]} : gmap string Quantity) ∧
  evaluate sample_super_evaluate sample_flux (mkQ 50 GeV) {[ "mass" := mkQ 1 GeV ]}
  = evaluate sample_super_evaluate sample_flux (mkQ 50 GeV) {[ "mass" := mkQ 2 TeV ]}.
Proof.
  assert (H : delete "mass" ({[ "mass" := mkQ 1 GeV ]} : gmap string Quantity)
              = delete "mass" ({[ "mass" := mkQ 2 TeV ]} : gmap string Quantity)).
  { by rewrite !delete_singleton_eq. }
  split; [exact H |].
  exact (evaluate_ignores_mass_keyword sample_super_evaluate sample_flux (mkQ 50 GeV)
           _ _ H).
Defined.

Lemma annihilation_evaluate_formula_witness :
  ann_z sample_annihilation = VNum 0 ∧
  ann_k sample_annihilation = VNum 2 ∧
  (2 : R) ≠ 0 ∧
  qvalue (ann_mass sample_annihilation) ≠ 0 ∧
  ∃ flux,
    annihilation_evaluate sample_super_evaluate sample_annihilation (mkQ 50 GeV) 1
    = Ok flux ∧
    qvalue flux
    = 1 * 1 * 3e-26 * (0.5 / (50 * (1 + 0) * ln 10)) / (2 * 5000 ^ 2 * (4 * PI)).
Proof.
  assert (H3 : (2 : R) ≠ 0) by lra.
  assert (H4 : qvalue (ann_mass sample_annihilation) ≠ 0) by (cbn; lra).
  assert (H5 : PrimaryFlux_call sample_super_evaluate
                 (ann_primary_flux sample_annihilation)
                 (q_rscale (mkQ 50 GeV) (1 + 0))
               = Ok (mkQ (0.5 / (50 * (1 + 0) * ln 10))
                         (unit_div dimensionless_unscaled GeV))).
  { apply (sample_PrimaryFlux_call (50 * (1 + 0))). lra. }
  split; [reflexivity |]. split; [reflexivity |]. split; [exact H3 |]. split; [exact H4 |].
  destruct (annihilation_evaluate_formula sample_super_evaluate sample_annihilation
              (mkQ 50 GeV) 1 0 2 _ eq_refl eq_refl H3 H4 H5)
    as (_ & flux & E & V & _).
  exists flux. split; [exact E | exact V].
Defined.

Lemma decay_evaluate_formula_witness :
  dec_z sample_decay = VNum 0 ∧
  qvalue (dec_mass sample_decay) ≠ 0 ∧
  ∃ flux,
    decay_evaluate sample_super_evaluate sample_decay (mkQ 50 GeV) 1 = Ok flux ∧
    qvalue flux
    = 1 * 1 * (0.5 / (50 * (1 + 0) * ln 10)) / (4.3e17 * 5000 * (4 * PI)).
Proof.
  assert (H2 : qvalue (dec_mass sample_decay) ≠ 0) by (cbn; lra).
  assert (H3 : PrimaryFlux_call sample_super_evaluate (dec_primary_flux sample_decay)
                 (q_rscale (mkQ 50 GeV) (1 + 0))
               = Ok (mkQ (0.5 / (50 * (1 + 0) * ln 10))
                         (unit_div dimensionless_unscaled GeV))).
  { apply (sample_PrimaryFlux_call (50 * (1 + 0))). lra. }
  split; [reflexivity |]. split; [exact H2 |].
  destruct (decay_evaluate_formula sample_super_evaluate sample_decay
              (mkQ 50 GeV) 1 0 _ eq_refl H2 H3)
    as (_ & flux & E & V & _).
  exists flux. split; [exact E | exact V].
Defined.

Lemma out_of_range_energy_gives_zero_witness :
  PrimaryFlux_init sample_parse sample_initial sample_file
    (VQuantity (mkQ 5000 GeV)) (VStr "b") = Ok sample_flux ∧
  udim (qunit (mkQ 6000 GeV)) = udim GeV ∧
  0 < energy_fraction sample_flux (mkQ 6000 GeV) ∧
  list_max (log10x_nodes sample_flux) = Some (Rmax (-1) (-2)) ∧
  Rmax (-1) (-2) < 0 ∧
  1 <= energy_fraction sample_flux (mkQ 6000 GeV) ∧
  evaluate (template_evaluate sample_in_domain) sample_flux (mkQ 6000 GeV) ∅
  = Ok (mkQ 0 (unit_div dimensionless_unscaled GeV)).
Proof.
  assert (H1 : PrimaryFlux_init sample_parse sample_initial sample_file
                 (VQuantity (mkQ 5000 GeV)) (VStr "b") = Ok sample_flux).
  { by apply sample_PrimaryFlux_init. }
  assert (H2 : udim (qunit (mkQ 6000 GeV)) = udim GeV) by reflexivity.
  assert (H3 : 0 < energy_fraction sample_flux (mkQ 6000 GeV)).
  { apply sample_energy_fraction. lra. }
  assert (H4 : list_max (log10x_nodes sample_flux) = Some (Rmax (-1) (-2)))
    by reflexivity.
  assert (H5 : Rmax (-1) (-2) < 0).
  { unfold Rmax. destruct (Rle_dec (-1) (-2)); lra. }
  assert (H6 : 1 <= energy_fraction sample_flux (mkQ 6000 GeV)).
  { unfold energy_fraction. cbn. lra. }
  split_and!; try done.
  destruct (out_of_range_energy_gives_zero sample_parse sample_initial sample_file
              sample_in_domain _ _ sample_flux (mkQ 6000 GeV) ∅ H1 H2 H3)
    as (_ & _ & _ & Hzero).
  exact (Hzero _ H4 H5 H6).
Defined.

Lemma mDM_setter_bounds_witness :
  p_min (pf_mass sample_flux) = Some 100 ∧
  p_max (pf_mass sample_flux) = Some 10000 ∧
  uscale (p_unit (pf_mass sample_flux)) ≠ 0 ∧
  (q0 ← u_Quantity sample_parse (VQuantity (mkQ 7 TeV));
   q_to q0 (p_unit (pf_mass sample_flux))) = Ok (mkQ (7 * (1000 / 1)) GeV) ∧
  (q0 ← u_Quantity sample_parse (VQuantity (mkQ 70 TeV));
   q_to q0 (p_unit (pf_mass sample_flux))) = Ok (mkQ (70 * (1000 / 1)) GeV) ∧
  mDM (mDM_setter sample_parse (VQuantity (mkQ 7 TeV)) sample_flux).1
  = mkQ (7 * (1000 / 1)) GeV ∧
  (mDM_setter sample_parse (VQuantity (mkQ 70 TeV)) sample_flux).2
  = Raise (ValueError
             [ Txt "The mass "; FQty (Some (mkQ (70 * (1000 / 1)) GeV));
               Txt " is out of the bounds of the model. Please choose a mass between ";
               FQty (Some (mkQ 100 GeV)); Txt " < `mDM` < ";
               FQty (Some (mkQ 10000 GeV)) ]) ∧
  mDM (mDM_setter sample_parse (VQuantity (mkQ 70 TeV)) sample_flux).1 = mkQ 5000 GeV.
Proof.
  assert (Hu : uscale (p_unit (pf_mass sample_flux)) ≠ 0) by (cbn; lra).
  assert (Hin : 100 <= qvalue (mkQ (7 * (1000 / 1)) GeV) <= 10000) by (cbn; lra).
  assert (Hout : qvalue (mkQ (70 * (1000 / 1)) GeV) < 100
                 ∨ 10000 < qvalue (mkQ (70 * (1000 / 1)) GeV)) by (right; cbn; lra).
  destruct (mDM_setter_bounds sample_parse sample_flux (VQuantity (mkQ 7 TeV))
              (mkQ (7 * (1000 / 1)) GeV) 100 10000 eq_refl eq_refl Hu eq_refl)
    as (_ & _ & Hcommit).
  destruct (mDM_setter_bounds sample_parse sample_flux (VQuantity (mkQ 70 TeV))
              (mkQ (70 * (1000 / 1)) GeV) 100 10000 eq_refl eq_refl Hu eq_refl)
    as (_ & Hreject & _).
  destruct (Hcommit Hin) as (_ & Hread).
  destruct (Hreject Hout) as (Hraise & Hkept).
  split_and!; try done. by rewrite Hraise.
Defined.

(** C5, the counterexample.  The object [sample_flux] has the mass 5000
    GeV and the bounds 100 GeV and 10000 GeV.  The candidate [nan] GeV is
    in the unit of the mass parameter, and its value does not lie in the
    interval from 100 to 10000; yet the setter raises nothing and assigns
    [nan] as the mass.  So not every candidate outside the interval is
    rejected. *)
Lemma mDM_setter_bounds_counterexample :
  p_unit (pf_mass sample_flux) = GeV ∧
  p_min (pf_mass sample_flux) = Some 100 ∧
  p_max (pf_mass sample_flux) = Some 10000 ∧
  float_le (Number 100) NaN && float_le NaN (Number 10000) = false ∧
  mDM_setter_float (mkFQ NaN GeV) sample_flux = Ok NaN ∧
  ¬ (∀ v, float_le (Number 100) v && float_le v (Number 10000) = false →
          ∃ e, mDM_setter_float (mkFQ v GeV) sample_flux = Raise e).
Proof.
  split_and!; try reflexivity.
  intros H. destruct (H NaN eq_refl) as [e He]. discriminate He.
Qed.

Lemma sample_from_dict :
  ∃ σ', annihilation_from_dict sample_parse sample_initial sample_file (VRef 0)
          sample_store = (σ', Ok sample_annihilation).
Proof.
  unfold annihilation_from_dict.
  rewrite (ste_bind_Ok _ _ _ sample_store (VRef 1)).
  2: { eapply get_item_lookup; [reflexivity |]. apply lookup_singleton_eq. }
  erewrite ste_bind_Ok.
  2: { eapply dict_pop_lookup; [reflexivity |]. by simplify_map_eq. }
  erewrite ste_bind_Ok.
  2: { eapply dict_pop_lookup; [by rewrite lookup_insert_eq |]. by simplify_map_eq. }
  rewrite insert_insert_eq.
  erewrite ste_bind_Ok.
  2: { unfold iterate. rewrite lookup_insert_ne by done.
       replace (sample_store !! 2%nat) with (Some (OList [VRef 3])) by reflexivity.
       done. }
  erewrite ste_bind_Ok.
  2: { cbn [scale_values].
       erewrite ste_bind_Ok.
       2: { eapply get_item_lookup; [rewrite lookup_insert_ne by done; reflexivity |].
            by simplify_map_eq. }
       cbn [is_scale String.eqb Ascii.eqb Bool.eqb].
       erewrite ste_bind_Ok.
       2: { eapply get_item_lookup; [rewrite lookup_insert_ne by done; reflexivity |].
            by simplify_map_eq. }
       done. }
  cbn [first]. rewrite (ste_bind_Ok _ _ _ _ (VNum 1)) by done.
  erewrite ste_bind_Ok.
  2: { unfold dict_contents. by rewrite lookup_insert_eq. }
  eexists. unfold lift. f_equal.
  unfold bind_kwargs.
  rewrite bool_decide_false.
  2: { rewrite not_elem_of_dom. by simplify_map_eq. }
  match goal with |- context [bool_decide (dom ?d ⊆ ?names)] =>
    replace (bool_decide (dom d ⊆ names)) with true by (by vm_compute) end.
  bind_step. unfold annihilation_new.
  match goal with |- context [<["scale" := ?v]> ?d] => set (kwargs := <["scale" := v]> d) end.
  assert (kwargs !! "mass" = Some (VStr "5000.0 GeV")) as -> by (by simplify_map_eq).
  assert (kwargs !! "channel" = Some (VStr "b")) as -> by (by simplify_map_eq).
  assert (kwargs !! "scale" = Some (VNum 1)) as -> by (by simplify_map_eq).
  assert (kwargs !! "jfactor" = Some (VStr "1.0")) as -> by (by simplify_map_eq).
  assert (kwargs !! "z" = Some (VNum 0)) as -> by (by simplify_map_eq).
  assert (kwargs !! "k" = Some (VNum 2)) as -> by (by simplify_map_eq).
  cbn [default from_option]. unfold Datatypes.id, annihilation_init.
  cbn [u_Quantity sample_parse String.eqb Ascii.eqb Bool.eqb]. bind_step.
  rewrite sample_PrimaryFlux_init by done. bind_step. done.
Qed.







Lemma from_dict_mutates_argument_witness :
  ∃ σ',
    from_dict_returns sample_parse sample_initial sample_file (VRef 0) sample_store σ' ∧
    spectral_popped sample_store σ' (VRef 0).
Proof.
  destruct sample_from_dict as (σ' & H).
  assert (Hret : from_dict_returns sample_parse sample_initial sample_file (VRef 0)
                   sample_store σ').
  { left. exists sample_annihilation. exact H. }
  exists σ'. split; [exact Hret |].
  exact (from_dict_mutates_argument sample_parse sample_initial sample_file (VRef 0)
           sample_store σ' Hret).
Defined.

(** *** The further properties at the small data file *)

Lemma sample_flux_valid : pf_valid sample_flux.
Proof.
  split_and!.
  - apply (bool_decide_unpack _). by vm_compute.
  - cbn. apply Rltb_false. lra.
  - cbn. apply Rltb_false. lra.
Qed.

Lemma sample_PrimaryFlux_init_tau :
  PrimaryFlux_init sample_parse sample_initial sample_file (VQuantity (mkQ 5000 GeV))
    (VStr "tau") = Raise (KeyError "\[Tau]").
Proof.
  unfold PrimaryFlux_init, sample_file. bind_step.
  rewrite check_channel_spec, bool_decide_true
    by (apply (bool_decide_unpack _); by vm_compute).
  bind_step.
  change (column sample_table "mDM") with (Ok [100; 100; 10000; 10000] : result (list R)).
  bind_step.
  change (column sample_table "Log[10,x]") with (Ok [-2; -1; -2; -1] : result (list R)).
  bind_step.
  change (registry_get channel_registry "tau") with (Ok "\[Tau]" : result string).
  bind_step.
  change (column sample_table "\[Tau]") with (Raise (KeyError "\[Tau]") : result (list R)).
  done.
Qed.

Lemma sample_decay_derived :
  decay_derived sample_parse sample_initial sample_file sample_decay.
Proof. split; [| done]. by apply sample_PrimaryFlux_init. Qed.

Lemma PrimaryFlux_init_establishes_witness :
  PrimaryFlux_init sample_parse sample_initial sample_file (VQuantity (mkQ 5000 GeV))
    (VStr "b") = Ok sample_flux ∧
  pf_valid sample_flux ∧
  p_min (pf_mass sample_flux) = list_min (mass_nodes sample_flux) ∧
  p_max (pf_mass sample_flux) = list_max (mass_nodes sample_flux) ∧
  p_frozen (pf_mass sample_flux) = true.
Proof.
  assert (H : PrimaryFlux_init sample_parse sample_initial sample_file
                (VQuantity (mkQ 5000 GeV)) (VStr "b") = Ok sample_flux).
  { by apply sample_PrimaryFlux_init. }
  split; [exact H |].
  destruct (PrimaryFlux_init_establishes sample_parse sample_initial sample_file
              _ _ sample_flux H) as (Hv & _ & Hf & Hmin & Hmax & _).
  split; [exact Hv |]. split; [exact Hmin |]. split; [exact Hmax | exact Hf].
Defined.

Lemma setters_keep_valid_witness :
  pf_valid sample_flux ∧
  pf_valid (mDM_setter sample_parse (VQuantity (mkQ 70 TeV)) sample_flux).1 ∧
  pf_valid (channel_setter sample_flux (VStr "foo")).1 ∧
  mDM_setter_float (mkFQ NaN TeV) sample_flux = Ok NaN.
Proof.
  split; [exact sample_flux_valid |].
  destruct (setters_keep_valid sample_parse sample_flux (VQuantity (mkQ 70 TeV))
              (VStr "foo") sample_flux_valid) as (Hm & Hc & Hnan).
  split; [exact Hm |]. split; [exact Hc |]. exact (Hnan TeV eq_refl).
Defined.

Lemma mDM_set_get_witness :
  p_unit (pf_mass sample_flux) = GeV ∧
  lt_float (p_value (pf_mass sample_flux)) (p_min (pf_mass sample_flux)) = false ∧
  gt_float (p_value (pf_mass sample_flux)) (p_max (pf_mass sample_flux)) = false ∧
  mDM_setter sample_parse (VQuantity (mDM sample_flux)) sample_flux = (sample_flux, Ok tt).
Proof.
  destruct sample_flux_valid as (_ & Hlt & Hgt).
  split; [reflexivity |]. split; [exact Hlt |]. split; [exact Hgt |].
  exact (mDM_set_get sample_parse sample_flux eq_refl Hlt Hgt).
Defined.

Lemma mDM_setter_unit_invariant_witness :
  udim (qunit (mkQ 7 TeV)) = udim (p_unit (pf_mass sample_flux)) ∧
  udim (qunit (mkQ 7000 GeV)) = udim (p_unit (pf_mass sample_flux)) ∧
  qvalue (mkQ 7 TeV) * uscale (qunit (mkQ 7 TeV))
  = qvalue (mkQ 7000 GeV) * uscale (qunit (mkQ 7000 GeV)) ∧
  mDM_setter sample_parse (VQuantity (mkQ 7 TeV)) sample_flux
  = mDM_setter sample_parse (VQuantity (mkQ 7000 GeV)) sample_flux.
Proof.
  assert (H : qvalue (mkQ 7 TeV) * uscale (qunit (mkQ 7 TeV))
              = qvalue (mkQ 7000 GeV) * uscale (qunit (mkQ 7000 GeV))) by (cbn; lra).
  split; [reflexivity |]. split; [reflexivity |]. split; [exact H |].
  exact (mDM_setter_unit_invariant sample_parse (mkQ 7 TeV) (mkQ 7000 GeV) sample_flux
           eq_refl eq_refl H).
Defined.

Lemma evaluate_unit_consistent_witness :
  udim (qunit (mkQ 0.05 TeV)) = udim GeV ∧
  udim (qunit (mkQ 50 GeV)) = udim GeV ∧
  qvalue (mkQ 0.05 TeV) * uscale (qunit (mkQ 0.05 TeV))
  = qvalue (mkQ 50 GeV) * uscale (qunit (mkQ 50 GeV)) ∧
  0 < energy_fraction sample_flux (mkQ 0.05 TeV) ∧
  ∃ r1 r2,
    evaluate sample_super_evaluate sample_flux (mkQ 0.05 TeV) ∅ = Ok r1 ∧
    evaluate sample_super_evaluate sample_flux (mkQ 50 GeV) ∅ = Ok r2 ∧
    qvalue r2 / 1 = qvalue r1 / 1000.
Proof.
  assert (H3 : qvalue (mkQ 0.05 TeV) * uscale (qunit (mkQ 0.05 TeV))
               = qvalue (mkQ 50 GeV) * uscale (qunit (mkQ 50 GeV))) by (cbn; lra).
  assert (H4 : 0 < energy_fraction sample_flux (mkQ 0.05 TeV)).
  { unfold energy_fraction. cbn. lra. }
  split; [reflexivity |]. split; [reflexivity |]. split; [exact H3 |]. split; [exact H4 |].
  destruct (evaluate_unit_consistent sample_super_evaluate sample_flux (mkQ 0.05 TeV)
              (mkQ 50 GeV) ∅ eq_refl eq_refl H3 H4) as (Hok & _).
  assert (E1 : evaluate sample_super_evaluate sample_flux (mkQ 0.05 TeV) ∅
               = Ok (mkQ (0.5 / (0.05 * ln 10)) (unit_div dimensionless_unscaled TeV))).
  { by rewrite (evaluate_Ok sample_super_evaluate sample_flux (mkQ 0.05 TeV) _
                  (mkQ 0.5 dimensionless_unscaled) eq_refl H4). }
  destruct (Hok _ E1) as (r2 & E2 & Hv & _).
  eexists _, r2. split; [exact E1 |]. split; [exact E2 | exact Hv].
Defined.

Lemma PrimaryFlux_init_KeyError_witness :
  sample_file = Some (Ok sample_table) ∧
  PrimaryFlux_init sample_parse sample_initial sample_file (VQuantity (mkQ 5000 GeV))
    (VStr "tau") = Raise (KeyError "\[Tau]") ∧
  sample_table !! "\[Tau]" = None.
Proof.
  split; [reflexivity |]. split; [exact sample_PrimaryFlux_init_tau |].
  destruct (PrimaryFlux_init_KeyError sample_parse sample_initial sample_file sample_table
              _ _ _ eq_refl sample_PrimaryFlux_init_tau) as [H _].
  exact H.
Defined.

Lemma channel_setter_keeps_interpolant_witness :
  (∀ s ch log10x kw,
     template_evaluate sample_in_domain (with_channel s ch) log10x kw
     = template_evaluate sample_in_domain s log10x kw) ∧
  evaluate (template_evaluate sample_in_domain) (channel_setter sample_flux (VStr "tau")).1
    (mkQ 50 GeV) ∅
  = evaluate (template_evaluate sample_in_domain) sample_flux (mkQ 50 GeV) ∅.
Proof.
  assert (H : ∀ s ch log10x kw,
            template_evaluate sample_in_domain (with_channel s ch) log10x kw
            = template_evaluate sample_in_domain s log10x kw) by reflexivity.
  split; [exact H |].
  destruct (channel_setter_keeps_interpolant (template_evaluate sample_in_domain)
              sample_flux (VStr "tau") (mkQ 50 GeV) ∅ H) as (_ & _ & _ & _ & E).
  exact E.
Defined.


Lemma from_dict_missing_keys_witness :
  sample_store_no_parameters !! 0%nat = Some (ODict {[ "spectral" := VRef 1 ]}) ∧
  decay_from_dict sample_parse sample_initial sample_file (VRef 0)
    sample_store_no_parameters
  = (<[1%nat := ODict (delete "type"
                         {[ "type" := VStr "DarkMatterDecaySpectralModel" ]})]>
       sample_store_no_parameters,
     Raise (KeyError "parameters")).
Proof.
  assert (H : sample_store_no_parameters !! 0%nat
              = Some (ODict {[ "spectral" := VRef 1 ]})) by reflexivity.
  split; [exact H |].
  destruct (from_dict_missing_keys sample_parse sample_initial sample_file
              sample_store_no_parameters 0%nat _ H) as [_ Hin].
  destruct (Hin 1%nat {[ "type" := VStr "DarkMatterDecaySpectralModel" ]}
              eq_refl eq_refl) as [_ Hps].
  destruct (Hps (ex_intro _ (VStr "DarkMatterDecaySpectralModel") eq_refl) eq_refl)
    as [_ Hd].
  exact Hd.
Defined.

Lemma sample_entry_index :
  param_entry sample_store_entries (VRef 5) (VStr "index") None.
Proof. exists 5%nat, {[ "name" := VStr "index" ]}. by split_and!. Qed.

Lemma sample_entry_scale :
  param_entry sample_store_entries (VRef 6) (VStr "scale") (Some (VNum 3)).
Proof.
  exists 6%nat, {[ "name" := VStr "scale"; "value" := VNum 3 ]}. by split_and!.
Qed.

Lemma scale_selection_witness :
  Forall (fun item => ∃ name w, param_entry sample_store_entries item name w
                                ∧ is_scale name = false) [VRef 5] ∧
  param_entry sample_store_entries (VRef 6) (VStr "scale") (Some (VNum 3)) ∧
  (scales ⇐ scale_values [VRef 5]; lift (first scales)) sample_store_entries
  = (sample_store_entries, Raise IndexError) ∧
  (scales ⇐ scale_values [VRef 5; VRef 6]; lift (first scales)) sample_store_entries
  = (sample_store_entries, Ok (VNum 3)).
Proof.
  assert (Hpre : Forall (fun item => ∃ name w,
                           param_entry sample_store_entries item name w
                           ∧ is_scale name = false) [VRef 5]).
  { apply Forall_cons. split; [| apply Forall_nil_2].
    exists (VStr "index"), None. split; [exact sample_entry_index | reflexivity]. }
  split; [exact Hpre |]. split; [exact sample_entry_scale |].
  destruct (scale_selection sample_store_entries [VRef 5] (VRef 6) (VNum 3) []
              Hpre sample_entry_scale) as (Hnone & Hsome & _).
  split; [exact Hnone |]. exact (Hsome [] eq_refl).
Defined.

Lemma sample_no_scale_popped :
  <[1%nat := ODict (delete "parameters" (delete "type" sample_inner_no_scale))]>
    sample_store_no_scale !! 2%nat = Some (OList []).
Proof. by rewrite lookup_insert_ne. Qed.

Lemma from_dict_rejects_witness :
  sample_store_no_scale !! 0%nat = Some (ODict {[ "spectral" := VRef 1 ]}) ∧
  sample_store_no_scale !! 1%nat = Some (ODict sample_inner_no_scale) ∧
  sample_inner_no_scale !! "type" = Some (VStr "DarkMatterDecaySpectralModel") ∧
  sample_inner_no_scale !! "parameters" = Some (VRef 2) ∧
  annihilation_from_dict sample_parse sample_initial sample_file (VRef 0)
    sample_store_no_scale
  = (<[1%nat := ODict (delete "parameters" (delete "type" sample_inner_no_scale))]>
       sample_store_no_scale, Raise IndexError) ∧
  decay_from_dict sample_parse sample_initial sample_file (VRef 0)
    sample_store_no_scale
  = (<[1%nat := ODict (delete "parameters" (delete "type" sample_inner_no_scale))]>
       sample_store_no_scale, Raise IndexError).
Proof.
  assert (Hit : iterate (VRef 2)
                  (<[1%nat := ODict (delete "parameters"
                                       (delete "type" sample_inner_no_scale))]>
                     sample_store_no_scale)
                = (<[1%nat := ODict (delete "parameters"
                                       (delete "type" sample_inner_no_scale))]>
                     sample_store_no_scale, Ok [])).
  { unfold iterate. by rewrite sample_no_scale_popped. }
  split; [reflexivity |]. split; [reflexivity |]. split; [reflexivity |].
  split; [reflexivity |].
  destruct (from_dict_rejects sample_parse sample_initial sample_file
              sample_store_no_scale 0%nat {[ "spectral" := VRef 1 ]} 1%nat
              sample_inner_no_scale (VStr "DarkMatterDecaySpectralModel") (VRef 2) [] []
              eq_refl eq_refl eq_refl eq_refl eq_refl Hit eq_refl) as [Hnil _].
  exact (Hnil eq_refl).
Defined.

Lemma from_dict_ignores_type_witness :
  0%nat ≠ 1%nat ∧
  sample_store_no_parameters !! 0%nat = Some (ODict {[ "spectral" := VRef 1 ]}) ∧
  decay_from_dict sample_parse sample_initial sample_file (VRef 0)
    (<[1%nat := ODict (<["type" := VStr "DarkMatterDecaySpectralModel"]> ∅)]>
       sample_store_no_parameters)
  = decay_from_dict sample_parse sample_initial sample_file (VRef 0)
      (<[1%nat := ODict (<["type" := VNum 7]> ∅)]> sample_store_no_parameters).
Proof.
  assert (Hne : 0%nat ≠ 1%nat) by discriminate.
  split; [exact Hne |]. split; [reflexivity |].
  destruct (from_dict_ignores_type sample_parse sample_initial sample_file
              sample_store_no_parameters 0%nat {[ "spectral" := VRef 1 ]} 1%nat ∅
              (VStr "DarkMatterDecaySpectralModel") (VNum 7) Hne eq_refl eq_refl)
    as [_ Hd].
  exact Hd.
Defined.

Lemma decay_round_trip_witness :
  decay_derived sample_parse sample_initial sample_file sample_decay ∧
  sample_parse (sample_to_string (dec_mass sample_decay)) = Some (dec_mass sample_decay) ∧
  sample_parse (sample_to_string (dec_jfactor sample_decay))
  = Some (dec_jfactor sample_decay) ∧
  ∃ σ1 data σ2 self',
    decay_to_dict sample_to_string sample_decay false ∅ = (σ1, Ok data) ∧
    decay_from_dict sample_parse sample_initial sample_file data σ1 = (σ2, Ok self') ∧
    dec_mass self' = mkQ 5000 GeV ∧
    ∀ energy scale,
      decay_evaluate sample_super_evaluate self' energy scale
      = decay_evaluate sample_super_evaluate sample_decay energy scale.
Proof.
  assert (H2 : sample_parse (sample_to_string (dec_mass sample_decay))
               = Some (dec_mass sample_decay)) by reflexivity.
  assert (H3 : sample_parse (sample_to_string (dec_jfactor sample_decay))
               = Some (dec_jfactor sample_decay)) by reflexivity.
  split; [exact sample_decay_derived |]. split; [exact H2 |]. split; [exact H3 |].
  destruct (decay_round_trip sample_parse sample_to_string sample_super_evaluate
              sample_initial sample_file sample_decay false ∅
              sample_decay_derived H2 H3)
    as (_ & σ1 & data & σ2 & self' & Hto & Hfrom & _ & Hmass & _ & _ & _ & _ & _ & Heval).
  exists σ1, data, σ2, self'. split; [exact Hto |]. split; [exact Hfrom |].
  split; [exact Hmass | exact Heval].
Defined.

Lemma decay_rejects_annihilation_record_witness :
  p_name (ann_scale sample_annihilation) = "scale" ∧
  ∃ σ1 data σ2,
    annihilation_to_dict sample_to_string sample_annihilation false ∅ = (σ1, Ok data) ∧
    decay_from_dict sample_parse sample_initial sample_file data σ1
    = (σ2, Raise TypeError).
Proof.
  split; [reflexivity |].
  exact (decay_rejects_annihilation_record sample_parse sample_to_string sample_initial
           sample_file sample_annihilation false ∅ eq_refl).
Defined.

Lemma annihilation_reads_decay_record_witness :
  decay_derived sample_parse sample_initial sample_file sample_decay ∧
  sample_parse (sample_to_string (dec_mass sample_decay)) = Some (dec_mass sample_decay) ∧
  sample_parse (sample_to_string (dec_jfactor sample_decay))
  = Some (dec_jfactor sample_decay) ∧
  ∃ σ1 data σ2 self',
    decay_to_dict sample_to_string sample_decay false ∅ = (σ1, Ok data) ∧
    annihilation_from_dict sample_parse sample_initial sample_file data σ1
    = (σ2, Ok self') ∧
    ann_k self' = VNum 2 ∧ ann_mass self' = mkQ 5000 GeV.
Proof.
  assert (H2 : sample_parse (sample_to_string (dec_mass sample_decay))
               = Some (dec_mass sample_decay)) by reflexivity.
  assert (H3 : sample_parse (sample_to_string (dec_jfactor sample_decay))
               = Some (dec_jfactor sample_decay)) by reflexivity.
  split; [exact sample_decay_derived |]. split; [exact H2 |]. split; [exact H3 |].
  destruct (annihilation_reads_decay_record sample_parse sample_to_string sample_initial
              sample_file sample_decay false ∅ sample_decay_derived H2 H3)
    as (σ1 & data & σ2 & self' & Hto & Hfrom & Hk & _ & Hmass & _).
  exists σ1, data, σ2, self'. split; [exact Hto |]. split; [exact Hfrom |].
  split; [exact Hk | exact Hmass].
Defined.
